(** * usdc-bridge: balance.py, send.py and bridge.py

    A shallow embedding of the three command-line scripts.  Python floats are
    IEEE-754 binary64 values ([spec_float] with [prec = 53], [emax = 1024]),
    Python ints are [Z], [str] is [string] (a character is a code point below
    256; [upper] and [lower] change the ASCII letters), [bytes] is
    [list byte], a dict is an association list in insertion order.  Calls into
    web3, eth_account and requests are requests answered by an arbitrary
    environment, and each of them may raise; [time.sleep] leaves a mark in the
    trace of a run.  The environment variables are an argument [env], which
    also says which names the process cannot encode. *)

From Stdlib Require Import ZArith NArith QArith Qabs Qpower List String Ascii Bool Lia.
From Stdlib Require Import Floats.SpecFloat DecimalString.
From Stdlib Require Strings.Byte.
Import ListNotations.

Local Open Scope string_scope.
Local Open Scope Z_scope.

(** ** Exceptions

    Only instances of [Exception] are modelled (what [except Exception]
    catches); [str(e)] is [exn_msg]. *)

Record exn := Exn { exn_class : string; exn_msg : string }.

Definition py_str_exn (e : exn) : string := exn_msg e.

(** ** Python floats *)

Module PyFloat.

Definition prec : Z := 53.
Definition emax : Z := 1024.

Definition float := spec_float.

(** [float(n)] for an int [n], as done implicitly by [float * int]:
    round to nearest even, [OverflowError] when out of range. *)
Definition of_int (n : Z) : exn + float :=
  match binary_normalize prec emax n 0 false with
  | S754_infinity _ =>
      inl (Exn "OverflowError" "int too large to convert to float")
  | f => inr f
  end.

Definition mul (x y : float) : float := SFmul prec emax x y.

(** [int(x)]: truncation toward zero. *)
Definition to_int (x : float) : exn + Z :=
  match x with
  | S754_nan =>
      inl (Exn "ValueError" "cannot convert float NaN to integer")
  | S754_infinity _ =>
      inl (Exn "OverflowError" "cannot convert float infinity to integer")
  | S754_zero _ => inr 0
  | S754_finite s m e =>
      inr (cond_Zopp s (if 0 <=? e then Zpos m * 2 ^ e
                        else Zpos m / 2 ^ (- e)))
  end.

(** [a / b] for ints (true division): the correctly rounded quotient. *)
Definition int_truediv (a b : Z) : exn + float :=
  if b =? 0 then inl (Exn "ZeroDivisionError" "division by zero")
  else if a =? 0 then inr (S754_zero (b <? 0))
  else
    let '(q, e, l) := SFdiv_core_binary prec emax (Z.abs a) 0 (Z.abs b) 0 in
    match binary_round_aux prec emax (xorb (a <? 0) (b <? 0)) q e l with
    | S754_infinity _ =>
        inl (Exn "OverflowError"
                 "integer division result too large for a float")
    | f => inr f
    end.

(** The real number a float stands for. *)
Definition to_Q (x : float) : option Q :=
  match x with
  | S754_zero _ => Some 0%Q
  | S754_finite s m e =>
      Some (inject_Z (cond_Zopp s (Zpos m)) * Qpower 2 e)%Q
  | _ => None
  end.

Definition is_binary64 (x : float) : bool := valid_binary prec emax x.

End PyFloat.

(** [int(amount * (10 ** decimals))] of send.py:109 and bridge.py:215;
    [decimals] is the [uint8] the token contract answers. *)
Definition amount_to_raw (amount : PyFloat.float) (decimals : N) : exn + Z :=
  match PyFloat.of_int (10 ^ Z.of_N decimals) with
  | inl e => inl e
  | inr p => PyFloat.to_int (PyFloat.mul amount p)
  end.

(** The float that [float("2.01")] yields. *)
Definition float_2_01 : PyFloat.float := S754_finite false 4526117625507348 (-51).

(** [n] is an integer nearest to [x]. *)
Definition nearest_integer (x : Q) (n : Z) : Prop :=
  (Qabs (inject_Z n - x) <= 1 # 2)%Q.

(** The claim of exact scaling on one conversion.  An amount typed as a
    decimal is held as the float nearest to it, so the raw amount that is
    [amount * 10^decimals] is the integer nearest to the value of the float
    times [10^decimals]. *)
Definition scales_exactly (amount : PyFloat.float) (decimals : N) : Prop :=
  forall (q : Q) (raw : Z),
    PyFloat.to_Q amount = Some q ->
    amount_to_raw amount decimals = inr raw ->
    nearest_integer (q * inject_Z (10 ^ Z.of_N decimals)) raw.

(** Table check used for the powers of ten: [float(10 ** d)] is finite, and
    exact up to [d = 22]. *)
Definition pow10_check (d : N) : bool :=
  match PyFloat.of_int (10 ^ Z.of_N d) with
  | inr (S754_finite false m e) =>
      if (d <=? 22)%N
      then Qeq_bool (inject_Z (Zpos m) * Qpower 2 e) (inject_Z (10 ^ Z.of_N d))
      else true
  | _ => false
  end.

(** ** Python values, dicts, strings and bytes *)

#[local] Unset Elimination Schemes.
Inductive value :=
| VNone
| VBool (b : bool)
| VInt (z : Z)
| VFloat (f : PyFloat.float)
| VStr (s : string)
| VList (l : list value)
| VDict (d : list (string * value)).
#[local] Set Elimination Schemes.

(** A dict with [str] keys, in insertion order. *)
Definition dict := list (string * value).

Fixpoint dict_get {A : Type} (d : list (string * A)) (k : string) : option A :=
  match d with
  | [] => None
  | (k', v) :: d' => if String.eqb k k' then Some v else dict_get d' k
  end.

(** [k in d] *)
Definition dict_mem {A : Type} (d : list (string * A)) (k : string) : bool :=
  match dict_get d k with Some _ => true | None => false end.

Definition bytes := list Byte.byte.

Module PyStr.

Definition upper_ascii (c : ascii) : ascii :=
  let n := N_of_ascii c in
  if ((97 <=? n) && (n <=? 122))%N then ascii_of_N (n - 32) else c.

Definition lower_ascii (c : ascii) : ascii :=
  let n := N_of_ascii c in
  if ((65 <=? n) && (n <=? 90))%N then ascii_of_N (n + 32) else c.

(** [s.upper()], on ASCII text. *)
Fixpoint upper (s : string) : string :=
  match s with
  | EmptyString => EmptyString
  | String c s' => String (upper_ascii c) (upper s')
  end.

Fixpoint lower (s : string) : string :=
  match s with
  | EmptyString => EmptyString
  | String c s' => String (lower_ascii c) (lower s')
  end.

(** [s[n:]] *)
Fixpoint drop (n : nat) (s : string) : string :=
  match n, s with
  | O, _ => s
  | S n', String _ s' => drop n' s'
  | S _, EmptyString => EmptyString
  end.

Fixpoint zeros (n : nat) : string :=
  match n with
  | O => EmptyString
  | S n' => String "0" (zeros n')
  end.

(** [s.zfill(width)]: zeros go after a leading sign. *)
Definition zfill (width : nat) (s : string) : string :=
  let pad := (width - String.length s)%nat in
  match s with
  | String c s' =>
      if (Ascii.eqb c "+" || Ascii.eqb c "-")%bool
      then String c (zeros pad ++ s')
      else zeros pad ++ s
  | EmptyString => zeros pad
  end.

Definition is_space (c : ascii) : bool :=
  let n := N_of_ascii c in ((n =? 32) || ((9 <=? n) && (n <=? 13)))%N%bool.

(** Value of a hexadecimal digit. *)
Definition hex_val (c : ascii) : option N :=
  let n := N_of_ascii c in
  if ((48 <=? n) && (n <=? 57))%N then Some (n - 48)%N
  else if ((97 <=? n) && (n <=? 102))%N then Some (n - 87)%N
  else if ((65 <=? n) && (n <=? 70))%N then Some (n - 55)%N
  else None.

Definition is_hex_digit (c : ascii) : bool :=
  match hex_val c with Some _ => true | None => false end.

Definition byte_of_nibbles (top bot : N) : Byte.byte :=
  byte_of_ascii (ascii_of_N (16 * top + bot)).

Definition is_ascii (c : ascii) : bool := (N_of_ascii c <? 128)%N.

(** [str(n)] for a natural number. *)
Definition decimal (n : nat) : string := NilZero.string_of_uint (Nat.to_uint n).

(** What [bytes.fromhex] raises: [position] is the index of the character
    that is no hexadecimal digit, or of the end of the text where a digit
    lacks its pair. *)
Definition fromhex_error (position : nat) : exn :=
  Exn "ValueError"
      ("non-hexadecimal number found in fromhex() arg at position "
       ++ decimal position).

(** The bytes of [s], which starts at index [i] of the text: whitespace is
    skipped between bytes, each byte is two adjacent hexadecimal digits. *)
Fixpoint fromhex_from (i : nat) (s : string) : exn + bytes :=
  match s with
  | EmptyString => inr []
  | String c rest =>
      if is_space c then fromhex_from (S i) rest
      else
        match hex_val c with
        | None => inl (fromhex_error i)
        | Some top =>
            match rest with
            | EmptyString => inl (fromhex_error (S i))
            | String c' rest' =>
                match hex_val c' with
                | None => inl (fromhex_error (S i))
                | Some bot =>
                    match fromhex_from (S (S i)) rest' with
                    | inl e => inl e
                    | inr bs => inr (byte_of_nibbles top bot :: bs)
                    end
                end
            end
        end
  end.

(** The index of the first character outside ASCII, counted from [i]. *)
Fixpoint first_non_ascii (i : nat) (s : string) : option nat :=
  match s with
  | EmptyString => None
  | String c rest => if is_ascii c then first_non_ascii (S i) rest else Some i
  end.

(** [bytes.fromhex(s)]: a text that is not ASCII is refused at its first
    character outside ASCII, before any digit is read. *)
Definition fromhex (s : string) : exn + bytes :=
  match first_non_ascii 0 s with
  | Some i => inl (fromhex_error i)
  | None => fromhex_from 0 s
  end.

Definition hex_digit (n : N) : ascii :=
  if (n <? 10)%N then ascii_of_N (48 + n) else ascii_of_N (87 + n).

(** [b.hex()]: two lower-case digits per byte, no prefix.  The hashes web3
    returns are [HexBytes]; with the web3 release that has
    [signed.raw_transaction] their [hex()] is that of [bytes]. *)
Fixpoint hex (b : bytes) : string :=
  match b with
  | [] => EmptyString
  | x :: b' =>
      let n := Byte.to_N x in
      String (hex_digit (n / 16)) (String (hex_digit (n mod 16)) (hex b'))
  end.

Fixpoint all_chars (p : ascii -> bool) (s : string) : bool :=
  match s with
  | EmptyString => true
  | String c s' => p c && all_chars p s'
  end.

End PyStr.

(** ** The outside world

    A [Web3] instance is identified with the RPC URL it was built from, a
    contract with its instance, address and ABI.  [build_transaction] and
    [sign_transaction] either raise or hand back the transaction they were
    given, so a submitted transaction still shows the contract call in it.
    [print] is left out. *)

Definition w3 := option string.

Inductive abi :=
| Balance_ERC20_ABI
| Send_ERC20_ABI
| ERC20_APPROVE_ABI
| TOKEN_MESSENGER_ABI
| MESSAGE_TRANSMITTER_ABI.

Record contract := Contract { c_w3 : w3; c_address : string; c_abi : abi }.

Inductive contract_call :=
| transfer (_to : string) (_value : Z)
| approve (spender : string) (amount : Z)
| depositForBurn (amount destinationDomain : Z) (mintRecipient : bytes)
                 (burnToken : string)
| receiveMessage (message attestation : bytes).

Record tx := Tx {
  tx_contract : contract;
  tx_call : contract_call;
  tx_from : string;
  tx_nonce : Z;
  tx_gas : Z;
  tx_gasPrice : Z;
  tx_chainId : Z
}.

Record signed_tx := Signed { raw_transaction : tx; signing_key : string }.

(** Requests to the libraries, indexed by the type of their answer. *)
Inductive call : Type -> Type :=
| Web3_HTTPProvider (rpc_url : option string) : call unit
| is_connected (w : w3) : call bool
| Account_from_key (pk : string) : call string
| to_checksum_address (a : option string) : call string
| eth_contract (c : contract) : call unit
| call_decimals (c : contract) : call N
| call_balanceOf (c : contract) (owner : string) : call Z
| get_transaction_count (w : w3) (sender : string) : call Z
| gas_price (w : w3) : call Z
| chain_id (w : w3) : call Z
| contract_function (c : contract) (f : contract_call) : call unit
| build_transaction (t : tx) : call unit
| sign_transaction (w : w3) (t : tx) (pk : string) : call unit
| send_raw_transaction (w : w3) (raw : signed_tx) : call bytes
| wait_for_transaction_receipt (w : w3) (tx_hash : bytes) : call value
| requests_get_json (url : string) : call value.

(** Programs: a request is answered by a value or by an exception;
    [time.sleep] only leaves a mark. *)
Inductive prog (R : Type) : Type :=
| Ret (r : R)
| Raise (e : exn)
| Call {X : Type} (c : call X) (k : exn + X -> prog R)
| Sleep (seconds : Z) (k : prog R).

Arguments Ret {R} r.
Arguments Raise {R} e.
Arguments Call {R X} c k.
Arguments Sleep {R} seconds k.

Fixpoint bind {A B : Type} (p : prog A) (f : A -> prog B) : prog B :=
  match p with
  | Ret a => f a
  | Raise e => Raise e
  | Call c k => Call c (fun r => bind (k r) f)
  | Sleep n k => Sleep n (bind k f)
  end.

(** [try: body except Exception as e: handler e] *)
Fixpoint try_except {A : Type} (body : prog A) (handler : exn -> prog A) : prog A :=
  match body with
  | Ret a => Ret a
  | Raise e => handler e
  | Call c k => Call c (fun r => try_except (k r) handler)
  | Sleep n k => Sleep n (try_except k handler)
  end.

(** A pure operation that may raise. *)
Definition lift {A : Type} (r : exn + A) : prog A :=
  match r with inl e => Raise e | inr a => Ret a end.

Definition perform {X : Type} (c : call X) : prog X := Call c lift.

Definition time_sleep (seconds : Z) : prog unit := Sleep seconds (Ret tt).

Declare Scope prog_scope.
Delimit Scope prog_scope with prog.
Notation "x <- p ;; q" := (bind p (fun x => q))
  (at level 61, p at next level, right associativity) : prog_scope.
Notation "p ;; q" := (bind p (fun _ => q))
  (at level 61, right associativity) : prog_scope.
Local Open Scope prog_scope.

(** What a run leaves behind, in order. *)
Inductive event :=
| EvCall {X : Type} (c : call X) (r : exn + X)
| EvSleep (seconds : Z).

(** An environment answers every request, possibly depending on what it has
    seen so far. *)
Definition oracle (S : Type) : Type := forall X : Type, call X -> S -> (exn + X) * S.

Fixpoint run {S R : Type} (o : oracle S) (p : prog R) (s : S)
  : (exn + R) * list event * S :=
  match p with
  | Ret r => (inr r, [], s)
  | Raise e => (inl e, [], s)
  | Call c k =>
      let '(r, s') := o _ c s in
      let '(res, t, s'') := run o (k r) s' in
      (res, EvCall c r :: t, s'')
  | Sleep n k =>
      let '(res, t, s') := run o k s in
      (res, EvSleep n :: t, s')
  end.

Definition result_of {S R : Type} (x : (exn + R) * list event * S) : exn + R :=
  fst (fst x).
Definition trace_of {S R : Type} (x : (exn + R) * list event * S) : list event :=
  snd (fst x).

(** ** Pieces of Python used by the three functions *)

(** The environment of the process: its variables, and for a name with a
    character outside ASCII that the encoding of the process cannot encode,
    the message of the [UnicodeEncodeError] that encoding it raises.  The
    names of the variables were decoded by the process itself, so that each
    of them is encoded back. *)
Record environ := Environ {
  variables : string -> option string;
  encode_error : string -> option string;
  variables_encoded :
    forall (key v : string), variables key = Some v -> encode_error key = None
}.

(** The environment of a process that encodes every name. *)
Definition plain (variables : string -> option string) : environ :=
  Environ variables (fun _ => None) (fun _ _ _ => eq_refl).

(** The value of a variable, or [default]. *)
Definition env_value (variables : string -> option string) (key : string)
    (default : option string) : option string :=
  match variables key with Some v => Some v | None => default end.

(** [os.getenv(key, default)]: the name is encoded, then looked up. *)
Definition os_getenv (env : environ) (key : string) (default : option string)
  : exn + option string :=
  match (if PyStr.all_chars PyStr.is_ascii key then None else encode_error env key) with
  | Some msg => inl (Exn "UnicodeEncodeError" msg)
  | None => inr (env_value (variables env) key default)
  end.

(** [not s] for a [str] or [None]. *)
Definition py_not (s : option string) : bool :=
  match s with
  | None => true
  | Some EmptyString => true
  | Some _ => false
  end.

(** [a or b] *)
Definition py_or (a b : option string) : option string :=
  if py_not a then b else a.

(** [a or os.getenv(key)]: the environment is asked when [a] is empty or
    [None] only. *)
Definition py_or_getenv (a : option string) (env : environ) (key : string)
  : exn + option string :=
  if py_not a then os_getenv env key None else inr a.

Definition value_of_str (s : option string) : value :=
  match s with Some x => VStr x | None => VNone end.

(** [type(v).__name__] *)
Definition type_name (v : value) : string :=
  match v with
  | VNone => "NoneType"
  | VBool _ => "bool"
  | VInt _ => "int"
  | VFloat _ => "float"
  | VStr _ => "str"
  | VList _ => "list"
  | VDict _ => "dict"
  end.

(** [v.get(k)]; only a dict has [get]. *)
Definition py_get (v : value) (k : string) : exn + value :=
  match v with
  | VDict d => inr (match dict_get d k with Some x => x | None => VNone end)
  | _ => inl (Exn "AttributeError"
                  ("'" ++ type_name v ++ "' object has no attribute 'get'"))
  end.

(** [d[k]] *)
Definition py_subscript {A : Type} (d : list (string * A)) (k : string) : exn + A :=
  match dict_get d k with
  | Some x => inr x
  | None => inl (Exn "KeyError" ("'" ++ k ++ "'"))
  end.

(** [v == s] for a string literal [s]. *)
Definition py_eq_str (v : value) (s : string) : bool :=
  match v with VStr x => String.eqb x s | _ => false end.

(** [v[n:]] *)
Definition py_slice_from (n : nat) (v : value) : exn + value :=
  match v with
  | VStr s => inr (VStr (PyStr.drop n s))
  | VList l => inr (VList (skipn n l))
  | VDict _ => inl (Exn "TypeError" "unhashable type: 'slice'")
  | _ => inl (Exn "TypeError"
                  ("'" ++ type_name v ++ "' object is not subscriptable"))
  end.

(** [bytes.fromhex(v)] *)
Definition bytes_fromhex (v : value) : exn + bytes :=
  match v with
  | VStr s => PyStr.fromhex s
  | _ => inl (Exn "TypeError"
                  ("fromhex() argument must be str, not " ++ type_name v))
  end.

(** ** balance.py: tables and chain keys *)

Module Balance.

Definition USDC_ADDRESSES : list (string * string) :=
  [ ("ethereum", "0xA0b86991c6218b36c1d19D4a2e9Eb0cE3606eB48");
    ("ethereum_sepolia", "0x1c7D4B196Cb0C7B01d743Fbc6116a902379C7238");
    ("base", "0x833589fCD6eDb6E08f4c7C32D4f71b54bdA02913");
    ("base_sepolia", "0x036CbD53842c5426634e7929541eC2318f3dCF7e");
    ("polygon", "0x3c499c542cEF5E3811e1192ce70d8cC03d5c3359");
    ("polygon_mumbai", "0x9999f7Fea5938fD3b1E26A12c3f2fb024e194f97");
    ("arbitrum", "0xaf88d065e77c8cC2239327C5EDb3A432268e5831");
    ("arbitrum_sepolia", "0x75faf114eafb1BDbe2F0316DF893fd58CE46AA4d") ].

Definition DEFAULT_RPCS : list (string * string) :=
  [ ("ethereum", "https://eth.llamarpc.com");
    ("ethereum_sepolia", "https://ethereum-sepolia-rpc.publicnode.com");
    ("base", "https://base.llamarpc.com");
    ("base_sepolia", "https://base-sepolia-rpc.publicnode.com");
    ("polygon", "https://polygon.llamarpc.com");
    ("polygon_mumbai", "https://polygon-mumbai-bor-rpc.publicnode.com");
    ("arbitrum", "https://arbitrum.llamarpc.com");
    ("arbitrum_sepolia", "https://arbitrum-sepolia-rpc.publicnode.com") ].

Definition testnet_map : list (string * string) :=
  [ ("ethereum", "ethereum_sepolia");
    ("base", "base_sepolia");
    ("polygon", "polygon_mumbai");
    ("arbitrum", "arbitrum_sepolia") ].

(** balance.py:54 *)
Definition get_chain_key (chain : string) (testnet : bool) : string :=
  if testnet then
    match dict_get testnet_map chain with Some k => k | None => chain end
  else chain.

(** balance.py:67 *)
Definition get_balance (env : environ)
    (address chain : string) (testnet : bool) : prog dict :=
  let chain_key := get_chain_key chain testnet in
  let rpc_env_key := "USDC_RPC_" ++ PyStr.upper chain in
  rpc_url <- lift (os_getenv env rpc_env_key (dict_get DEFAULT_RPCS chain_key)) ;;
  if py_not rpc_url then
    Ret [("error", VStr ("No RPC URL for chain: " ++ chain_key))]
  else
  let usdc_address := dict_get USDC_ADDRESSES chain_key in
  if py_not usdc_address then
    Ret [("error", VStr ("USDC not supported on chain: " ++ chain_key))]
  else
  try_except
    (perform (Web3_HTTPProvider rpc_url) ;;
     let w3 := rpc_url in
     connected <- perform (is_connected w3) ;;
     if negb connected then
       Ret [("error", VStr ("Could not connect to " ++ chain_key ++ " RPC"))]
     else
     a <- perform (to_checksum_address usdc_address) ;;
     let contract := Contract w3 a Balance_ERC20_ABI in
     perform (eth_contract contract) ;;
     owner <- perform (to_checksum_address (Some address)) ;;
     balance_raw <- perform (call_balanceOf contract owner) ;;
     decimals <- perform (call_decimals contract) ;;
     balance <- lift (PyFloat.int_truediv balance_raw (10 ^ Z.of_N decimals)) ;;
     Ret [("address", VStr address);
          ("chain", VStr chain_key);
          ("testnet", VBool testnet);
          ("balance", VFloat balance);
          ("balance_raw", VInt balance_raw);
          ("decimals", VInt (Z.of_N decimals));
          ("usdc_contract", value_of_str usdc_address)])
    (fun e => Ret [("error", VStr (py_str_exn e))]).

End Balance.

(** ** send.py: tables and chain keys *)

Module Send.

Definition USDC_ADDRESSES : list (string * string) :=
  [ ("ethereum", "0xA0b86991c6218b36c1d19D4a2e9Eb0cE3606eB48");
    ("ethereum_sepolia", "0x1c7D4B196Cb0C7B01d743Fbc6116a902379C7238");
    ("base", "0x833589fCD6eDb6E08f4c7C32D4f71b54bdA02913");
    ("base_sepolia", "0x036CbD53842c5426634e7929541eC2318f3dCF7e");
    ("polygon", "0x3c499c542cEF5E3811e1192ce70d8cC03d5c3359");
    ("polygon_mumbai", "0x9999f7Fea5938fD3b1E26A12c3f2fb024e194f97");
    ("arbitrum", "0xaf88d065e77c8cC2239327C5EDb3A432268e5831");
    ("arbitrum_sepolia", "0x75faf114eafb1BDbe2F0316DF893fd58CE46AA4d") ].

Definition DEFAULT_RPCS : list (string * string) :=
  [ ("ethereum", "https://eth.llamarpc.com");
    ("ethereum_sepolia", "https://ethereum-sepolia-rpc.publicnode.com");
    ("base", "https://base.llamarpc.com");
    ("base_sepolia", "https://base-sepolia-rpc.publicnode.com");
    ("polygon", "https://polygon.llamarpc.com");
    ("polygon_mumbai", "https://polygon-mumbai-bor-rpc.publicnode.com");
    ("arbitrum", "https://arbitrum.llamarpc.com");
    ("arbitrum_sepolia", "https://arbitrum-sepolia-rpc.publicnode.com") ].

Definition testnet_map : list (string * string) :=
  [ ("ethereum", "ethereum_sepolia");
    ("base", "base_sepolia");
    ("polygon", "polygon_mumbai");
    ("arbitrum", "arbitrum_sepolia") ].

(** send.py:57 *)
Definition get_chain_key (chain : string) (testnet : bool) : string :=
  if testnet then
    match dict_get testnet_map chain with Some k => k | None => chain end
  else chain.

(** send.py:144 *)
Definition get_explorer_url (chain_key tx_hash : string) : string :=
  let explorers :=
    [ ("ethereum", "https://etherscan.io/tx/" ++ tx_hash);
      ("ethereum_sepolia", "https://sepolia.etherscan.io/tx/" ++ tx_hash);
      ("base", "https://basescan.org/tx/" ++ tx_hash);
      ("base_sepolia", "https://sepolia.basescan.org/tx/" ++ tx_hash);
      ("polygon", "https://polygonscan.com/tx/" ++ tx_hash);
      ("polygon_mumbai", "https://mumbai.polygonscan.com/tx/" ++ tx_hash);
      ("arbitrum", "https://arbiscan.io/tx/" ++ tx_hash);
      ("arbitrum_sepolia", "https://sepolia.arbiscan.io/tx/" ++ tx_hash) ] in
  match dict_get explorers chain_key with Some u => u | None => "" end.

(** send.py:69 *)
Definition send_usdc (env : environ)
    (to : string) (amount : PyFloat.float) (chain : string) (testnet : bool)
    (private_key : option string) : prog dict :=
  let chain_key := get_chain_key chain testnet in
  pk <- lift (py_or_getenv private_key env "USDC_PRIVATE_KEY") ;;
  if py_not pk then
    Ret [("error", VStr "No private key provided. Set USDC_PRIVATE_KEY env var.")]
  else
  let rpc_env_key := "USDC_RPC_" ++ PyStr.upper chain in
  rpc_url <- lift (os_getenv env rpc_env_key (dict_get DEFAULT_RPCS chain_key)) ;;
  if py_not rpc_url then
    Ret [("error", VStr ("No RPC URL for chain: " ++ chain_key))]
  else
  let usdc_address := dict_get USDC_ADDRESSES chain_key in
  if py_not usdc_address then
    Ret [("error", VStr ("USDC not supported on chain: " ++ chain_key))]
  else
  let pk := match pk with Some k => k | None => "" end in
  try_except
    (perform (Web3_HTTPProvider rpc_url) ;;
     let w3 := rpc_url in
     connected <- perform (is_connected w3) ;;
     if negb connected then
       Ret [("error", VStr ("Could not connect to " ++ chain_key ++ " RPC"))]
     else
     sender <- perform (Account_from_key pk) ;;
     a <- perform (to_checksum_address usdc_address) ;;
     let contract := Contract w3 a Send_ERC20_ABI in
     perform (eth_contract contract) ;;
     decimals <- perform (call_decimals contract) ;;
     amount_raw <- lift (amount_to_raw amount decimals) ;;
     nonce <- perform (get_transaction_count w3 sender) ;;
     to_addr <- perform (to_checksum_address (Some to)) ;;
     let f := transfer to_addr amount_raw in
     perform (contract_function contract f) ;;
     gasPrice <- perform (gas_price w3) ;;
     chainId <- perform (chain_id w3) ;;
     let tx := Tx contract f sender nonce 100000 gasPrice chainId in
     perform (build_transaction tx) ;;
     perform (sign_transaction w3 tx pk) ;;
     let signed := Signed tx pk in
     tx_hash <- perform (send_raw_transaction w3 signed) ;;
     Ret [("success", VBool true);
          ("tx_hash", VStr (PyStr.hex tx_hash));
          ("from", VStr sender);
          ("to", VStr to);
          ("amount", VFloat amount);
          ("chain", VStr chain_key);
          ("testnet", VBool testnet);
          ("explorer", VStr (get_explorer_url chain_key (PyStr.hex tx_hash)))])
    (fun e => Ret [("error", VStr (py_str_exn e))]).

End Send.

(** ** bridge.py: tables, chain keys and the bytes32 padding *)

Module Bridge.

Definition TOKEN_MESSENGER : list (string * string) :=
  [ ("ethereum", "0xBd3fa81B58Ba92a82136038B25aDec7066af3155");
    ("ethereum_sepolia", "0x9f3B8679c73C2Fef8b59B4f3444d4e156fb70AA5");
    ("base", "0x1682Ae6375C4E4A97e4B583BC394c861A46D8962");
    ("base_sepolia", "0x9f3B8679c73C2Fef8b59B4f3444d4e156fb70AA5");
    ("polygon", "0x9daF8c91AEFAE50b9c0E69629D3F6Ca40cA3B3FE");
    ("arbitrum", "0x19330d10D9Cc8751218eaf51E8885D058642E08A");
    ("arbitrum_sepolia", "0x9f3B8679c73C2Fef8b59B4f3444d4e156fb70AA5") ].

Definition MESSAGE_TRANSMITTER : list (string * string) :=
  [ ("ethereum", "0x0a992d191DEeC32aFe36203Ad87D7d289a738F81");
    ("ethereum_sepolia", "0x7865fAfC2db2093669d92c0F33AeEF291086BEFD");
    ("base", "0xAD09780d193884d503182aD4588450C416D6F9D4");
    ("base_sepolia", "0x7865fAfC2db2093669d92c0F33AeEF291086BEFD");
    ("polygon", "0xF3be9355363857F3e001be68856A2f96b4C39Ba9");
    ("arbitrum", "0xC30362313FBBA5cf9163F0bb16a0e01f01A896ca");
    ("arbitrum_sepolia", "0x7865fAfC2db2093669d92c0F33AeEF291086BEFD") ].

Definition DOMAIN_IDS : list (string * Z) :=
  [ ("ethereum", 0); ("ethereum_sepolia", 0); ("avalanche", 1);
    ("optimism", 2); ("arbitrum", 3); ("arbitrum_sepolia", 3);
    ("base", 6); ("base_sepolia", 6); ("polygon", 7) ].

Definition USDC_ADDRESSES : list (string * string) :=
  [ ("ethereum", "0xA0b86991c6218b36c1d19D4a2e9Eb0cE3606eB48");
    ("ethereum_sepolia", "0x1c7D4B196Cb0C7B01d743Fbc6116a902379C7238");
    ("base", "0x833589fCD6eDb6E08f4c7C32D4f71b54bdA02913");
    ("base_sepolia", "0x036CbD53842c5426634e7929541eC2318f3dCF7e");
    ("polygon", "0x3c499c542cEF5E3811e1192ce70d8cC03d5c3359");
    ("arbitrum", "0xaf88d065e77c8cC2239327C5EDb3A432268e5831");
    ("arbitrum_sepolia", "0x75faf114eafb1BDbe2F0316DF893fd58CE46AA4d") ].

Definition DEFAULT_RPCS : list (string * string) :=
  [ ("ethereum", "https://eth.llamarpc.com");
    ("ethereum_sepolia", "https://ethereum-sepolia-rpc.publicnode.com");
    ("base", "https://base.llamarpc.com");
    ("base_sepolia", "https://base-sepolia-rpc.publicnode.com");
    ("polygon", "https://polygon.llamarpc.com");
    ("arbitrum", "https://arbitrum.llamarpc.com");
    ("arbitrum_sepolia", "https://arbitrum-sepolia-rpc.publicnode.com") ].

Definition ATTESTATION_API : list (string * string) :=
  [ ("mainnet", "https://iris-api.circle.com/attestations");
    ("testnet", "https://iris-api-sandbox.circle.com/attestations") ].

Definition testnet_map : list (string * string) :=
  [ ("ethereum", "ethereum_sepolia");
    ("base", "base_sepolia");
    ("arbitrum", "arbitrum_sepolia") ].

(** bridge.py:133 *)
Definition get_chain_key (chain : string) (testnet : bool) : string :=
  if testnet then
    match dict_get testnet_map chain with Some k => k | None => chain end
  else chain.

(** bridge.py:144 *)
Definition address_to_bytes32 (address : string) : exn + bytes :=
  PyStr.fromhex (PyStr.zfill 64 (PyStr.drop 2 address)).

(** One round of the [for] loop of bridge.py:153: [Some d] when the round
    returns [d], [None] when the loop goes on. *)
Definition attestation_attempt (url : string) : prog (option dict) :=
  try_except
    (data <- perform (requests_get_json url) ;;
     status <- lift (py_get data "status") ;;
     if py_eq_str status "complete" then
       attestation <- lift (py_get data "attestation") ;;
       message <- lift (py_get data "message") ;;
       Ret (Some [("success", VBool true);
                  ("attestation", attestation);
                  ("message", message)])
     else
       time_sleep 10 ;;
       Ret None)
    (fun e => time_sleep 5 ;; Ret None).

Fixpoint attestation_loop (url : string) (attempts : nat) : prog dict :=
  match attempts with
  | O => Ret [("error", VStr "Attestation timeout")]
  | S attempts' =>
      r <- attestation_attempt url ;;
      match r with
      | Some d => Ret d
      | None => attestation_loop url attempts'
      end
  end.

(** bridge.py:149; [range(max_attempts)] is empty for a negative bound. *)
Definition get_attestation (message_hash : string) (testnet : bool)
    (max_attempts : Z) : prog dict :=
  api_url <- lift (py_subscript ATTESTATION_API
                     (if testnet then "testnet" else "mainnet")) ;;
  attestation_loop (api_url ++ "/" ++ message_hash) (Z.to_nat max_attempts).

Definition default_max_attempts : Z := 30.

(** bridge.py:175 *)
Definition bridge_usdc (env : environ)
    (to : string) (amount : PyFloat.float) (from_chain to_chain : string)
    (testnet : bool) (private_key : option string) : prog dict :=
  let from_key := get_chain_key from_chain testnet in
  let to_key := get_chain_key to_chain testnet in
  pk <- lift (py_or_getenv private_key env "USDC_PRIVATE_KEY") ;;
  if py_not pk then
    Ret [("error", VStr "No private key. Set USDC_PRIVATE_KEY env var.")]
  else
  let pk := match pk with Some k => k | None => "" end in
  from_rpc <- lift (os_getenv env ("USDC_RPC_" ++ PyStr.upper from_chain)
                              (dict_get DEFAULT_RPCS from_key)) ;;
  to_rpc <- lift (os_getenv env ("USDC_RPC_" ++ PyStr.upper to_chain)
                            (dict_get DEFAULT_RPCS to_key)) ;;
  try_except
    (perform (Web3_HTTPProvider from_rpc) ;;
     let w3_from := from_rpc in
     sender <- perform (Account_from_key pk) ;;
     let usdc_addr := dict_get USDC_ADDRESSES from_key in
     let messenger_addr := dict_get TOKEN_MESSENGER from_key in
     let dest_domain := dict_get DOMAIN_IDS to_key in
     if negb (negb (py_not usdc_addr) && negb (py_not messenger_addr)
              && match dest_domain with Some _ => true | None => false end)
     then
       Ret [("error", VStr ("CCTP not supported for " ++ from_key ++ " -> " ++ to_key))]
     else
     let dest_domain := match dest_domain with Some d => d | None => 0 end in
     usdc_a <- perform (to_checksum_address usdc_addr) ;;
     let usdc := Contract w3_from usdc_a ERC20_APPROVE_ABI in
     perform (eth_contract usdc) ;;
     messenger_a <- perform (to_checksum_address messenger_addr) ;;
     let messenger := Contract w3_from messenger_a TOKEN_MESSENGER_ABI in
     perform (eth_contract messenger) ;;
     decimals <- perform (call_decimals usdc) ;;
     amount_raw <- lift (amount_to_raw amount decimals) ;;
     (* Step 1: approve *)
     nonce <- perform (get_transaction_count w3_from sender) ;;
     spender <- perform (to_checksum_address messenger_addr) ;;
     let f := approve spender amount_raw in
     perform (contract_function usdc f) ;;
     gasPrice <- perform (gas_price w3_from) ;;
     chainId <- perform (chain_id w3_from) ;;
     let approve_tx := Tx usdc f sender nonce 100000 gasPrice chainId in
     perform (build_transaction approve_tx) ;;
     perform (sign_transaction w3_from approve_tx pk) ;;
     tx_hash <- perform (send_raw_transaction w3_from (Signed approve_tx pk)) ;;
     perform (wait_for_transaction_receipt w3_from tx_hash) ;;
     (* Step 2: deposit for burn *)
     recipient_bytes32 <- lift (address_to_bytes32 to) ;;
     nonce <- perform (get_transaction_count w3_from sender) ;;
     burn_token <- perform (to_checksum_address usdc_addr) ;;
     let f := depositForBurn amount_raw dest_domain recipient_bytes32 burn_token in
     perform (contract_function messenger f) ;;
     gasPrice <- perform (gas_price w3_from) ;;
     chainId <- perform (chain_id w3_from) ;;
     let burn_tx := Tx messenger f sender nonce 300000 gasPrice chainId in
     perform (build_transaction burn_tx) ;;
     perform (sign_transaction w3_from burn_tx pk) ;;
     burn_hash <- perform (send_raw_transaction w3_from (Signed burn_tx pk)) ;;
     receipt <- perform (wait_for_transaction_receipt w3_from burn_hash) ;;
     (* Step 3: attestation *)
     let message_hash := "0x" ++ PyStr.hex burn_hash in
     attestation_result <- get_attestation message_hash testnet default_max_attempts ;;
     if dict_mem attestation_result "error" then
       err <- lift (py_subscript attestation_result "error") ;;
       Ret [("partial_success", VBool true);
            ("burn_tx", VStr (PyStr.hex burn_hash));
            ("error", err);
            ("note", VStr "Burn successful. Attestation pending. Use status.py to complete.")]
     else
     (* Step 4: receive on the destination chain *)
     perform (Web3_HTTPProvider to_rpc) ;;
     let w3_to := to_rpc in
     transmitter_a <- perform (to_checksum_address (dict_get MESSAGE_TRANSMITTER to_key)) ;;
     let transmitter := Contract w3_to transmitter_a MESSAGE_TRANSMITTER_ABI in
     perform (eth_contract transmitter) ;;
     nonce <- perform (get_transaction_count w3_to sender) ;;
     m <- lift (py_subscript attestation_result "message") ;;
     m <- lift (py_slice_from 2 m) ;;
     message <- lift (bytes_fromhex m) ;;
     a <- lift (py_subscript attestation_result "attestation") ;;
     a <- lift (py_slice_from 2 a) ;;
     attestation <- lift (bytes_fromhex a) ;;
     let f := receiveMessage message attestation in
     perform (contract_function transmitter f) ;;
     gasPrice <- perform (gas_price w3_to) ;;
     chainId <- perform (chain_id w3_to) ;;
     let receive_tx := Tx transmitter f sender nonce 300000 gasPrice chainId in
     perform (build_transaction receive_tx) ;;
     perform (sign_transaction w3_to receive_tx pk) ;;
     receive_hash <- perform (send_raw_transaction w3_to (Signed receive_tx pk)) ;;
     perform (wait_for_transaction_receipt w3_to receive_hash) ;;
     Ret [("success", VBool true);
          ("amount", VFloat amount);
          ("from_chain", VStr from_key);
          ("to_chain", VStr to_key);
          ("recipient", VStr to);
          ("burn_tx", VStr (PyStr.hex burn_hash));
          ("receive_tx", VStr (PyStr.hex receive_hash))])
    (fun e => Ret [("error", VStr (py_str_exn e))]).

End Bridge.

(** The chain names the three command lines accept ([choices=...]). *)
Definition supported_chains : list string :=
  ["ethereum"; "base"; "polygon"; "arbitrum"].

(** The production key of a chain is its name; the test-network keys are the
    ones the tables document. *)
Definition is_test_key (k : string) : bool :=
  existsb (String.eqb k)
    ["ethereum_sepolia"; "base_sepolia"; "polygon_mumbai"; "arbitrum_sepolia"].


(** ** Reading traces *)

(** Every run of [p] ends in a result and a trace accepted by [P]. *)
Fixpoint wp {R : Type} (p : prog R) (P : exn + R -> list event -> Prop) : Prop :=
  match p with
  | Ret r => P (inr r) []
  | Raise e => P (inl e) []
  | Call c k => forall r, wp (k r) (fun res t => P res (EvCall c r :: t))
  | Sleep n k => wp k (fun res t => P res (EvSleep n :: t))
  end.

(** The event is a query of the attestation endpoint. *)
Definition is_poll (e : event) : bool :=
  match e with
  | EvCall (requests_get_json _) _ => true
  | _ => false
  end.

Definition polls (t : list event) : nat := List.length (filter is_poll t).

(** What one answer of the attestation endpoint leads to: [None] when it is
    a dict with status "complete", otherwise the pause before the next round. *)
Definition pause_after (r : exn + value) : option Z :=
  match r with
  | inl _ => Some 5
  | inr data =>
      match py_get data "status" with
      | inl _ => Some 5
      | inr status => if py_eq_str status "complete" then None else Some 10
      end
  end.

Definition poll_answer (e : event) : option (string * (exn + value)) :=
  match e with
  | @EvCall X c r =>
      match c in call X0 return exn + X0 -> option (string * (exn + value)) with
      | requests_get_json url => fun r => Some (url, r)
      | _ => fun _ => None
      end r
  | EvSleep _ => None
  end.

(** The event is a poll answered with status "complete". *)
Definition observed_complete (e : event) : bool :=
  match poll_answer e with
  | Some (_, r) => match pause_after r with None => true | Some _ => false end
  | None => false
  end.

(** A trace made of polling rounds only: each poll of [url] that did not see
    "complete" is followed by its pause, a poll that did ends the trace. *)
Fixpoint polling_rounds (url : string) (t : list event) : bool :=
  match t with
  | [] => true
  | e :: t' =>
      match poll_answer e with
      | Some (u, r) =>
          String.eqb u url &&
          match pause_after r with
          | None => match t' with [] => true | _ => false end
          | Some n =>
              match t' with
              | EvSleep m :: t'' => (m =? n) && polling_rounds url t''
              | _ => false
              end
          end
      | None => false
      end
  end.

Fixpoint filter_map {A B : Type} (f : A -> option B) (l : list A) : list B :=
  match l with
  | [] => []
  | a :: l' =>
      match f a with
      | Some b => b :: filter_map f l'
      | None => filter_map f l'
      end
  end.

Definition sleep_of (e : event) : option Z :=
  match e with EvSleep n => Some n | _ => None end.

(** The pauses of a trace, in order. *)
Definition sleeps (t : list event) : list Z := filter_map sleep_of t.

(** The URLs polled, in order. *)
Definition poll_urls (t : list event) : list string :=
  map fst (filter_map poll_answer t).

(** A transaction handed to [send_raw_transaction]: the contract call in it
    and the answer (its hash, or an exception). *)
Definition submission (e : event) : option (contract_call * (exn + bytes)) :=
  match e with
  | @EvCall X c r =>
      match c in call X0 return exn + X0 -> option (contract_call * (exn + bytes)) with
      | send_raw_transaction _ raw => fun r => Some (tx_call (raw_transaction raw), r)
      | _ => fun _ => None
      end r
  | EvSleep _ => None
  end.

Definition submissions (t : list event) : list (contract_call * (exn + bytes)) :=
  filter_map submission t.

Definition is_transfer (c : contract_call) : bool :=
  match c with transfer _ _ => true | _ => false end.
Definition is_approve (c : contract_call) : bool :=
  match c with approve _ _ => true | _ => false end.
Definition is_depositForBurn (c : contract_call) : bool :=
  match c with depositForBurn _ _ _ _ => true | _ => false end.
Definition is_receiveMessage (c : contract_call) : bool :=
  match c with receiveMessage _ _ => true | _ => false end.

(** How many submitted transactions carry a call of kind [k]. *)
Definition submitted (k : contract_call -> bool) (t : list event) : nat :=
  List.length (filter (fun x => k (fst x)) (submissions t)).

(** The token amount a contract call moves, if it moves any. *)
Definition raw_amount (c : contract_call) : option Z :=
  match c with
  | transfer _ v => Some v
  | approve _ v => Some v
  | depositForBurn v _ _ _ => Some v
  | receiveMessage _ _ => None
  end.

Definition submitted_amounts (t : list event) : list Z :=
  filter_map (fun x => raw_amount (fst x)) (submissions t).

Definition decimals_answer (e : event) : option N :=
  match e with
  | @EvCall X c r =>
      match c in call X0 return exn + X0 -> option N with
      | call_decimals _ => fun r => match r with inr d => Some d | inl _ => None end
      | _ => fun _ => None
      end r
  | EvSleep _ => None
  end.

(** What the token contract answered to [decimals()]. *)
Definition decimals_answers (t : list event) : list N := filter_map decimals_answer t.

Definition provider (e : event) : option (option string) :=
  match e with
  | EvCall (Web3_HTTPProvider rpc_url) _ => Some rpc_url
  | _ => None
  end.

(** The RPC URLs connected to, in order. *)
Definition providers (t : list event) : list (option string) := filter_map provider t.

(** A request other than a poll of the attestation endpoint raised. *)
Definition raised (e : event) : bool :=
  match e with
  | EvCall (requests_get_json _) _ => false
  | EvCall _ (inl _) => true
  | _ => false
  end.

(** [is_connected()] answered [False]. *)
Definition disconnected (e : event) : bool :=
  match e with
  | @EvCall X c r =>
      match c in call X0 return exn + X0 -> bool with
      | is_connected _ => fun r => match r with inr b => negb b | inl _ => false end
      | _ => fun _ => false
      end r
  | EvSleep _ => false
  end.

Definition receipt_received (e : event) : bool :=
  match e with
  | EvCall (wait_for_transaction_receipt _ _) (inr _) => true
  | _ => false
  end.

(** The hash of the burn: the answer to the submission of a [depositForBurn]
    transaction whose receipt was then waited for and received. *)
Fixpoint burn_confirmed (t : list event) : option bytes :=
  match t with
  | [] => None
  | e :: t' =>
      match submission e, t' with
      | Some (depositForBurn _ _ _ _, inr h), e' :: _ =>
          if receipt_received e' then Some h else burn_confirmed t'
      | _, _ => burn_confirmed t'
      end
  end.

(** The hash the submission of the [depositForBurn] transaction was answered
    with. *)
Fixpoint burn_hash (t : list event) : option bytes :=
  match t with
  | [] => None
  | e :: t' =>
      match submission e with
      | Some (depositForBurn _ _ _ _, inr h) => Some h
      | _ => burn_hash t'
      end
  end.

(** ** Statements about the attestation poll *)

Definition attestation_url (testnet : bool) (message_hash : string) : string :=
  (if testnet then "https://iris-api-sandbox.circle.com/attestations"
   else "https://iris-api.circle.com/attestations") ++ "/" ++ message_hash.

Definition timeout_dict : dict := [("error", VStr "Attestation timeout")].

(** The polling loop pauses for one and the same interval after every round. *)
Definition single_poll_interval : Prop :=
  exists c : Z,
    forall (S : Type) (o : oracle S) (s : S)
           (message_hash : string) (testnet : bool) (max_attempts n : Z),
      In n (sleeps (trace_of
              (run o (Bridge.get_attestation message_hash testnet max_attempts) s))) ->
      n = c.

(** Every request raises: no node, no network. *)
Definition unreachable : oracle unit :=
  fun X c s => (inl (Exn "ConnectionError" "connection refused"), s).

(** An endpoint that fails on the first request and answers "pending" from
    then on; every other request raises. *)
Definition flaky_endpoint : oracle nat :=
  fun X c s =>
    (match s with
     | O => inl (Exn "ConnectionError" "connection refused")
     | S _ =>
         match c in call X0 return exn + X0 with
         | requests_get_json _ => inr (VDict [("status", VStr "pending")])
         | _ => inl (Exn "RuntimeError" "unexpected request")
         end
     end, S s).

(** ** What every run of the three functions satisfies *)

(** The result of a partial success of the bridge (bridge.py:265). *)
Definition partial_success_dict (burn_hash : bytes) : dict :=
  [("partial_success", VBool true);
   ("burn_tx", VStr (PyStr.hex burn_hash));
   ("error", VStr "Attestation timeout");
   ("note", VStr "Burn successful. Attestation pending. Use status.py to complete.")].

(** The dict carries an ["error"] key with a string. *)
Definition error_message (d : dict) : option string :=
  match dict_get d "error" with
  | Some (VStr msg) => Some msg
  | _ => None
  end.

(** Every submitted amount is [int(amount * 10 ** decimals)] for a decimal
    count the token contract answered. *)
Definition amounts_scaled (amount : PyFloat.float) (t : list event) : Prop :=
  forall v : Z,
    In v (submitted_amounts t) ->
    exists dec : N, In dec (decimals_answers t) /\ amount_to_raw amount dec = inr v.

(** A run reports its failures: it returns a dict, and unless that dict
    carries an error message it is the success dict ([success]) of a run in
    which nothing went wrong ([clean], [configured]). *)
Definition reports (success : dict -> bool) (clean : list event -> bool)
    (configured : bool) (res : exn + dict) (t : list event) : Prop :=
  exists d : dict,
    res = inr d
    /\ match error_message d with
       | Some _ => True
       | None =>
           dict_get d "error" = None
           /\ success d = true
           /\ clean t = true
           /\ configured = true
       end.

Definition has_balance (d : dict) : bool :=
  match dict_get d "balance" with Some (VFloat _) => true | _ => false end.

Definition has_success (d : dict) : bool :=
  match dict_get d "success" with Some (VBool true) => true | _ => false end.

(** No request raised and the node was reachable. *)
Definition clean_run (t : list event) : bool :=
  negb (existsb raised t) && negb (existsb disconnected t).

(** No request outside the poll raised and the attestation was observed. *)
Definition clean_bridge_run (t : list event) : bool :=
  negb (existsb raised t) && existsb observed_complete t.

Definition balance_configured (env : string -> option string)
    (chain : string) (testnet : bool) : bool :=
  let chain_key := Balance.get_chain_key chain testnet in
  negb (py_not (env_value env ("USDC_RPC_" ++ PyStr.upper chain)
                          (dict_get Balance.DEFAULT_RPCS chain_key)))
  && negb (py_not (dict_get Balance.USDC_ADDRESSES chain_key)).

Definition send_configured (env : string -> option string)
    (chain : string) (testnet : bool) (private_key : option string) : bool :=
  let chain_key := Send.get_chain_key chain testnet in
  negb (py_not (py_or private_key (env "USDC_PRIVATE_KEY")))
  && negb (py_not (env_value env ("USDC_RPC_" ++ PyStr.upper chain)
                             (dict_get Send.DEFAULT_RPCS chain_key)))
  && negb (py_not (dict_get Send.USDC_ADDRESSES chain_key)).

Definition bridge_configured (env : string -> option string)
    (from_chain to_chain : string) (testnet : bool)
    (private_key : option string) : bool :=
  let from_key := Bridge.get_chain_key from_chain testnet in
  let to_key := Bridge.get_chain_key to_chain testnet in
  negb (py_not (py_or private_key (env "USDC_PRIVATE_KEY")))
  && negb (negb (negb (py_not (dict_get Bridge.USDC_ADDRESSES from_key))
                 && negb (py_not (dict_get Bridge.TOKEN_MESSENGER from_key))
                 && match dict_get Bridge.DOMAIN_IDS to_key with
                    | Some _ => true
                    | None => false
                    end)).

Definition balance_post (rpc_url : option string) (configured : bool)
    (res : exn + dict) (t : list event) : Prop :=
  reports has_balance clean_run configured res t
  /\ providers t = (if configured then [rpc_url] else [])
  /\ submissions t = [].

Definition send_post (amount : PyFloat.float) (rpc_url : option string)
    (configured : bool) (res : exn + dict) (t : list event) : Prop :=
  reports has_success clean_run configured res t
  /\ amounts_scaled amount t
  /\ providers t = (if configured then [rpc_url] else [])
  /\ (submitted is_transfer t <= 1)%nat
  /\ List.length (submissions t) = submitted is_transfer t.

Definition bridge_post (amount : PyFloat.float) (testnet : bool)
    (configured : bool) (res : exn + dict) (t : list event) : Prop :=
  reports has_success clean_bridge_run configured res t
  /\ ((submitted is_approve t <= 1)%nat
      /\ (submitted is_depositForBurn t <= 1)%nat
      /\ (submitted is_receiveMessage t <= 1)%nat
      /\ submitted is_transfer t = 0%nat)
  /\ Forall (fun u => exists h, burn_hash t = Some h
                        /\ u = attestation_url testnet ("0x" ++ PyStr.hex h))
            (poll_urls t)
  /\ (forall h, burn_confirmed t = Some h ->
        existsb observed_complete t = false ->
        res = inr (partial_success_dict h)
        /\ Z.of_nat (polls t) = Bridge.default_max_attempts)
  /\ amounts_scaled amount t.

(** ** Sample environments and inputs *)

Definition float_2_5 : PyFloat.float := S754_finite false 5629499534213120 (-51).

Definition sample_recipient : string := "0x90F8bf6A479f320ead074411a4B0e7944Ea8c9C1".
Definition sample_key : string :=
  "0x4f3edf983ac636a65a842ce7c78d9aa706d3b113bce9c46f30d7d21715b23b1d".

Definition no_env : string -> option string := fun _ => None.

(** Only [USDC_RPC_BASE] is set. *)
Definition base_override_env : string -> option string :=
  fun k => if String.eqb k "USDC_RPC_BASE" then Some "https://rpc.example" else None.

(** Only [USDC_RPC_BASE_SEPOLIA] is set. *)
Definition base_sepolia_override_env : string -> option string :=
  fun k => if String.eqb k "USDC_RPC_BASE_SEPOLIA" then Some "https://rpc.example" else None.

(** The message of the [UnicodeEncodeError] the ASCII codec raises for [s]:
    it names the first character outside ASCII, or the first run of them. *)
Fixpoint non_ascii_run (s : string) : nat :=
  match s with
  | String c rest => if PyStr.is_ascii c then O else S (non_ascii_run rest)
  | EmptyString => O
  end.

Definition hex2 (c : ascii) : string :=
  let n := N_of_ascii c in
  String (PyStr.hex_digit (n / 16)) (String (PyStr.hex_digit (n mod 16)) EmptyString).

Fixpoint ascii_encode_error (i : nat) (s : string) : option string :=
  match s with
  | EmptyString => None
  | String c rest =>
      if PyStr.is_ascii c then ascii_encode_error (S i) rest
      else
        Some (match non_ascii_run rest with
              | O =>
                  "'ascii' codec can't encode character '\x" ++ hex2 c
                  ++ "' in position " ++ PyStr.decimal i
              | S k =>
                  "'ascii' codec can't encode characters in position "
                  ++ PyStr.decimal i ++ "-" ++ PyStr.decimal (i + S k)
              end ++ ": ordinal not in range(128)")
  end.

(** A process whose encoding is ASCII ([LC_ALL=C] without the UTF-8 mode),
    with no variable set. *)
Definition ascii_env : environ :=
  Environ (fun _ => None) (ascii_encode_error 0)
    (fun key v (H : None = Some v) =>
       match H in (_ = x)
             return (match x with
                     | Some _ => ascii_encode_error 0 key = None
                     | None => True
                     end)
       with
       | eq_refl => I
       end).

(** The text of one character, the section sign U+00A7. *)
Definition section_sign : string := String "167" EmptyString.

Definition sample_hash (c : contract_call) : bytes :=
  match c with
  | transfer _ _ => repeat Byte.x0a 32
  | approve _ _ => repeat Byte.x01 32
  | depositForBurn _ _ _ _ => repeat Byte.x02 32
  | receiveMessage _ _ => repeat Byte.x03 32
  end.

(** Every request succeeds; the attestation endpoint answers [attestation]. *)
Definition answer (attestation : value) (X : Type) (c : call X) : exn + X :=
  match c in call X0 return exn + X0 with
  | Web3_HTTPProvider _ => inr tt
  | is_connected _ => inr true
  | Account_from_key _ => inr "0xFFcf8FDEE72ac11b5c542428B35EEF5769C409f0"
  | to_checksum_address a => inr (match a with Some x => x | None => "" end)
  | eth_contract _ => inr tt
  | call_decimals _ => inr 6%N
  | call_balanceOf _ _ => inr 2500000
  | get_transaction_count _ _ => inr 7
  | gas_price _ => inr 1000000000
  | chain_id _ => inr 84532
  | contract_function _ _ => inr tt
  | build_transaction _ => inr tt
  | sign_transaction _ _ _ => inr tt
  | send_raw_transaction _ raw => inr (sample_hash (tx_call (raw_transaction raw)))
  | wait_for_transaction_receipt _ _ => inr (VDict [("status", VInt 1)])
  | requests_get_json _ => inr attestation
  end.

Definition cooperative : oracle unit :=
  fun X c s =>
    (answer (VDict [("status", VStr "complete");
                    ("attestation", VStr "0xa1b2");
                    ("message", VStr "0x0001")]) X c, s).

Definition never_attested : oracle unit :=
  fun X c s => (answer (VDict [("status", VStr "pending_confirmations")]) X c, s).

(** ** The claim of exact scaling, on runs *)

(** Whatever amount a run of [send_usdc] or [bridge_usdc] submits is
    [amount * 10^decimals] for the decimals the token answered: the integer
    nearest to the value of the float times [10^decimals]. *)
Definition submits_exact_amounts : Prop :=
  forall (S : Type) (o : oracle S) (s : S) (env : environ)
         (to : string) (amount : PyFloat.float) (chain from_chain to_chain : string)
         (testnet : bool) (private_key : option string) (q : Q) (t : list event),
    PyFloat.to_Q amount = Some q ->
    t = trace_of (run o (Send.send_usdc env to amount chain testnet private_key) s)
    \/ t = trace_of (run o (Bridge.bridge_usdc env to amount from_chain to_chain
                              testnet private_key) s) ->
    forall (v : Z) (dec : N),
      In v (submitted_amounts t) -> In dec (decimals_answers t) ->
      nearest_integer (q * inject_Z (10 ^ Z.of_N dec)) v.

(** ** Auxiliary definitions for the proofs *)

Definition nibbles : list N := map N.of_nat (seq 0 16).

Definition all_ascii : list ascii := map ascii_of_nat (seq 0 256).

(** What a hexadecimal digit satisfies, as a check on one character. *)
Definition hex_char_check (c : ascii) : bool :=
  match PyStr.hex_val c with
  | Some v =>
      (v <? 16)%N
      && Ascii.eqb (PyStr.hex_digit v) (PyStr.lower_ascii c)
      && negb (PyStr.is_space c)
      && negb (Ascii.eqb c "+")
      && negb (Ascii.eqb c "-")
  | None => true
  end.

(** What [attestation_loop url n] guarantees. *)
Definition loop_post (url : string) (n : nat) (res : exn + dict) (t : list event) : Prop :=
  exists d,
    res = inr d
    /\ polling_rounds url t = true
    /\ (polls t <= n)%nat
    /\ (existsb observed_complete t = false -> d = timeout_dict /\ polls t = n)
    /\ (existsb observed_complete t = true ->
        dict_mem d "error" = false /\ dict_get d "success" = Some (VBool true)).


(** What a trace made of polling rounds contains. *)
Record polling_only (url : string) (t : list event) : Prop := {
  po_submissions : submissions t = [];
  po_decimals : decimals_answers t = [];
  po_raised : existsb raised t = false;
  po_urls : forall u, In u (poll_urls t) -> u = url
}.

(** * Further definitions: results, routes and the command lines *)

(** A character [bytes.fromhex] accepts somewhere. *)
Definition hex_or_space (c : ascii) : bool :=
  PyStr.is_hex_digit c || PyStr.is_space c.

(** The keys [get_explorer_url] of send.py knows. *)
Definition explorer_keys : list string :=
  ["ethereum"; "ethereum_sepolia"; "base"; "base_sepolia";
   "polygon"; "polygon_mumbai"; "arbitrum"; "arbitrum_sepolia"].

(** Every table a script consults has the key. *)
Definition balance_tables_have (k : string) : bool :=
  dict_mem Balance.USDC_ADDRESSES k && dict_mem Balance.DEFAULT_RPCS k.

Definition send_tables_have (k : string) : bool :=
  dict_mem Send.USDC_ADDRESSES k && dict_mem Send.DEFAULT_RPCS k
  && negb (String.eqb (Send.get_explorer_url k "") "").

Definition bridge_tables_have (k : string) : bool :=
  dict_mem Bridge.TOKEN_MESSENGER k && dict_mem Bridge.MESSAGE_TRANSMITTER k
  && dict_mem Bridge.DOMAIN_IDS k && dict_mem Bridge.USDC_ADDRESSES k
  && dict_mem Bridge.DEFAULT_RPCS k.

(** [v.get(k)] where it cannot raise: [None] for anything but a dict. *)
Definition value_get (v : value) (k : string) : value :=
  match py_get v k with inr x => x | inl _ => VNone end.

(** What [get_attestation] returns for a response [data] with status
    "complete" (bridge.py:159). *)
Definition attestation_result (data : value) : dict :=
  [("success", VBool true);
   ("attestation", value_get data "attestation");
   ("message", value_get data "message")].

(** The first response with status "complete" in a trace. *)
Fixpoint completed_with (t : list event) : option value :=
  match t with
  | [] => None
  | e :: t' =>
      match poll_answer e with
      | Some (_, inr data) =>
          if observed_complete e then Some data else completed_with t'
      | _ => completed_with t'
      end
  end.

(** Seconds slept in all. *)
Definition total_sleep (t : list event) : Z := fold_right Z.add 0 (sleeps t).

Definition poll_post (n : nat) (res : exn + dict) (t : list event) : Prop :=
  res = inr (match completed_with t with
             | Some data => attestation_result data
             | None => timeout_dict
             end)
  /\ total_sleep t <= 10 * Z.of_nat n
  /\ (List.length (sleeps t) + (if existsb observed_complete t then 1 else 0)
      = polls t)%nat.

(** ** More readers of traces *)

(** The transactions handed to [send_raw_transaction]: through which [Web3]
    instance, what was signed with which key, and the answer. *)
Definition submitted_tx (e : event) : option (w3 * signed_tx * (exn + bytes)) :=
  match e with
  | @EvCall X c r =>
      match c in call X0 return exn + X0 -> option (w3 * signed_tx * (exn + bytes)) with
      | send_raw_transaction w raw => fun r => Some (w, raw, r)
      | _ => fun _ => None
      end r
  | EvSleep _ => None
  end.

Definition submitted_txs (t : list event) : list (w3 * signed_tx * (exn + bytes)) :=
  filter_map submitted_tx t.

(** The hashes the node answered submissions with. *)
Definition accepted_hash (e : event) : option bytes :=
  match submitted_tx e with
  | Some (_, _, inr h) => Some h
  | _ => None
  end.

Definition accepted (t : list event) : list bytes := filter_map accepted_hash t.

Definition account_answer (e : event) : option string :=
  match e with
  | @EvCall X c r =>
      match c in call X0 return exn + X0 -> option string with
      | Account_from_key _ => fun r => match r with inr a => Some a | inl _ => None end
      | _ => fun _ => None
      end r
  | EvSleep _ => None
  end.

(** The addresses [Account.from_key] answered. *)
Definition account_answers (t : list event) : list string := filter_map account_answer t.

Definition checksum_answer (e : event) : option (option string * string) :=
  match e with
  | @EvCall X c r =>
      match c in call X0 return exn + X0 -> option (option string * string) with
      | to_checksum_address a =>
          fun r => match r with inr x => Some (a, x) | inl _ => None end
      | _ => fun _ => None
      end r
  | EvSleep _ => None
  end.

(** What [to_checksum_address] was asked and what it answered. *)
Definition checksum_answers (t : list event) : list (option string * string) :=
  filter_map checksum_answer t.

Definition balance_answer (e : event) : option (contract * string * Z) :=
  match e with
  | @EvCall X c r =>
      match c in call X0 return exn + X0 -> option (contract * string * Z) with
      | call_balanceOf k owner =>
          fun r => match r with inr b => Some (k, owner, b) | inl _ => None end
      | _ => fun _ => None
      end r
  | EvSleep _ => None
  end.

(** The answers to [balanceOf]: on which contract, for which owner. *)
Definition balance_answers (t : list event) : list (contract * string * Z) :=
  filter_map balance_answer t.

(** The event is a wait for a receipt. *)
Definition is_wait (e : event) : bool :=
  match e with
  | EvCall (wait_for_transaction_receipt _ _) _ => true
  | _ => false
  end.

(** Requests that neither need a key nor change anything. *)
Definition read_only (e : event) : bool :=
  match e with
  | EvCall (Web3_HTTPProvider _) _ => true
  | EvCall (is_connected _) _ => true
  | EvCall (to_checksum_address _) _ => true
  | EvCall (eth_contract _) _ => true
  | EvCall (call_balanceOf _ _) _ => true
  | EvCall (call_decimals _) _ => true
  | _ => false
  end.

(** A submission of kind [k] was accepted and the next request, a wait for a
    receipt, was answered. *)
Fixpoint confirmed (k : contract_call -> bool) (t : list event) : bool :=
  match t with
  | [] => false
  | e :: t' =>
      match submission e, t' with
      | Some (c, inr _), e' :: _ =>
          (k c && receipt_received e') || confirmed k t'
      | _, _ => confirmed k t'
      end
  end.

(** [l] starts with calls of the kinds [expected], in that order, and holds
    nothing else. *)
Fixpoint in_order (expected : list (contract_call -> bool)) (l : list contract_call)
  : bool :=
  match l, expected with
  | [], _ => true
  | c :: l', k :: expected' => k c && in_order expected' l'
  | _ :: _, [] => false
  end.

Definition submitted_calls (t : list event) : list contract_call :=
  map fst (submissions t).

(** ** The results of the three functions *)

Definition error_dict (msg : string) : dict := [("error", VStr msg)].

(** balance.py:100 *)
Definition balance_dict (address chain_key : string) (testnet : bool)
    (balance : PyFloat.float) (balance_raw : Z) (decimals : N)
    (usdc_address : option string) : dict :=
  [("address", VStr address);
   ("chain", VStr chain_key);
   ("testnet", VBool testnet);
   ("balance", VFloat balance);
   ("balance_raw", VInt balance_raw);
   ("decimals", VInt (Z.of_N decimals));
   ("usdc_contract", value_of_str usdc_address)].

(** send.py:129 *)
Definition sent_dict (tx_hash : bytes) (sender to : string) (amount : PyFloat.float)
    (chain_key : string) (testnet : bool) : dict :=
  [("success", VBool true);
   ("tx_hash", VStr (PyStr.hex tx_hash));
   ("from", VStr sender);
   ("to", VStr to);
   ("amount", VFloat amount);
   ("chain", VStr chain_key);
   ("testnet", VBool testnet);
   ("explorer", VStr (Send.get_explorer_url chain_key (PyStr.hex tx_hash)))].

(** bridge.py:295 *)
Definition bridged_dict (amount : PyFloat.float) (from_key to_key to : string)
    (burn_hash receive_hash : bytes) : dict :=
  [("success", VBool true);
   ("amount", VFloat amount);
   ("from_chain", VStr from_key);
   ("to_chain", VStr to_key);
   ("recipient", VStr to);
   ("burn_tx", VStr (PyStr.hex burn_hash));
   ("receive_tx", VStr (PyStr.hex receive_hash))].

(** ** What every run of [get_balance] and [send_usdc] satisfies, further *)

(** The result of [get_balance] as a function of what the contract
    answered. *)
Definition balance_outcome (address chain_key : string) (testnet : bool)
    (usdc_address : option string) (res : exn + dict) (t : list event) : Prop :=
  exists d : dict,
    res = inr d
    /\ match balance_answers t, decimals_answers t with
       | [(_, _, balance_raw)], [decimals] =>
           match PyFloat.int_truediv balance_raw (10 ^ Z.of_N decimals) with
           | inr balance =>
               d = balance_dict address chain_key testnet balance balance_raw
                     decimals usdc_address
           | inl e => d = error_dict (py_str_exn e)
           end
       | _, _ => exists msg, d = error_dict msg
       end.

(** [balanceOf] is asked for the checksummed owner. *)
Definition balance_asked_for (address : string) (t : list event) : Prop :=
  Forall (fun x => In (Some address, snd (fst x)) (checksum_answers t))
         (balance_answers t).

Definition balance_post2 (address chain_key : string) (testnet : bool)
    (usdc_address : option string) (configured : bool)
    (res : exn + dict) (t : list event) : Prop :=
  balance_outcome address chain_key testnet usdc_address res t
  /\ balance_asked_for address t
  /\ forallb read_only t = true
  /\ (if configured then True else t = []).

(** The result of [send_usdc]: success exactly when the node accepted the
    submission. *)
Definition send_outcome (to : string) (amount : PyFloat.float) (chain_key : string)
    (testnet : bool) (res : exn + dict) (t : list event) : Prop :=
  exists d : dict,
    res = inr d
    /\ match accepted t with
       | [tx_hash] =>
           exists sender, account_answers t = [sender]
                          /\ d = sent_dict tx_hash sender to amount chain_key testnet
       | _ => exists msg, d = error_dict msg
       end.

(** Where a submitted transfer goes and how it is signed. *)
Definition send_routes (to : string) (rpc_url : option string) (key : string)
    (t : list event) : Prop :=
  Forall (fun x =>
            let '(w, raw, _) := x in
            let tx := raw_transaction raw in
            w = rpc_url
            /\ c_w3 (tx_contract tx) = rpc_url
            /\ signing_key raw = key
            /\ In (tx_from tx) (account_answers t)
            /\ tx_gas tx = 100000
            /\ exists recipient v,
                 tx_call tx = transfer recipient v
                 /\ In (Some to, recipient) (checksum_answers t))
         (submitted_txs t).

Definition send_post2 (to : string) (amount : PyFloat.float) (chain_key : string)
    (testnet : bool) (rpc_url : option string) (key : string) (configured : bool)
    (res : exn + dict) (t : list event) : Prop :=
  send_outcome to amount chain_key testnet res t
  /\ send_routes to rpc_url key t
  /\ existsb is_wait t = false
  /\ (if configured then True else t = []).

(** ** What every run of [bridge_usdc] satisfies, further *)

(** [bytes.fromhex(v[2:])] *)
Definition hex_field (v : value) : exn + bytes :=
  match py_slice_from 2 v with
  | inl e => inl e
  | inr x => bytes_fromhex x
  end.

(** The result of [bridge_usdc] as a function of the trace. *)
Definition bridge_outcome (amount : PyFloat.float) (from_key to_key to : string)
    (res : exn + dict) (t : list event) : Prop :=
  exists d : dict,
    res = inr d
    /\ match accepted t, existsb raised t with
       | [_; burn; receive], false =>
           d = bridged_dict amount from_key to_key to burn receive
       | [_; burn], false =>
           if existsb observed_complete t
           then exists msg, d = error_dict msg
           else d = partial_success_dict burn
       | _, _ => exists msg, d = error_dict msg
       end.

(** Where each submitted transaction goes, how it is signed and what its
    call carries. *)
Definition bridge_routes (from_rpc to_rpc : option string) (key to_key to : string)
    (t : list event) : Prop :=
  Forall (fun x =>
            let '(w, raw, _) := x in
            let tx := raw_transaction raw in
            signing_key raw = key
            /\ In (tx_from tx) (account_answers t)
            /\ c_w3 (tx_contract tx) = w
            /\ match tx_call tx with
               | approve _ _ => w = from_rpc /\ tx_gas tx = 100000
               | depositForBurn _ domain recipient _ =>
                   w = from_rpc /\ tx_gas tx = 300000
                   /\ dict_get Bridge.DOMAIN_IDS to_key = Some domain
                   /\ Bridge.address_to_bytes32 to = inr recipient
               | receiveMessage message attestation =>
                   w = to_rpc /\ tx_gas tx = 300000
                   /\ exists data,
                        completed_with t = Some data
                        /\ hex_field (value_get data "message") = inr message
                        /\ hex_field (value_get data "attestation") = inr attestation
               | transfer _ _ => False
               end)
         (submitted_txs t).

(** The steps come in order, each one after the one before it was done. *)
Definition bridge_phases (t : list event) : Prop :=
  in_order [is_approve; is_depositForBurn; is_receiveMessage] (submitted_calls t) = true
  /\ (if (0 <? submitted is_depositForBurn t)%nat
      then confirmed is_approve t = true else True)
  /\ (if (0 <? polls t)%nat
      then confirmed is_depositForBurn t = true else True)
  /\ (if (0 <? submitted is_receiveMessage t)%nat
      then existsb observed_complete t = true else True).

Definition all_equal (l : list Z) : Prop :=
  forall v w, In v l -> In w l -> v = w.

Definition bridge_post2 (amount : PyFloat.float) (from_key to_key to : string)
    (from_rpc to_rpc : option string) (key : string) (has_key : bool)
    (res : exn + dict) (t : list event) : Prop :=
  bridge_outcome amount from_key to_key to res t
  /\ bridge_routes from_rpc to_rpc key to_key to t
  /\ bridge_phases t
  /\ all_equal (submitted_amounts t)
  /\ (exists k, providers t = firstn k [from_rpc; to_rpc])
  /\ (if has_key then True else t = []).

(** As [cooperative], but the node of the destination chain refuses the
    receiveMessage transaction. *)
Definition mint_rejected : oracle unit :=
  fun X c s =>
    (match c in call X0 return exn + X0 -> exn + X0 with
     | send_raw_transaction _ raw =>
         fun r => if is_receiveMessage (tx_call (raw_transaction raw))
                  then inl (Exn "ValueError" "execution reverted")
                  else r
     | _ => fun r => r
     end (fst (cooperative X c s)), s).

(** As [cooperative], but the balance is 7 tokens. *)
Definition seven_tokens : oracle unit :=
  fun X c s =>
    (match c in call X0 return exn + X0 -> exn + X0 with
     | call_balanceOf _ _ => fun _ => inr 7000000
     | _ => fun r => r
     end (fst (cooperative X c s)), s).

(** What the trace of the poll holds, for the readers above. *)
Record poll_trace (t : list event) : Prop := {
  pt_submission : filter_map submission t = [];
  pt_submitted_tx : filter_map submitted_tx t = [];
  pt_accepted : filter_map accepted_hash t = [];
  pt_account : filter_map account_answer t = [];
  pt_checksum : filter_map checksum_answer t = [];
  pt_decimals : filter_map decimals_answer t = [];
  pt_provider : filter_map provider t = [];
  pt_raised : existsb raised t = false
}.

(** * The command lines *)

(** [bool(v)] *)
Definition py_bool (v : value) : bool :=
  match v with
  | VNone => false
  | VBool b => b
  | VInt z => negb (z =? 0)
  | VFloat f => match f with S754_zero _ => false | _ => true end
  | VStr s => negb (String.eqb s "")
  | VList l => match l with [] => false | _ => true end
  | VDict d => match d with [] => false | _ => true end
  end.

(** A line that [main] printed: the text of the f-string as the source file
    holds it (in UTF-8, pictographs included), with [{}] where a value is
    shown, and the values shown; or the dump of a result as JSON. *)
Inductive line :=
| Line (text : string) (shown : list value)
| Json (result : dict).

(** What was printed, and the exception that ended the printing if one did. *)
Definition output : Type := list line * option exn.

(** The standard output: writing a line to it succeeds, or raises (a
    [UnicodeEncodeError] where its encoding lacks a character of the line,
    a pictograph for instance). *)
Definition stdout : Type := line -> option exn.

(** The values of an f-string, evaluated from left to right. *)
Fixpoint values (l : list (exn + value)) : exn + list value :=
  match l with
  | [] => inr []
  | inl e :: _ => inl e
  | inr v :: l' =>
      match values l' with
      | inl e => inl e
      | inr vs => inr (v :: vs)
      end
  end.

(** A run of [print] statements: each evaluates what it shows and writes its
    line; the first exception, of a value or of the output, ends the run. *)
Fixpoint prints (out : stdout) (stmts : list (string * list (exn + value))) : output :=
  match stmts with
  | [] => ([], None)
  | (text, shown) :: rest =>
      match values shown with
      | inl e => ([], Some e)
      | inr vs =>
          match out (Line text vs) with
          | Some e => ([], Some e)
          | None => let '(ls, e) := prints out rest in (Line text vs :: ls, e)
          end
      end
  end.

(** [print(json.dumps(result, indent=2))] *)
Definition print_json (out : stdout) (result : dict) : output :=
  match out (Json result) with
  | Some e => ([], Some e)
  | None => ([Json result], None)
  end.

(** [f"{v:.6f}"]: only numbers have this format, and an [int] goes through
    [float]. *)
Definition format_6f (r : exn + value) : exn + value :=
  match r with
  | inl e => inl e
  | inr v =>
      match v with
      | VBool _ | VFloat _ => inr v
      | VInt z =>
          match PyFloat.of_int z with
          | inl e => inl e
          | inr _ => inr v
          end
      | VStr _ =>
          inl (Exn "ValueError" "Unknown format code 'f' for object of type 'str'")
      | _ =>
          inl (Exn "TypeError"
                   ("unsupported format string passed to " ++ type_name v
                    ++ ".__format__"))
      end
  end.

(** The lines [before] and then what [o] holds. *)
Definition after (before : list line) (o : output) : output :=
  ((before ++ fst o)%list, snd o).

(** [confirm.lower() != 'yes'] *)
Definition declined (confirm : string) : bool :=
  negb (String.eqb (PyStr.lower confirm) "yes").

(** The [choices] of the chain arguments of the three parsers: [parse_args]
    yields no other name. *)
Inductive chain_choice : Set := ethereum | base | polygon | arbitrum.

Definition chain_name (c : chain_choice) : string :=
  match c with
  | ethereum => "ethereum"
  | base => "base"
  | polygon => "polygon"
  | arbitrum => "arbitrum"
  end.

(** ** balance.py: [main] *)

Module BalanceMain.

(** What [parse_args] yields (balance.py:115-125). *)
Record args := {
  address : string;
  chain : chain_choice;
  testnet : bool;
  json : bool
}.

(** balance.py:133-139 *)
Definition report (out : stdout) (result : dict) : output :=
  if dict_mem result "error" then
    prints out [("‚ùå Error: {}", [py_subscript result "error"])]
  else
    prints out
      [("üí∞ USDC Balance on {} ({})",
        [py_subscript result "chain";
         match py_subscript result "testnet" with
         | inl e => inl e
         | inr v => inr (VStr (if py_bool v then "testnet" else "mainnet"))
         end]);
       ("   Address: {}", [py_subscript result "address"]);
       ("   Balance: {:.6f} USDC", [format_6f (py_subscript result "balance")])].

(** balance.py:114 *)
Definition main (env : environ) (out : stdout) (a : args) : prog output :=
  result <- Balance.get_balance env (address a) (chain_name (chain a)) (testnet a) ;;
  Ret (if json a then print_json out result else report out result).

End BalanceMain.

(** ** send.py: [main] *)

Module SendMain.

(** What [parse_args] yields (send.py:159-172). *)
Record args := {
  to : string;
  amount : PyFloat.float;
  chain : chain_choice;
  testnet : bool;
  mainnet : bool;
  json : bool
}.

(** send.py:188-195 *)
Definition report (out : stdout) (result : dict) : output :=
  if dict_mem result "error" then
    prints out [("❌ Error: {}", [py_subscript result "error"])]
  else
    prints out
      [("✅ USDC Sent Successfully!", []);
       ("   Amount: {} USDC", [py_subscript result "amount"]);
       ("   To: {}", [py_subscript result "to"]);
       ("   Chain: {}", [py_subscript result "chain"]);
       ("   TX: {}", [py_subscript result "explorer"])].

(** send.py:182-195 *)
Definition send_and_report (env : environ) (out : stdout) (a : args) : prog output :=
  result <- Send.send_usdc env (to a) (amount a) (chain_name (chain a))
              (negb (mainnet a)) None ;;
  Ret (if json a then print_json out result else report out result).

(** send.py:158.  [confirm] is what [input] does at the prompt, which is
    reached with [--mainnet] only: the line typed, or the exception it
    raises (at the end of the input, or where the prompt cannot be
    written). *)
Definition main (env : environ) (out : stdout) (a : args) (confirm : exn + string)
  : prog output :=
  let use_testnet := negb (mainnet a) in
  if negb use_testnet then
    answer <- lift confirm ;;
    if declined answer then Ret (prints out [("Cancelled.", [])])
    else send_and_report env out a
  else send_and_report env out a.

End SendMain.

(** ** bridge.py: [main] *)

Module BridgeMain.

(** What [parse_args] yields (bridge.py:310-326). *)
Record args := {
  to : string;
  amount : PyFloat.float;
  from_chain : chain_choice;
  to_chain : chain_choice;
  testnet : bool;
  mainnet : bool;
  json : bool
}.

(** bridge.py:347-358 *)
Definition report (out : stdout) (result : dict) : output :=
  if dict_mem result "error" then
    prints out [("‚ùå Error: {}", [py_subscript result "error"])]
  else if py_bool (value_get (VDict result) "partial_success") then
    prints out
      [("‚è≥ Partial Success - Attestation Pending", []);
       ("   Burn TX: {}", [py_subscript result "burn_tx"]);
       ("   Note: {}", [py_subscript result "note"])]
  else
    prints out
      [("‚úÖ Bridge Complete!", []);
       ("   Amount: {} USDC", [py_subscript result "amount"]);
       ("   Route: {} ‚Üí {}",
        [py_subscript result "from_chain"; py_subscript result "to_chain"]);
       ("   Burn TX: {}", [py_subscript result "burn_tx"]);
       ("   Receive TX: {}", [py_subscript result "receive_tx"])].

(** bridge.py:336-339 *)
Definition banner (out : stdout) (a : args) (use_testnet : bool) : output :=
  prints out
    [("üåâ Bridging {} USDC: {} ‚Üí {}",
      [inr (VFloat (amount a)); inr (VStr (chain_name (from_chain a)));
       inr (VStr (chain_name (to_chain a)))]);
     ("   Recipient: {}", [inr (VStr (to a))]);
     ("   Network: {}", [inr (VStr (if use_testnet then "testnet" else "MAINNET"))]);
     ("", [])].

(** bridge.py:336-358.  The lines [bridge_usdc] prints on its way are left
    out. *)
Definition bridge_and_report (env : environ) (out : stdout) (a : args) : prog output :=
  let use_testnet := negb (mainnet a) in
  match banner out a use_testnet with
  | (printed, Some e) => Ret (printed, Some e)
  | (printed, None) =>
      result <- Bridge.bridge_usdc env (to a) (amount a) (chain_name (from_chain a))
                  (chain_name (to_chain a)) use_testnet None ;;
      Ret (after printed (if json a then print_json out result else report out result))
  end.

(** bridge.py:309.  [confirm] is what [input] does at the prompt, which is
    reached with [--mainnet] only: the line typed, or the exception it
    raises. *)
Definition main (env : environ) (out : stdout) (a : args) (confirm : exn + string)
  : prog output :=
  let use_testnet := negb (mainnet a) in
  if negb use_testnet then
    answer <- lift confirm ;;
    if declined answer then Ret (prints out [("Cancelled.", [])])
    else bridge_and_report env out a
  else bridge_and_report env out a.

End BridgeMain.

(** A heading of a partial success was printed. *)
Definition shows_partial_success (l : line) : bool :=
  match l with
  | Line text _ => String.eqb text "‚è≥ Partial Success - Attestation Pending"
  | Json _ => false
  end.

(** A standard output that takes every line. *)
Definition utf8_stdout : stdout := fun _ => None.

(** A standard output whose encoding is ASCII: it refuses the lines of [main]
    whose text has a pictograph, with the [UnicodeEncodeError] [e] of the
    line at hand. *)
Definition ascii_stdout (e : exn) : stdout :=
  fun l =>
    match l with
    | Line text _ => if PyStr.all_chars PyStr.is_ascii text then None else Some e
    | Json _ => None
    end.

Definition sample_bridge_args (mainnet json : bool) : BridgeMain.args :=
  {| BridgeMain.to := sample_recipient;
     BridgeMain.amount := float_2_5;
     BridgeMain.from_chain := ethereum;
     BridgeMain.to_chain := base;
     BridgeMain.testnet := true;
     BridgeMain.mainnet := mainnet;
     BridgeMain.json := json |}.

Definition sample_send_args (mainnet : bool) : SendMain.args :=
  {| SendMain.to := sample_recipient;
     SendMain.amount := float_2_5;
     SendMain.chain := base;
     SendMain.testnet := true;
     SendMain.mainnet := mainnet;
     SendMain.json := false |}.

Definition sample_balance_args : BalanceMain.args :=
  {| BalanceMain.address := sample_recipient;
     BalanceMain.chain := base;
     BalanceMain.testnet := false;
     BalanceMain.json := false |}.

(** Only [USDC_PRIVATE_KEY] is set. *)
Definition key_env : string -> option string :=
  fun k => if String.eqb k "USDC_PRIVATE_KEY" then Some sample_key else None.

(** Requests are made with a key from the environment and, on mainnet, after
    a "yes" only. *)
Definition consented (env : string -> option string) (mainnet : bool)
    (confirm : exn + string) : Prop :=
  py_not (env "USDC_PRIVATE_KEY") = false
  /\ (mainnet = true ->
      exists answer : string,
        confirm = inr answer /\ String.eqb (PyStr.lower answer) "yes" = true).

(** The lines printed hold no heading of a partial success. *)
Definition no_partial_success (o : output) : Prop :=
  existsb shows_partial_success (fst o) = false.

(** The printing ended without an exception. *)
Definition printed_all (o : output) : Prop := snd o = None.

(** The shapes a result of [bridge_usdc] has. *)
Definition bridge_result (a : BridgeMain.args) (d : dict) : Prop :=
  (exists msg, d = error_dict msg)
  \/ (exists burn, d = partial_success_dict burn)
  \/ (exists burn receive,
        d = bridged_dict (BridgeMain.amount a)
              (Bridge.get_chain_key (chain_name (BridgeMain.from_chain a))
                 (negb (BridgeMain.mainnet a)))
              (Bridge.get_chain_key (chain_name (BridgeMain.to_chain a))
                 (negb (BridgeMain.mainnet a)))
              (BridgeMain.to a) burn receive).

(** * Proofs *)

(** ** Floats *)

Lemma digits2_pos_bounds (p : positive) :
  2 ^ (Zpos (digits2_pos p) - 1) <= Zpos p < 2 ^ Zpos (digits2_pos p).
Proof.
  induction p as [p IH | p IH |]; cbn [digits2_pos].
  - rewrite Pos2Z.inj_succ.
    replace (Z.succ (Zpos (digits2_pos p)) - 1) with (Zpos (digits2_pos p)) by lia.
    rewrite Z.pow_succ_r by lia.
    assert (H : 2 ^ Zpos (digits2_pos p) = 2 * 2 ^ (Zpos (digits2_pos p) - 1)).
    { rewrite <- Z.pow_succ_r by lia. f_equal. lia. }
    lia.
  - rewrite Pos2Z.inj_succ.
    replace (Z.succ (Zpos (digits2_pos p)) - 1) with (Zpos (digits2_pos p)) by lia.
    rewrite Z.pow_succ_r by lia.
    assert (H : 2 ^ Zpos (digits2_pos p) = 2 * 2 ^ (Zpos (digits2_pos p) - 1)).
    { rewrite <- Z.pow_succ_r by lia. f_equal. lia. }
    lia.
  - cbn. lia.
Qed.

Lemma digits2_pos_unique (p : positive) (k : Z) :
  2 ^ (k - 1) <= Zpos p < 2 ^ k -> Zpos (digits2_pos p) = k.
Proof.
  intros [Hlo Hhi]. pose proof (digits2_pos_bounds p) as [Blo Bhi].
  assert (0 < k).
  { destruct (Z.ltb_spec 0 k); [assumption|].
    exfalso. destruct (Z.eq_dec k 0) as [-> | ].
    - cbn in Hhi. lia.
    - rewrite Z.pow_neg_r in Hhi by lia. lia. }
  destruct (Z.lt_trichotomy (Zpos (digits2_pos p)) k) as [Hlt | [Heq | Hgt]];
    [ | assumption | ].
  - assert (2 ^ Zpos (digits2_pos p) <= 2 ^ (k - 1))
      by (apply Z.pow_le_mono_r; lia). lia.
  - assert (2 ^ k <= 2 ^ (Zpos (digits2_pos p) - 1))
      by (apply Z.pow_le_mono_r; lia). lia.
Qed.

Lemma shr_1_even (m : Z) :
  (2 | m) ->
  shr_1 (Build_shr_record m false false) = Build_shr_record (m / 2) false false.
Proof.
  intros [q ->]. rewrite Z.div_mul by lia.
  destruct q as [| q | q]; cbn; try reflexivity.
  - rewrite Pos.mul_comm. reflexivity.
  - rewrite Pos.mul_comm. reflexivity.
Qed.

Lemma iter_pos_shr_1_exact (n : positive) :
  forall m : Z, (2 ^ Zpos n | m) ->
    iter_pos shr_1 n (Build_shr_record m false false)
    = Build_shr_record (m / 2 ^ Zpos n) false false.
Proof.
  induction n as [n IH | n IH |]; intros m Hdiv; cbn [iter_pos].
  - assert (E : Zpos n~1 = 1 + Zpos n + Zpos n) by lia.
    rewrite E in *. rewrite !Z.pow_add_r in * by lia.
    change (2 ^ 1) with 2 in *.
    destruct Hdiv as [q ->].
    rewrite shr_1_even by (exists (q * (2 ^ Zpos n * 2 ^ Zpos n)); lia).
    replace (q * (2 * 2 ^ Zpos n * 2 ^ Zpos n) / 2)
      with (q * 2 ^ Zpos n * 2 ^ Zpos n)
      by (apply Z.div_unique_exact; lia).
    assert (0 < 2 ^ Zpos n) by (apply Z.pow_pos_nonneg; lia).
    rewrite IH by (exists (q * 2 ^ Zpos n); lia).
    rewrite Z.div_mul by lia.
    rewrite IH by (exists q; lia).
    rewrite Z.div_mul by lia.
    f_equal. apply Z.div_unique_exact; [nia | lia].
  - assert (E : Zpos n~0 = Zpos n + Zpos n) by lia.
    rewrite E in *. rewrite !Z.pow_add_r in * by lia.
    destruct Hdiv as [q ->].
    assert (0 < 2 ^ Zpos n) by (apply Z.pow_pos_nonneg; lia).
    rewrite IH by (exists (q * 2 ^ Zpos n); lia).
    replace (q * (2 ^ Zpos n * 2 ^ Zpos n) / 2 ^ Zpos n) with (q * 2 ^ Zpos n)
      by (apply Z.div_unique_exact; lia).
    rewrite IH by (exists q; lia).
    rewrite Z.div_mul by lia.
    f_equal. apply Z.div_unique_exact; [nia | lia].
  - change (2 ^ 1) with 2 in *. apply shr_1_even. assumption.
Qed.


Lemma fexp_binary64 (k : Z) :
  fexp PyFloat.prec PyFloat.emax k = Z.max (k - 53) (-1074).
Proof. reflexivity. Qed.

Lemma pow2_split (a b : Z) : 0 <= a -> 0 <= b -> 2 ^ (a + b) = 2 ^ a * 2 ^ b.
Proof. intros. apply Z.pow_add_r; assumption. Qed.

(** Rounding a product whose exact value is an integer below [2^53]
    loses nothing, and [int] gives that integer back. *)
Lemma binary_round_aux_integer (s : bool) (m : positive) (e N : Z) :
  0 < N < 2 ^ 53 ->
  Zpos m * 2 ^ Z.max 0 e = N * 2 ^ Z.max 0 (- e) ->
  PyFloat.to_int
    (binary_round_aux PyFloat.prec PyFloat.emax s (Zpos m) e loc_Exact)
  = inr (cond_Zopp s N).
Proof.
  intros HN Hval.
  pose proof (digits2_pos_bounds m) as [Dlo Dhi].
  set (dm := Zpos (digits2_pos m)) in *.
  assert (Hdm : 0 < dm) by (subst dm; lia).
  unfold binary_round_aux, shr_fexp. cbn [Zdigits2 shr_record_of_loc].
  fold dm. rewrite fexp_binary64.
  (* the value has at most 53 digits *)
  assert (Hd : dm + e <= 53).
  { destruct (Z.le_gt_cases (dm + e) 53) as [|Hgt]; [assumption | exfalso].
    destruct (Z.le_gt_cases 0 e) as [He | He].
    - rewrite Z.max_r in Hval by lia. rewrite (Z.max_l 0 (- e)) in Hval by lia.
      change (2 ^ 0) with 1 in Hval.
      assert (2 ^ 53 <= 2 ^ (dm - 1) * 2 ^ e).
      { rewrite <- pow2_split by lia. apply Z.pow_le_mono_r; lia. }
      assert (0 < 2 ^ e) by (apply Z.pow_pos_nonneg; lia).
      nia.
    - rewrite Z.max_l in Hval by lia. rewrite (Z.max_r 0 (- e)) in Hval by lia.
      change (2 ^ 0) with 1 in Hval.
      assert (2 ^ 53 * 2 ^ (- e) <= 2 ^ (dm - 1)).
      { rewrite <- pow2_split by lia. apply Z.pow_le_mono_r; lia. }
      assert (0 < 2 ^ (- e)) by (apply Z.pow_pos_nonneg; lia).
      nia. }
  set (fe := Z.max (dm + e - 53) (-1074)).
  assert (Hfe : fe <= 0) by (subst fe; lia).
  assert (Hnoshift :
    fe - e <= 0 ->
    PyFloat.to_int
      (if e <=? PyFloat.emax - PyFloat.prec then S754_finite s m e
       else S754_infinity s) = inr (cond_Zopp s N)).
  { intros Hle.
    replace (e <=? PyFloat.emax - PyFloat.prec) with true
      by (symmetry; apply Z.leb_le; unfold PyFloat.emax, PyFloat.prec; lia).
    cbn [PyFloat.to_int]. f_equal. f_equal.
    destruct (Z.leb_spec 0 e).
    - rewrite Z.max_r in Hval by lia. rewrite (Z.max_l 0 (- e)) in Hval by lia.
      change (2 ^ 0) with 1 in Hval. lia.
    - rewrite Z.max_l in Hval by lia. rewrite (Z.max_r 0 (- e)) in Hval by lia.
      change (2 ^ 0) with 1 in Hval. rewrite Z.mul_1_r in Hval. rewrite Hval.
      apply Z.div_mul. apply Z.pow_nonzero; lia. }
  destruct (fe - e) as [| n | n] eqn:En; cbn [shr].
  - cbn [shr_m loc_of_shr_record round_nearest_even Zdigits2 shr_record_of_loc].
    fold dm. rewrite fexp_binary64. fold fe. rewrite En. cbn [shr shr_m].
    apply Hnoshift. lia.
  - (* the low [n] bits of the mantissa are zero *)
    assert (He : e < 0) by lia.
    rewrite Z.max_l in Hval by lia. rewrite (Z.max_r 0 (- e)) in Hval by lia.
    change (2 ^ 0) with 1 in Hval. rewrite Z.mul_1_r in Hval.
    assert (Hsplit : 2 ^ (- e) = 2 ^ (- fe) * 2 ^ Zpos n).
    { rewrite <- pow2_split by lia. f_equal. lia. }
    assert (Hpn : 0 < 2 ^ Zpos n) by (apply Z.pow_pos_nonneg; lia).
    assert (Hpf : 0 < 2 ^ (- fe)) by (apply Z.pow_pos_nonneg; lia).
    rewrite iter_pos_shr_1_exact
      by (exists (N * 2 ^ (- fe)); rewrite Hval, Hsplit; ring).
    cbn [shr_m loc_of_shr_record round_nearest_even].
    assert (Hq : Zpos m / 2 ^ Zpos n = N * 2 ^ (- fe)).
    { rewrite Hval, Hsplit, Z.mul_assoc. apply Z.div_mul. lia. }
    rewrite Hq.
    destruct (N * 2 ^ (- fe)) as [| m' | m'] eqn:Em'; [nia | | nia].
    cbn [Zdigits2 shr_record_of_loc].
    assert (Hdig : Zpos (digits2_pos m') = dm - Zpos n).
    { apply digits2_pos_unique.
      assert (Hm : Zpos m = Zpos m' * 2 ^ Zpos n)
        by (rewrite <- Em', Hval, Hsplit; ring).
      assert (B1 : 2 ^ (dm - 1) = 2 ^ (dm - Zpos n - 1) * 2 ^ Zpos n).
      { rewrite <- pow2_split; [f_equal; lia | | lia].
        destruct (Z.le_gt_cases 0 (dm - Zpos n - 1)); [assumption | exfalso].
        assert (2 ^ dm <= 2 ^ Zpos n) by (apply Z.pow_le_mono_r; lia).
        nia. }
      assert (B2 : 2 ^ dm = 2 ^ (dm - Zpos n) * 2 ^ Zpos n).
      { rewrite <- pow2_split; [f_equal; lia | | lia].
        destruct (Z.le_gt_cases 0 (dm - Zpos n)); [assumption | exfalso].
        assert (2 ^ dm <= 2 ^ Zpos n) by (apply Z.pow_le_mono_r; lia).
        nia. }
      split; nia. }
    rewrite Hdig, fexp_binary64.
    replace (dm - Zpos n + (e + Zpos n)) with (dm + e) by lia. fold fe.
    replace (fe - (e + Zpos n)) with 0 by lia. cbn [shr shr_m].
    replace (e + Zpos n) with fe by lia.
    replace (fe <=? PyFloat.emax - PyFloat.prec) with true
      by (symmetry; apply Z.leb_le; unfold PyFloat.emax, PyFloat.prec; lia).
    cbn [PyFloat.to_int]. f_equal. f_equal.
    destruct (Z.leb_spec 0 fe).
    + assert (fe = 0) by lia. replace (- fe) with 0 in Em' by lia.
      replace fe with 0 by lia. change (2 ^ 0) with 1 in *. lia.
    + rewrite <- Em'. apply Z.div_mul. lia.
  - cbn [shr_m loc_of_shr_record round_nearest_even Zdigits2 shr_record_of_loc].
    fold dm. rewrite fexp_binary64. fold fe. rewrite En. cbn [shr shr_m].
    apply Hnoshift. lia.
Qed.


Lemma Qpow2_to_Z (m e N : Z) :
  (inject_Z m * 2 ^ e == inject_Z N)%Q ->
  m * 2 ^ Z.max 0 e = N * 2 ^ Z.max 0 (- e).
Proof.
  intros H. destruct (Z.le_gt_cases 0 e) as [He | He].
  - rewrite Z.max_r, Z.max_l by lia. change (2 ^ 0) with 1. rewrite Z.mul_1_r.
    apply inject_Z_injective. rewrite inject_Z_mult, Zpower_Qpower by lia.
    exact H.
  - rewrite Z.max_l, Z.max_r by lia. change (2 ^ 0) with 1. rewrite Z.mul_1_r.
    apply inject_Z_injective. rewrite inject_Z_mult, Zpower_Qpower by lia.
    rewrite <- H.
    replace e with (- - e)%Z at 1 by lia. rewrite Qpower_opp.
    assert (Hnz : ~ (inject_Z 2 ^ (- e) == 0)%Q)
      by (apply Qpower_not_0; discriminate).
    change (2%Q) with (inject_Z 2). field. exact Hnz.
Qed.

Lemma cond_Zopp_mul (s1 s2 : bool) (a b : Z) :
  cond_Zopp s1 a * cond_Zopp s2 b = cond_Zopp (xorb s1 s2) (a * b).
Proof. destruct s1, s2; cbn; lia. Qed.

(** [int(x * y)] when the exact product is an integer below [2^53]. *)
Lemma mul_to_int_exact (x y : PyFloat.float) (qx qy : Q) (N : Z) :
  PyFloat.to_Q x = Some qx -> PyFloat.to_Q y = Some qy ->
  (qx * qy == inject_Z N)%Q -> Z.abs N < 2 ^ 53 ->
  PyFloat.to_int (PyFloat.mul x y) = inr N.
Proof.
  intros Hx Hy Hprod HN.
  assert (Hzero : forall q, (0 * q == inject_Z N)%Q \/ (q * 0 == inject_Z N)%Q -> N = 0).
  { intros q [H | H]; apply inject_Z_injective; rewrite <- H; ring. }
  destruct x as [sx | sx | | sx mx ex]; try discriminate;
    destruct y as [sy | sy | | sy my ey]; try discriminate;
    cbn in Hx, Hy; injection Hx as <-; injection Hy as <-.
  - cbn. f_equal. symmetry. apply (Hzero 0%Q). now left.
  - cbn. f_equal. symmetry. eapply Hzero. left. exact Hprod.
  - cbn. f_equal. symmetry. eapply Hzero. right. exact Hprod.
  - unfold PyFloat.mul, SFmul.
    assert (Hq : (inject_Z (cond_Zopp (xorb sx sy) (Zpos (mx * my))) * 2 ^ (ex + ey)
                  == inject_Z N)%Q).
    { rewrite <- Hprod, Pos2Z.inj_mul, <- cond_Zopp_mul, inject_Z_mult.
      rewrite Qpower_plus by discriminate. ring. }
    apply Qpow2_to_Z in Hq.
    assert (P1 : 0 < 2 ^ Z.max 0 (ex + ey)) by (apply Z.pow_pos_nonneg; lia).
    assert (P2 : 0 < 2 ^ Z.max 0 (- (ex + ey))) by (apply Z.pow_pos_nonneg; lia).
    replace N with (cond_Zopp (xorb sx sy) (Z.abs N)).
    + apply binary_round_aux_integer.
      * destruct (xorb sx sy); cbn [cond_Zopp] in Hq; nia.
      * destruct (xorb sx sy); cbn [cond_Zopp] in Hq; nia.
    + destruct (xorb sx sy); cbn [cond_Zopp] in *; nia.
Qed.


(** [float("2.01")] times [10^6] falls one raw unit short. *)
Example amount_to_raw_2_01 : amount_to_raw float_2_01 6 = inr 2009999.
Proof. vm_compute. reflexivity. Qed.

Example sample_floats_are_binary64 :
  PyFloat.is_binary64 float_2_01 = true /\ PyFloat.is_binary64 float_2_5 = true.
Proof. split; reflexivity. Qed.

(** At the level of the conversion alone, 2.01 with 6 decimals is not scaled
    exactly. *)
Lemma float_2_01_not_scaled_exactly : ~ scales_exactly float_2_01 6.
Proof.
  intros H.
  specialize (H _ 2009999 eq_refl amount_to_raw_2_01).
  apply Qle_bool_iff in H. vm_compute in H. discriminate H.
Qed.

(** The integer nearest to the value of [float("2.01")] times [10^6] is
    2010000. *)
Example float_2_01_nearest :
  nearest_integer (inject_Z 4526117625507348 * 2 ^ (-51) * inject_Z (10 ^ 6)) 2010000.
Proof. apply Qle_bool_iff. vm_compute. reflexivity. Qed.

Lemma pow10_table : forallb pow10_check (map N.of_nat (seq 0 256)) = true.
Proof. vm_compute. reflexivity. Qed.

Lemma pow10_checked (d : N) : (d <= 255)%N -> pow10_check d = true.
Proof.
  intros Hd. pose proof pow10_table as T. rewrite forallb_forall in T.
  apply T. rewrite <- (N2Nat.id d). apply in_map. apply in_seq. lia.
Qed.

Lemma coprime_pow5_pow2 (i j : Z) : 0 <= i -> 0 <= j -> Z.gcd (5 ^ i) (2 ^ j) = 1.
Proof.
  intros Hi Hj. apply Z.coprime_pow_l; [assumption |].
  apply Z.coprime_pow_r; [assumption | reflexivity].
Qed.

(** A nonzero dyadic number times [10^d], [d >= 23], is no integer below [2^53]. *)
Lemma dyadic_pow10_large (m : positive) (s : bool) (e d N : Z) :
  23 <= d ->
  (inject_Z (cond_Zopp s (Zpos m)) * 2 ^ e * inject_Z (10 ^ d) == inject_Z N)%Q ->
  2 ^ 53 <= Z.abs N.
Proof.
  intros Hd H.
  assert (Hq : (inject_Z (cond_Zopp s (Zpos m) * 10 ^ d) * 2 ^ e == inject_Z N)%Q)
    by (rewrite <- H, inject_Z_mult; ring).
  apply Qpow2_to_Z in Hq.
  change 10 with (5 * 2) in Hq. rewrite Z.pow_mul_l in Hq.
  assert (P5 : 0 < 5 ^ d) by (apply Z.pow_pos_nonneg; lia).
  assert (P2 : 0 < 2 ^ d) by (apply Z.pow_pos_nonneg; lia).
  assert (Pe : 0 < 2 ^ Z.max 0 e) by (apply Z.pow_pos_nonneg; lia).
  assert (Pe' : 0 < 2 ^ Z.max 0 (- e)) by (apply Z.pow_pos_nonneg; lia).
  assert (Hdiv : (5 ^ d | N)).
  { apply Z.gauss with (m := 2 ^ Z.max 0 (- e)).
    - exists (cond_Zopp s (Zpos m) * 2 ^ d * 2 ^ Z.max 0 e).
      rewrite (Z.mul_comm (2 ^ Z.max 0 (- e)) N), <- Hq. ring.
    - apply coprime_pow5_pow2; lia. }
  assert (HN0 : N <> 0) by (destruct s; cbn [cond_Zopp] in Hq; nia).
  apply Z.divide_abs_r in Hdiv. apply Z.divide_pos_le in Hdiv; [| lia].
  assert (5 ^ 23 <= 5 ^ d) by (apply Z.pow_le_mono_r; lia).
  assert (2 ^ 53 <= 5 ^ 23) by (vm_compute; discriminate).
  lia.
Qed.

(** Whenever [amount * 10^decimals] is an integer of magnitude below [2^53],
    [int(amount * (10 ** decimals))] is exactly that integer, for every
    [uint8] decimal count. *)
Lemma amount_to_raw_exact_on_integers
    (amount : PyFloat.float) (decimals : N) (q : Q) (raw : Z) :
  (decimals <= 255)%N ->
  PyFloat.to_Q amount = Some q ->
  (q * inject_Z (10 ^ Z.of_N decimals) == inject_Z raw)%Q ->
  Z.abs raw < 2 ^ 53 ->
  amount_to_raw amount decimals = inr raw.
Proof.
  intros Hd Hq Hprod Hraw.
  pose proof (pow10_checked decimals Hd) as Hc.
  unfold pow10_check in Hc. unfold amount_to_raw.
  destruct (PyFloat.of_int (10 ^ Z.of_N decimals)) as [err | p]; [discriminate |].
  destruct p as [ | | | [ | ] m e]; try discriminate.
  destruct (N.leb_spec decimals 22) as [Hsmall | Hbig].
  - apply Qeq_bool_iff in Hc.
    apply mul_to_int_exact with (qx := q) (qy := (inject_Z (Zpos m) * 2 ^ e)%Q);
      [assumption | reflexivity | | assumption].
    rewrite Hc. exact Hprod.
  - destruct amount as [sa | sa | | sa ma ea]; try discriminate;
      cbn in Hq; injection Hq as <-.
    + cbn. f_equal. apply inject_Z_injective. rewrite <- Hprod. ring.
    + exfalso. apply dyadic_pow10_large in Hprod; lia.
Qed.

(** ** Chain keys *)

(** C4: at [("polygon", testnet = True)] bridge.py resolves to the production
    key while balance.py and send.py resolve to the test-network key. *)
Theorem get_chain_key_polygon_testnet_diverges :
  Bridge.get_chain_key "polygon" true = "polygon"
  /\ is_test_key (Bridge.get_chain_key "polygon" true) = false
  /\ Balance.get_chain_key "polygon" true = "polygon_mumbai"
  /\ Send.get_chain_key "polygon" true = "polygon_mumbai".
Proof. repeat split. Qed.

(** Away from that pair the three scripts agree. *)
Lemma get_chain_key_agree (chain : string) (testnet : bool) :
  In chain supported_chains ->
  (chain, testnet) <> ("polygon", true) ->
  Bridge.get_chain_key chain testnet = Balance.get_chain_key chain testnet
  /\ Send.get_chain_key chain testnet = Balance.get_chain_key chain testnet
  /\ is_test_key (Balance.get_chain_key chain testnet) = testnet.
Proof.
  intros Hin Hne. cbn in Hin.
  destruct Hin as [<- | [<- | [<- | [<- | []]]]]; destruct testnet;
    try (repeat split; reflexivity).
  exfalso. apply Hne. reflexivity.
Qed.

Lemma get_chain_key_mainnet (chain : string) :
  Bridge.get_chain_key chain false = chain
  /\ Balance.get_chain_key chain false = chain
  /\ Send.get_chain_key chain false = chain.
Proof. repeat split. Qed.

(** ** Hexadecimal strings *)

Example fromhex_positions :
  PyStr.fromhex "0g" = inl (PyStr.fromhex_error 1)
  /\ PyStr.fromhex "abc" = inl (PyStr.fromhex_error 3)
  /\ PyStr.fromhex "a b" = inl (PyStr.fromhex_error 1)
  /\ PyStr.fromhex (String "z" (String "z" (String "233" ""))) = inl (PyStr.fromhex_error 2)
  /\ PyStr.fromhex " ab cd " = inr [Byte.xab; Byte.xcd]
  /\ exn_msg (PyStr.fromhex_error 12)
     = "non-hexadecimal number found in fromhex() arg at position 12".
Proof. repeat split. Qed.

Lemma all_ascii_complete (c : ascii) : In c all_ascii.
Proof.
  unfold all_ascii. rewrite <- (ascii_nat_embedding c).
  apply in_map, in_seq. pose proof (nat_ascii_bounded c). lia.
Qed.

Lemma hex_val_facts (c : ascii) (v : N) :
  PyStr.hex_val c = Some v ->
  (v < 16)%N /\ PyStr.hex_digit v = PyStr.lower_ascii c
  /\ PyStr.is_space c = false
  /\ Ascii.eqb c "+" = false /\ Ascii.eqb c "-" = false.
Proof.
  intros Hv.
  assert (T : forallb hex_char_check all_ascii = true) by (vm_compute; reflexivity).
  rewrite forallb_forall in T. specialize (T c (all_ascii_complete c)).
  unfold hex_char_check in T. rewrite Hv in T.
  repeat (apply andb_prop in T as [T ?]).
  repeat split.
  - now apply N.ltb_lt.
  - now apply Ascii.eqb_eq.
  - now apply negb_true_iff.
  - now apply negb_true_iff.
  - now apply negb_true_iff.
Qed.

Lemma nibbles_complete (v : N) : (v < 16)%N -> In v nibbles.
Proof.
  intros H. unfold nibbles. rewrite <- (N2Nat.id v).
  apply in_map, in_seq. lia.
Qed.

Lemma byte_of_nibbles_digits (t b : N) :
  (t < 16)%N -> (b < 16)%N ->
  PyStr.hex_digit (Byte.to_N (PyStr.byte_of_nibbles t b) / 16) = PyStr.hex_digit t
  /\ PyStr.hex_digit (Byte.to_N (PyStr.byte_of_nibbles t b) mod 16) = PyStr.hex_digit b.
Proof.
  intros Ht Hb.
  assert (T : forallb (fun t => forallb (fun b =>
             (Byte.to_N (PyStr.byte_of_nibbles t b) =? 16 * t + b)%N) nibbles) nibbles
            = true) by (vm_compute; reflexivity).
  rewrite forallb_forall in T. specialize (T t (nibbles_complete t Ht)).
  rewrite forallb_forall in T. specialize (T b (nibbles_complete b Hb)).
  apply N.eqb_eq in T. rewrite T.
  split; f_equal.
  - symmetry. apply N.div_unique with (r := b); lia.
  - symmetry. apply N.mod_unique with (q := t); lia.
Qed.

Lemma hex_digit_is_ascii (c : ascii) (v : N) :
  PyStr.hex_val c = Some v -> PyStr.is_ascii c = true.
Proof.
  intros Hv.
  assert (T : forallb (fun c => match PyStr.hex_val c with
                                | Some _ => PyStr.is_ascii c
                                | None => true
                                end) all_ascii = true) by (vm_compute; reflexivity).
  rewrite forallb_forall in T. specialize (T c (all_ascii_complete c)).
  now rewrite Hv in T.
Qed.

Lemma first_non_ascii_hex_digits (h : string) :
  forall i : nat,
    PyStr.all_chars PyStr.is_hex_digit h = true -> PyStr.first_non_ascii i h = None.
Proof.
  induction h as [| c h IH]; intros i H; [reflexivity |].
  cbn [PyStr.all_chars] in H. apply andb_prop in H as [Hc H].
  unfold PyStr.is_hex_digit in Hc.
  destruct (PyStr.hex_val c) as [v |] eqn:Ev; [| discriminate].
  cbn [PyStr.first_non_ascii]. rewrite (hex_digit_is_ascii _ _ Ev). now apply IH.
Qed.

(** On a text of hexadecimal digits [bytes.fromhex] reads the digits. *)
Lemma fromhex_of_hex_digits (h : string) :
  PyStr.all_chars PyStr.is_hex_digit h = true ->
  PyStr.fromhex h = PyStr.fromhex_from 0 h.
Proof.
  intros H. unfold PyStr.fromhex. now rewrite first_non_ascii_hex_digits.
Qed.

Lemma fromhex_from_hex_digits (n : nat) :
  forall (i : nat) (h : string),
    String.length h = (2 * n)%nat ->
    PyStr.all_chars PyStr.is_hex_digit h = true ->
    exists bs : bytes,
      PyStr.fromhex_from i h = inr bs /\ List.length bs = n
      /\ PyStr.hex bs = PyStr.lower h.
Proof.
  induction n as [| n IH]; intros i h Hlen Hhex.
  - destruct h; [| discriminate]. exists []. repeat split.
  - destruct h as [| c1 [| c2 h']]; try (cbn in Hlen; lia).
    cbn [PyStr.all_chars] in Hhex.
    apply andb_prop in Hhex as [H1 Hhex]. apply andb_prop in Hhex as [H2 Hhex].
    unfold PyStr.is_hex_digit in H1, H2.
    destruct (PyStr.hex_val c1) as [t |] eqn:E1; [| discriminate].
    destruct (PyStr.hex_val c2) as [b |] eqn:E2; [| discriminate].
    destruct (hex_val_facts _ _ E1) as (Ht & Dt & St & _).
    destruct (hex_val_facts _ _ E2) as (Hb & Db & _).
    destruct (IH (S (S i)) h') as (bs & Hbs & Lbs & Xbs);
      [cbn in Hlen; lia | assumption |].
    exists (PyStr.byte_of_nibbles t b :: bs).
    cbn [PyStr.fromhex_from]. rewrite St, E1, E2, Hbs.
    destruct (byte_of_nibbles_digits t b Ht Hb) as [Q1 Q2].
    repeat split.
    + cbn. congruence.
    + cbn [PyStr.hex PyStr.lower]. rewrite Q1, Q2, Dt, Db, Xbs. reflexivity.
Qed.

Lemma fromhex_hex_digits (n : nat) :
  forall h : string,
    String.length h = (2 * n)%nat ->
    PyStr.all_chars PyStr.is_hex_digit h = true ->
    exists bs : bytes,
      PyStr.fromhex h = inr bs /\ List.length bs = n
      /\ PyStr.hex bs = PyStr.lower h.
Proof.
  intros h Hlen Hhex. rewrite (fromhex_of_hex_digits h Hhex).
  now apply fromhex_from_hex_digits.
Qed.

Lemma zeros_append_length (n : nat) (s : string) :
  String.length (PyStr.zeros n ++ s) = (n + String.length s)%nat.
Proof. induction n; cbn; [reflexivity | now rewrite IHn]. Qed.

Lemma zeros_all_hex (n : nat) (s : string) :
  PyStr.all_chars PyStr.is_hex_digit s = true ->
  PyStr.all_chars PyStr.is_hex_digit (PyStr.zeros n ++ s) = true.
Proof. intros H. induction n; cbn; assumption. Qed.

(** Two zero digits are a zero byte, wherever they stand. *)
Lemma fromhex_from_zero_byte (i : nat) (s : string) :
  PyStr.fromhex_from i (String "0" (String "0" s))
  = match PyStr.fromhex_from (S (S i)) s with
    | inl e => inl e
    | inr bs => inr (Byte.x00 :: bs)
    end.
Proof. reflexivity. Qed.

(** C9: for an address made of ["0x"] and 40 hexadecimal digits,
    [address_to_bytes32] returns 32 bytes: 12 zero bytes followed by the 20
    bytes the digits spell. *)
Theorem address_to_bytes32_left_pads (h : string) :
  String.length h = 40%nat ->
  PyStr.all_chars PyStr.is_hex_digit h = true ->
  exists addr : bytes,
    List.length addr = 20%nat
    /\ PyStr.hex addr = PyStr.lower h
    /\ Bridge.address_to_bytes32 ("0x" ++ h) = inr (repeat Byte.x00 12 ++ addr)%list
    /\ List.length (repeat Byte.x00 12 ++ addr)%list = 32%nat.
Proof.
  intros Hlen Hhex.
  destruct (fromhex_from_hex_digits 20 24 h Hlen Hhex) as (addr & Hfrom & Laddr & Xaddr).
  exists addr. repeat split; try assumption.
  - unfold Bridge.address_to_bytes32. cbn [append PyStr.drop].
    unfold PyStr.zfill. rewrite Hlen.
    destruct h as [| c h']; [discriminate |].
    pose proof Hhex as Hall.
    cbn [PyStr.all_chars] in Hhex. apply andb_prop in Hhex as [Hc _].
    unfold PyStr.is_hex_digit in Hc.
    destruct (PyStr.hex_val c) as [v |] eqn:Ev; [| discriminate].
    destruct (hex_val_facts _ _ Ev) as (_ & _ & _ & Hp & Hm).
    rewrite Hp, Hm. cbn [orb].
    change (64 - 40)%nat with 24%nat.
    rewrite fromhex_of_hex_digits by (now apply zeros_all_hex).
    cbn [PyStr.zeros append].
    do 12 rewrite fromhex_from_zero_byte. rewrite Hfrom. reflexivity.
  - rewrite length_app, repeat_length, Laddr. reflexivity.
Qed.

Lemma address_to_bytes32_left_pads_witness :
  exists addr : bytes,
    List.length addr = 20%nat
    /\ PyStr.hex addr = PyStr.lower "A0b86991c6218b36c1d19D4a2e9Eb0cE3606eB48"
    /\ Bridge.address_to_bytes32 "0xA0b86991c6218b36c1d19D4a2e9Eb0cE3606eB48"
       = inr (repeat Byte.x00 12 ++ addr)%list
    /\ List.length (repeat Byte.x00 12 ++ addr)%list = 32%nat.
Proof.
  apply (address_to_bytes32_left_pads "A0b86991c6218b36c1d19D4a2e9Eb0cE3606eB48");
    reflexivity.
Defined.

(** ** Runs and [wp] *)

Section Runs.

Context {S : Type} (o : oracle S).

Lemma wp_sound {R : Type} (p : prog R) :
  forall (P : exn + R -> list event -> Prop) (s : S),
    wp p P -> P (result_of (run o p s)) (trace_of (run o p s)).
Proof.
  induction p as [r | e | X c k IH | n k IH]; intros P s H; cbn [run wp] in *.
  - exact H.
  - exact H.
  - destruct (o X c s) as [r s'].
    specialize (IH r _ s' (H r)).
    destruct (run o (k r) s') as [[res t] s'']. exact IH.
  - specialize (IH _ s H).
    destruct (run o k s) as [[res t] s']. exact IH.
Qed.

End Runs.

Lemma wp_mono {R : Type} (p : prog R) :
  forall P Q : exn + R -> list event -> Prop,
    (forall res t, P res t -> Q res t) -> wp p P -> wp p Q.
Proof.
  induction p as [r | e | X c k IH | n k IH]; intros P Q HPQ H; cbn [wp] in *.
  - auto.
  - auto.
  - intros r. eapply IH; [| apply H]. cbn. auto.
  - eapply IH; [| apply H]. cbn. auto.
Qed.

Lemma wp_bind {A B : Type} (p : prog A) (f : A -> prog B) :
  forall P : exn + B -> list event -> Prop,
    wp p (fun res t =>
            match res with
            | inl e => P (inl e) t
            | inr a => wp (f a) (fun res' t' => P res' (t ++ t')%list)
            end) ->
    wp (bind p f) P.
Proof.
  induction p as [r | e | X c k IH | n k IH]; intros P H; cbn [wp bind] in *.
  - eapply wp_mono; [| exact H]. auto.
  - exact H.
  - intros r. apply IH. eapply wp_mono; [| apply H].
    intros [e | a] t; cbn; auto.
  - apply IH. eapply wp_mono; [| apply H].
    intros [e | a] t; cbn; auto.
Qed.

Lemma wp_try_bind {A B : Type} (p : prog A) (f : A -> prog B) (h : exn -> prog B) :
  forall P : exn + B -> list event -> Prop,
    wp p (fun res t =>
            match res with
            | inl e => wp (h e) (fun res' t' => P res' (t ++ t')%list)
            | inr a => wp (try_except (f a) h) (fun res' t' => P res' (t ++ t')%list)
            end) ->
    wp (try_except (bind p f) h) P.
Proof.
  induction p as [r | e | X c k IH | n k IH]; intros P H;
    cbn [wp bind try_except] in *.
  - eapply wp_mono; [| exact H]. auto.
  - eapply wp_mono; [| exact H]. auto.
  - intros r. apply IH. eapply wp_mono; [| apply H].
    intros [e | a] t; cbn; auto.
  - apply IH. eapply wp_mono; [| apply H].
    intros [e | a] t; cbn; auto.
Qed.

(** ** The attestation poll *)

Lemma attestation_attempt_spec (url : string) :
  wp (Bridge.attestation_attempt url)
     (fun res t =>
        exists r,
          t = EvCall (requests_get_json url) r
              :: match pause_after r with Some n => [EvSleep n] | None => [] end
          /\ match pause_after r with
             | Some _ => res = inr None
             | None =>
                 exists d, res = inr (Some d)
                   /\ dict_mem d "error" = false
                   /\ dict_get d "success" = Some (VBool true)
             end).
Proof.
  unfold Bridge.attestation_attempt.
  cbn [wp bind try_except perform lift time_sleep].
  intros [e | data]; cbn [lift bind try_except wp time_sleep].
  - exists (inl e). split; reflexivity.
  - destruct (py_get data "status") as [e | status] eqn:Est;
      cbn [lift bind try_except wp time_sleep].
    + exists (inr data). cbn [pause_after]. rewrite Est. split; reflexivity.
    + destruct (py_eq_str status "complete") eqn:Ec.
      * destruct data; try discriminate Est.
        cbn [py_get lift bind try_except wp].
        exists (inr (VDict d)). cbn [pause_after]. rewrite Est, Ec.
        split; [reflexivity |]. eexists. repeat split.
      * cbn [lift bind try_except wp time_sleep].
        exists (inr data). cbn [pause_after]. rewrite Est, Ec. split; reflexivity.
Qed.

Lemma attestation_loop_spec (url : string) (n : nat) :
  wp (Bridge.attestation_loop url n) (loop_post url n).
Proof.
  induction n as [| n IH]; cbn [Bridge.attestation_loop].
  - cbn [wp]. exists timeout_dict. unfold polls. cbn [existsb filter List.length].
    repeat split; try reflexivity; discriminate.
  - apply wp_bind. eapply wp_mono; [| apply attestation_attempt_spec].
    intros res t (r & -> & Hres).
    destruct (pause_after r) as [m |] eqn:Ep.
    + subst res. eapply wp_mono; [| apply IH].
      intros res' t' (d & -> & Hrounds & Hcount & Hno & Hyes).
      assert (Hoc : observed_complete (EvCall (requests_get_json url) r) = false)
        by (unfold observed_complete; cbn [poll_answer]; now rewrite Ep).
      exists d. unfold polls.
      cbn [app existsb filter is_poll List.length polling_rounds poll_answer].
      fold (polls t'). change (observed_complete (EvSleep m)) with false.
      rewrite Hoc, Ep, String.eqb_refl, Z.eqb_refl. cbn [andb orb].
      repeat split; try assumption; try lia.
      * apply Hno. assumption.
      * f_equal. apply Hno. assumption.
      * apply Hyes. assumption.
      * apply Hyes. assumption.
    + destruct Hres as (d & -> & Herr & Hsucc). cbn [wp].
      assert (Hoc : observed_complete (EvCall (requests_get_json url) r) = true)
        by (unfold observed_complete; cbn [poll_answer]; now rewrite Ep).
      exists d. unfold polls.
      cbn [app existsb filter is_poll List.length polling_rounds poll_answer].
      rewrite Hoc, Ep, String.eqb_refl. cbn [andb orb].
      repeat split; try assumption; try lia; try discriminate.
Qed.

Lemma get_attestation_spec (message_hash : string) (testnet : bool) (max_attempts : Z) :
  wp (Bridge.get_attestation message_hash testnet max_attempts)
     (loop_post (attestation_url testnet message_hash) (Z.to_nat max_attempts)).
Proof.
  unfold Bridge.get_attestation, attestation_url.
  destruct testnet; cbn [py_subscript dict_get Bridge.ATTESTATION_API String.eqb
                           Ascii.eqb Bool.eqb lift bind];
    apply attestation_loop_spec.
Qed.

(** C3: [get_attestation] always returns; it queries the endpoint at most
    [max_attempts] times (30 by default), and when no answer has status
    "complete" it has used all its attempts and returns
    [{"error": "Attestation timeout"}]. *)
Theorem get_attestation_bounded
    (S : Type) (o : oracle S) (s : S)
    (message_hash : string) (testnet : bool) (max_attempts : Z) :
  let r := run o (Bridge.get_attestation message_hash testnet max_attempts) s in
  Bridge.default_max_attempts = 30
  /\ Z.of_nat (polls (trace_of r)) <= Z.max 0 max_attempts
  /\ exists d : dict,
       result_of r = inr d
       /\ if existsb observed_complete (trace_of r)
          then dict_mem d "error" = false
          else d = timeout_dict
               /\ Z.of_nat (polls (trace_of r)) = Z.max 0 max_attempts.
Proof.
  intros r. subst r.
  pose proof (wp_sound o _ _ s (get_attestation_spec message_hash testnet max_attempts))
    as (d & Hres & _ & Hcount & Hno & Hyes).
  split; [reflexivity |]. split; [lia |].
  exists d. split; [assumption |].
  destruct (existsb observed_complete _) eqn:E.
  - apply Hyes. reflexivity.
  - destruct (Hno eq_refl) as [-> Hn]. split; [reflexivity | lia].
Qed.

(** ** Pauses between polls *)

Example flaky_endpoint_sleeps :
  sleeps (trace_of (run flaky_endpoint (Bridge.get_attestation "0xab" true 2) O))
  = [5; 10].
Proof. vm_compute. reflexivity. Qed.

(** C6 (as stated): the pause is not one constant. *)
Lemma poll_interval_not_single : ~ single_poll_interval.
Proof.
  intros [c H].
  pose proof (H nat flaky_endpoint O "0xab" true 2 5) as H5.
  pose proof (H nat flaky_endpoint O "0xab" true 2 10) as H10.
  rewrite flaky_endpoint_sleeps in H5, H10.
  assert (5 = c) by (apply H5; cbn; auto).
  assert (10 = c) by (apply H10; cbn; auto).
  lia.
Qed.

Lemma polling_rounds_sleeps (url : string) :
  forall t, polling_rounds url t = true ->
            forallb (fun n => (n =? 10) || (n =? 5)) (sleeps t) = true.
Proof.
  fix IH 1. intros [| e t] H; [reflexivity |].
  cbn [polling_rounds] in H.
  destruct (poll_answer e) as [[u r] |] eqn:Ea; [| discriminate].
  assert (Hs : sleep_of e = None).
  { destruct e as [X c r' | n]; [reflexivity | discriminate]. }
  unfold sleeps in *. cbn [filter_map]. rewrite Hs.
  apply andb_prop in H as [_ H].
  destruct (pause_after r) as [n |] eqn:Ep.
  - destruct t as [| [X c r' | m] t]; try discriminate.
    apply andb_prop in H as [Hm H]. apply Z.eqb_eq in Hm. subst m.
    cbn [filter_map sleep_of forallb]. rewrite (IH t H), andb_true_r.
    destruct r as [e' | data]; cbn in Ep.
    + injection Ep as <-. reflexivity.
    + destruct (py_get data "status"); [injection Ep as <-; reflexivity |].
      destruct (py_eq_str v "complete"); [discriminate |].
      injection Ep as <-. reflexivity.
  - destruct t; [reflexivity | discriminate].
Qed.

(** C6 (amended): the trace of [get_attestation] is a sequence of rounds, each
    a query of the endpoint followed by a pause of 10 seconds when the answer
    was a dict without status "complete" and of 5 seconds when the round
    raised; so every pause is one of these two constants. *)
Theorem get_attestation_pauses
    (S : Type) (o : oracle S) (s : S)
    (message_hash : string) (testnet : bool) (max_attempts : Z) :
  let t := trace_of (run o (Bridge.get_attestation message_hash testnet max_attempts) s) in
  polling_rounds (attestation_url testnet message_hash) t = true
  /\ forallb (fun n => (n =? 10) || (n =? 5)) (sleeps t) = true.
Proof.
  intros t. subst t.
  pose proof (wp_sound o _ _ s (get_attestation_spec message_hash testnet max_attempts))
    as (d & _ & Hrounds & _).
  split; [assumption |]. eapply polling_rounds_sleeps. eassumption.
Qed.

(** ** Walking the three functions *)

(** One step along a program: name the answer to the next request, or split
    on the pure operation or test the program is waiting for. *)
Ltac step :=
  cbn [wp bind try_except perform lift time_sleep];
  lazymatch goal with
  | |- forall r : exn + unit, _ => intros [?e | []]
  | |- forall r : exn + _, _ => intros [?e | ?x]
  | |- wp (try_except (bind (lift ?x) _) _) _ => destruct x eqn:?
  | |- wp (try_except (if ?b then _ else _) _) _ => destruct b eqn:?
  | |- _ => idtac
  end.

Ltac split_ins :=
  repeat match goal with
    | H : False |- _ => destruct H
    | H : _ \/ _ |- _ => destruct H
    | H : _ /\ _ |- _ => destruct H
    end.

(** A leaf of the walk: a result and a fully known trace. *)
Ltac at_leaf :=
  lazymatch goal with
  | |- wp _ _ => fail
  | |- forall _, _ => fail
  | |- _ => idtac
  end.

Section Walks.

#[local] Arguments amount_to_raw : simpl never.
#[local] Arguments PyFloat.int_truediv : simpl never.
#[local] Arguments Bridge.address_to_bytes32 : simpl never.
#[local] Arguments Send.get_explorer_url : simpl never.
#[local] Arguments PyStr.hex : simpl never.
#[local] Arguments String.append : simpl never.
#[local] Arguments Bridge.get_attestation : simpl never.
#[local] Arguments attestation_url : simpl never.


(** ** Environments that encode every name *)

Lemma os_getenv_plain (env : string -> option string) (key : string)
    (default : option string) :
  os_getenv (plain env) key default = inr (env_value env key default).
Proof. unfold os_getenv, plain. cbn. now destruct (PyStr.all_chars _ _). Qed.

Lemma py_or_getenv_plain (a : option string) (env : string -> option string)
    (key : string) :
  py_or_getenv a (plain env) key = inr (py_or a (env key)).
Proof.
  unfold py_or_getenv, py_or. rewrite os_getenv_plain. unfold env_value.
  destruct (py_not a); [| reflexivity]. now destruct (env key).
Qed.

(** [os.getenv] raises its [UnicodeEncodeError] or answers as in a process
    that encodes every name. *)
Lemma os_getenv_cases (env : environ) (key : string) (default : option string) :
  (exists msg, os_getenv env key default = inl (Exn "UnicodeEncodeError" msg))
  \/ os_getenv env key default = inr (env_value (variables env) key default).
Proof.
  unfold os_getenv.
  destruct (if PyStr.all_chars PyStr.is_ascii key then None else encode_error env key);
    eauto.
Qed.

(** The name of the key variable is ASCII: reading it never raises. *)
Lemma py_or_getenv_key (a : option string) (env : environ) :
  py_or_getenv a env "USDC_PRIVATE_KEY"
  = inr (py_or a (variables env "USDC_PRIVATE_KEY")).
Proof.
  unfold py_or_getenv, py_or, os_getenv, env_value. cbn.
  destruct (py_not a); [| reflexivity]. now destruct (variables env _).
Qed.

(** Each function raises what [os.getenv] raised, before any request, or is
    the function of a process that encodes every name. *)
Lemma get_balance_environ (env : environ) (address chain : string) (testnet : bool) :
  (exists e, Balance.get_balance env address chain testnet = Raise e)
  \/ Balance.get_balance env address chain testnet
     = Balance.get_balance (plain (variables env)) address chain testnet.
Proof.
  unfold Balance.get_balance. cbv zeta. rewrite os_getenv_plain.
  destruct (os_getenv_cases env ("USDC_RPC_" ++ PyStr.upper chain)
              (dict_get Balance.DEFAULT_RPCS (Balance.get_chain_key chain testnet)))
    as [(msg & ->) | ->];
    [left; eexists; reflexivity | right; reflexivity].
Qed.

Lemma send_usdc_environ (env : environ) (to : string) (amount : PyFloat.float)
    (chain : string) (testnet : bool) (private_key : option string) :
  (exists e, Send.send_usdc env to amount chain testnet private_key = Raise e)
  \/ Send.send_usdc env to amount chain testnet private_key
     = Send.send_usdc (plain (variables env)) to amount chain testnet private_key.
Proof.
  unfold Send.send_usdc. cbv zeta. rewrite !py_or_getenv_key. cbn [lift bind variables plain].
  destruct (py_not (py_or private_key (variables env "USDC_PRIVATE_KEY")));
    [right; reflexivity |].
  rewrite os_getenv_plain.
  destruct (os_getenv_cases env ("USDC_RPC_" ++ PyStr.upper chain)
              (dict_get Send.DEFAULT_RPCS (Send.get_chain_key chain testnet)))
    as [(msg & ->) | ->];
    [left; eexists; reflexivity | right; reflexivity].
Qed.

Lemma bridge_usdc_environ (env : environ) (to : string) (amount : PyFloat.float)
    (from_chain to_chain : string) (testnet : bool) (private_key : option string) :
  (exists e, Bridge.bridge_usdc env to amount from_chain to_chain testnet private_key
             = Raise e)
  \/ Bridge.bridge_usdc env to amount from_chain to_chain testnet private_key
     = Bridge.bridge_usdc (plain (variables env)) to amount from_chain to_chain testnet
         private_key.
Proof.
  unfold Bridge.bridge_usdc. cbv zeta. rewrite !py_or_getenv_key.
  cbn [lift bind variables plain].
  destruct (py_not (py_or private_key (variables env "USDC_PRIVATE_KEY")));
    [right; reflexivity |].
  rewrite !os_getenv_plain.
  destruct (os_getenv_cases env ("USDC_RPC_" ++ PyStr.upper from_chain)
              (dict_get Bridge.DEFAULT_RPCS (Bridge.get_chain_key from_chain testnet)))
    as [(msg & ->) | ->]; [left; eexists; reflexivity |].
  cbn [lift bind].
  destruct (os_getenv_cases env ("USDC_RPC_" ++ PyStr.upper to_chain)
              (dict_get Bridge.DEFAULT_RPCS (Bridge.get_chain_key to_chain testnet)))
    as [(msg & ->) | ->];
    [left; eexists; reflexivity | right; reflexivity].
Qed.

(** A variable that is set is read without an error. *)
Lemma os_getenv_set (env : environ) (key : string) (default : option string) (u : string) :
  variables env key = Some u ->
  os_getenv env key default = inr (env_value (variables env) key default).
Proof.
  intros H. unfold os_getenv. rewrite (variables_encoded env key u H).
  now destruct (PyStr.all_chars PyStr.is_ascii key).
Qed.

Lemma get_balance_override (env : environ) (address chain : string) (testnet : bool)
    (u : string) :
  variables env ("USDC_RPC_" ++ PyStr.upper chain) = Some u ->
  Balance.get_balance env address chain testnet
  = Balance.get_balance (plain (variables env)) address chain testnet.
Proof.
  intros H. unfold Balance.get_balance. cbv zeta.
  now rewrite os_getenv_plain, (os_getenv_set env _ _ u H).
Qed.

Lemma send_usdc_override (env : environ) (to : string) (amount : PyFloat.float)
    (chain : string) (testnet : bool) (private_key : option string) (u : string) :
  variables env ("USDC_RPC_" ++ PyStr.upper chain) = Some u ->
  Send.send_usdc env to amount chain testnet private_key
  = Send.send_usdc (plain (variables env)) to amount chain testnet private_key.
Proof.
  intros H. unfold Send.send_usdc. cbv zeta. rewrite !py_or_getenv_key.
  now rewrite os_getenv_plain, (os_getenv_set env _ _ u H).
Qed.

Ltac solve_reports :=
  unfold reports, clean_run, clean_bridge_run;
  eexists; split; [reflexivity |]; cbn;
  repeat match goal with
    | H : negb ?b = false |- context [negb ?b] => rewrite H
    end;
  cbn; repeat split; reflexivity.

Ltac solve_amounts :=
  unfold amounts_scaled; cbn; intros; split_ins; subst;
  (eexists; split; [left; reflexivity | eassumption]).

Ltac leaf post :=
  at_leaf; unfold post; cbn [negb andb];
  repeat match goal with H : negb _ = false |- _ => rewrite ?H end;
  repeat match goal with
    | |- _ /\ _ => split
    | |- reports _ _ _ _ _ => solve_reports
    | |- amounts_scaled _ _ => solve_amounts
    | |- Forall _ _ => cbn; constructor
    | |- forall h, burn_confirmed _ = Some h -> _ => cbn; intros; discriminate
    | |- _ => cbn; first [reflexivity | lia]
    end.

Lemma send_usdc_wp (env : string -> option string) to amount chain testnet pk :
  let chain_key := Send.get_chain_key chain testnet in
  let key := py_or pk (env "USDC_PRIVATE_KEY") in
  let rpc_url := env_value env ("USDC_RPC_" ++ PyStr.upper chain)
                           (dict_get Send.DEFAULT_RPCS chain_key) in
  wp (Send.send_usdc (plain env) to amount chain testnet pk)
     (send_post amount rpc_url (send_configured env chain testnet pk)).
Proof.
  intros chain_key key rpc_url. unfold Send.send_usdc, send_configured.
  rewrite py_or_getenv_plain. cbn [lift bind].
  fold chain_key. fold key.
  destruct (py_not key) eqn:Hpk; [cbn [wp]; leaf send_post |].
  rewrite os_getenv_plain. cbn [lift bind]. fold chain_key. fold rpc_url.
  destruct (py_not rpc_url) eqn:Hrpc; [cbn [wp]; leaf send_post |].
  destruct (py_not (dict_get Send.USDC_ADDRESSES chain_key)) eqn:Husdc;
    [cbn [wp]; leaf send_post |].
  repeat (progress step; try solve [leaf send_post]).
Qed.

Lemma get_balance_wp (env : string -> option string) address chain testnet :
  let chain_key := Balance.get_chain_key chain testnet in
  let rpc_url := env_value env ("USDC_RPC_" ++ PyStr.upper chain)
                           (dict_get Balance.DEFAULT_RPCS chain_key) in
  wp (Balance.get_balance (plain env) address chain testnet)
     (balance_post rpc_url (balance_configured env chain testnet)).
Proof.
  intros chain_key rpc_url. unfold Balance.get_balance, balance_configured.
  rewrite os_getenv_plain. cbn [lift bind].
  fold chain_key. fold rpc_url.
  destruct (py_not rpc_url) eqn:Hrpc; [cbn [wp]; leaf balance_post |].
  destruct (py_not (dict_get Balance.USDC_ADDRESSES chain_key)) eqn:Husdc;
    [cbn [wp]; leaf balance_post |].
  repeat (progress step; try solve [leaf balance_post]).
Qed.

(** ** Traces of the attestation poll inside a longer trace *)

Lemma filter_map_app {A B : Type} (f : A -> option B) (l1 l2 : list A) :
  filter_map f (l1 ++ l2)%list = (filter_map f l1 ++ filter_map f l2)%list.
Proof.
  induction l1 as [| a l1 IH]; cbn [filter_map app]; [reflexivity |].
  destruct (f a); cbn [app]; now rewrite IH.
Qed.

Lemma poll_answer_inv (e : event) (u : string) (r : exn + value) :
  poll_answer e = Some (u, r) -> e = EvCall (requests_get_json u) r.
Proof.
  destruct e as [X c r' | n]; [| discriminate].
  destruct c; cbn; intros H; try discriminate H.
  injection H as <- <-. reflexivity.
Qed.

Lemma polling_rounds_ind (url : string) (P : list event -> Prop) :
  P [] ->
  (forall r, pause_after r = None -> P [EvCall (requests_get_json url) r]) ->
  (forall r n t, pause_after r = Some n -> polling_rounds url t = true -> P t ->
                 P (EvCall (requests_get_json url) r :: EvSleep n :: t)) ->
  forall t, polling_rounds url t = true -> P t.
Proof.
  intros Hnil Hlast Hround. fix IH 1. intros [| e t] H; [exact Hnil |].
  cbn [polling_rounds] in H.
  destruct (poll_answer e) as [[u r] |] eqn:Ea; [| discriminate].
  apply poll_answer_inv in Ea. subst e.
  apply andb_prop in H as [Hu H]. apply String.eqb_eq in Hu. subst u.
  destruct (pause_after r) as [n |] eqn:Ep.
  - destruct t as [| [X c r' | m] t]; try discriminate.
    apply andb_prop in H as [Hm H]. apply Z.eqb_eq in Hm. subst m.
    apply Hround; [assumption | assumption | apply IH; assumption].
  - destruct t; [| discriminate]. apply Hlast. assumption.
Qed.

Lemma polling_rounds_only (url : string) (t : list event) :
  polling_rounds url t = true -> polling_only url t.
Proof.
  revert t. apply polling_rounds_ind.
  - split; try reflexivity. intros u [].
  - intros r _. split; try reflexivity. intros u [<- | []]. reflexivity.
  - intros r n t _ _ [H1 H2 H3 H4]. split; try assumption.
    intros u [<- | Hin]; [reflexivity | apply H4; assumption].
Qed.


(** A leaf reached after the attestation poll: the trace is a known prefix,
    the rounds of the poll, and a known suffix. *)
Ltac push_poll H1 H2 H3 Hoc :=
  unfold submitted, submitted_amounts, submissions, decimals_answers,
    poll_urls, polls in *;
  cbn;
  rewrite ?filter_map_app, ?existsb_app, ?filter_app, ?map_app, ?length_app;
  rewrite ?H1, ?H2, ?H3, ?Hoc;
  cbn; rewrite ?app_nil_r, ?Nat.add_0_r.

Ltac leaf_after_poll H1 H2 H3 H4 Hoc Hn :=
  at_leaf; unfold bridge_post; cbn [negb andb];
  repeat match goal with
    | |- _ /\ _ => split
    | |- reports _ _ _ _ _ =>
        unfold reports, clean_bridge_run;
        eexists; split; [reflexivity |]; push_poll H1 H2 H3 Hoc;
        repeat split; reflexivity
    | |- amounts_scaled _ _ =>
        unfold amounts_scaled; push_poll H1 H2 H3 Hoc;
        intros; split_ins; subst;
        (eexists; split; [left; reflexivity | eassumption])
    | |- Forall _ _ =>
        apply Forall_forall; push_poll H1 H2 H3 Hoc; intros;
        (eexists; split; [reflexivity | apply H4; assumption])
    | |- forall h, burn_confirmed _ = Some h -> _ =>
        push_poll H1 H2 H3 Hoc; intros;
        first [ discriminate
              | match goal with H : Some _ = Some _ |- _ => injection H as <- end;
                split; [reflexivity | rewrite Hn; reflexivity] ]
    | |- _ => push_poll H1 H2 H3 Hoc; first [reflexivity | lia]
    end.

Lemma bridge_usdc_wp (env : string -> option string) to amount from_chain to_chain
    testnet pk :
  wp (Bridge.bridge_usdc (plain env) to amount from_chain to_chain testnet pk)
     (bridge_post amount testnet
        (bridge_configured env from_chain to_chain testnet pk)).
Proof.
  unfold Bridge.bridge_usdc, bridge_configured.
  rewrite py_or_getenv_plain. cbn [lift bind].
  set (from_key := Bridge.get_chain_key from_chain testnet).
  set (to_key := Bridge.get_chain_key to_chain testnet).
  set (key := py_or pk (env "USDC_PRIVATE_KEY")).
  destruct (py_not key) eqn:Hpk; [cbn [wp]; leaf bridge_post |].
  rewrite os_getenv_plain. cbn [lift bind].
  rewrite os_getenv_plain. cbn [lift bind].
  set (from_rpc := env_value env _ (dict_get Bridge.DEFAULT_RPCS from_key)).
  set (to_rpc := env_value env _ (dict_get Bridge.DEFAULT_RPCS to_key)).
  repeat (progress step; try solve [leaf bridge_post]).
  apply wp_try_bind. eapply wp_mono; [| apply get_attestation_spec].
  intros res t_att (d & -> & Hrounds & Hcount & Hno & Hyes).
  apply polling_rounds_only in Hrounds as [H1 H2 H3 H4].
  unfold submissions in H1. unfold decimals_answers in H2. unfold poll_urls in H4.
  destruct (existsb observed_complete t_att) eqn:Hoc.
  - destruct (Hyes eq_refl) as [Herr Hsucc]. rewrite Herr. clear Hno Hyes.
    assert (Hn : True) by exact I.
    repeat (progress step; try solve [leaf_after_poll H1 H2 H3 H4 Hoc Hn]).
  - destruct (Hno eq_refl) as [-> Hn]. clear Hno Hyes.
    cbn [dict_mem dict_get timeout_dict String.eqb Ascii.eqb Bool.eqb
         py_subscript lift bind try_except wp].
    unfold polls in Hn.
    leaf_after_poll H1 H2 H3 H4 Hoc Hn.
Qed.

End Walks.

(** ** Amounts *)

Example send_2_01_submits :
  submitted_amounts
    (trace_of (run cooperative
                 (Send.send_usdc (plain no_env) sample_recipient float_2_01 "base" true
                    (Some sample_key)) tt))
  = [2009999].
Proof. vm_compute. reflexivity. Qed.

(** The claim of exact scaling fails on runs: 2.01 with 6 decimals is
    submitted as 2009999, which is not the integer nearest to the amount
    times [10^6]. *)
Lemma exact_scaling_fails : ~ submits_exact_amounts.
Proof.
  intros H.
  specialize (H unit cooperative tt (plain no_env) sample_recipient float_2_01
                "base" "base" "base" true (Some sample_key)
                (inject_Z 4526117625507348 * 2 ^ (-51))%Q _ eq_refl
                (or_introl eq_refl) 2009999 6%N).
  assert (Hq : ~ nearest_integer
                   (inject_Z 4526117625507348 * 2 ^ (-51) * inject_Z (10 ^ Z.of_N 6))
                   2009999).
  { intros E. apply Qle_bool_iff in E. vm_compute in E. discriminate E. }
  apply Hq, H; vm_compute; auto.
Qed.

(** C1: a code bug.  For the amount 2.01 and a token of 6 decimals
    [send_usdc] and [bridge_usdc] submit 2009999 raw units: [int] cuts the
    product 2009999.9999999998 of the two floats.  The integer nearest to
    the amount times [10^6] is 2010000, which is what scaling the amount
    exactly gives; 2009999 is not nearest to it. *)
Theorem amount_2_01_is_truncated :
  let q := (inject_Z 4526117625507348 * 2 ^ (-51))%Q in
  PyFloat.to_Q float_2_01 = Some q
  /\ submitted_amounts
       (trace_of (run cooperative
                    (Send.send_usdc (plain no_env) sample_recipient float_2_01 "base"
                       true (Some sample_key)) tt))
     = [2009999]
  /\ submitted_amounts
       (trace_of (run cooperative
                    (Bridge.bridge_usdc (plain no_env) sample_recipient float_2_01
                       "ethereum" "base" true (Some sample_key)) tt))
     = [2009999; 2009999]
  /\ decimals_answers
       (trace_of (run cooperative
                    (Send.send_usdc (plain no_env) sample_recipient float_2_01 "base"
                       true (Some sample_key)) tt))
     = [6%N]
  /\ nearest_integer (q * inject_Z (10 ^ Z.of_N 6)) 2010000
  /\ (1 # 2 < Qabs (inject_Z 2009999 - q * inject_Z (10 ^ Z.of_N 6)))%Q.
Proof.
  cbv zeta. repeat split; try (vm_compute; reflexivity).
  apply Qle_bool_iff. vm_compute. reflexivity.
Qed.

Lemma amounts_scaled_exact (amount : PyFloat.float) (t : list event)
    (q : Q) (dec : N) (raw : Z) :
  amounts_scaled amount t ->
  PyFloat.to_Q amount = Some q ->
  (dec <= 255)%N ->
  (q * inject_Z (10 ^ Z.of_N dec) == inject_Z raw)%Q ->
  Z.abs raw < 2 ^ 53 ->
  Forall (eq dec) (decimals_answers t) ->
  Forall (eq raw) (submitted_amounts t).
Proof.
  intros Hs Hq Hdec Hprod Hraw Hans. apply Forall_forall. intros v Hv.
  destruct (Hs v Hv) as (dec' & Hin & Hv').
  rewrite Forall_forall in Hans. rewrite <- (Hans dec' Hin) in Hv'.
  rewrite (amount_to_raw_exact_on_integers amount dec q raw) in Hv' by assumption.
  now injection Hv'.
Qed.

(** Where the conversion is exact: in every run of [send_usdc] and of
    [bridge_usdc] in which the token answers [decimals() = dec] (a [uint8]), if [amount * 10^dec] is
    an integer of magnitude below [2^53] then every raw amount submitted in a
    transfer, approve or depositForBurn transaction is exactly that integer. *)
Theorem submitted_amounts_exact_on_integers
    (S : Type) (o : oracle S) (s : S) (env : environ)
    (to : string) (amount : PyFloat.float) (chain from_chain to_chain : string)
    (testnet : bool) (private_key : option string)
    (q : Q) (dec : N) (raw : Z) :
  PyFloat.to_Q amount = Some q ->
  (dec <= 255)%N ->
  (q * inject_Z (10 ^ Z.of_N dec) == inject_Z raw)%Q ->
  Z.abs raw < 2 ^ 53 ->
  let t_send :=
    trace_of (run o (Send.send_usdc env to amount chain testnet private_key) s) in
  let t_bridge :=
    trace_of (run o (Bridge.bridge_usdc env to amount from_chain to_chain testnet
                       private_key) s) in
  (Forall (eq dec) (decimals_answers t_send) ->
   Forall (eq raw) (submitted_amounts t_send))
  /\ (Forall (eq dec) (decimals_answers t_bridge) ->
      Forall (eq raw) (submitted_amounts t_bridge)).
Proof.
  intros Hq Hdec Hprod Hraw t_send t_bridge. subst t_send t_bridge. split.
  - destruct (send_usdc_environ env to amount chain testnet private_key)
      as [(e & ->) | ->]; [intros _; constructor |].
    intros Hans.
    pose proof (wp_sound o _ _ s
                  (send_usdc_wp (variables env) to amount chain testnet private_key))
      as (_ & Hs & _).
    eapply amounts_scaled_exact; eassumption.
  - destruct (bridge_usdc_environ env to amount from_chain to_chain testnet private_key)
      as [(e & ->) | ->]; [intros _; constructor |].
    intros Hans.
    pose proof (wp_sound o _ _ s
                  (bridge_usdc_wp (variables env) to amount from_chain to_chain testnet
                     private_key))
      as (_ & _ & _ & _ & Hs).
    eapply amounts_scaled_exact; eassumption.
Qed.

Lemma submitted_amounts_exact_on_integers_witness :
  submitted_amounts
    (trace_of (run cooperative
                 (Send.send_usdc (plain no_env) sample_recipient float_2_5 "base" true
                    (Some sample_key)) tt)) = [2500000]
  /\ Forall (eq 2500000)
       (submitted_amounts
          (trace_of (run cooperative
                       (Send.send_usdc (plain no_env) sample_recipient float_2_5 "base" true
                          (Some sample_key)) tt)))
  /\ Forall (eq 2500000)
       (submitted_amounts
          (trace_of (run cooperative
                       (Bridge.bridge_usdc (plain no_env) sample_recipient float_2_5
                          "ethereum" "base" true (Some sample_key)) tt))).
Proof.
  split; [vm_compute; reflexivity |].
  pose proof (submitted_amounts_exact_on_integers unit cooperative tt (plain no_env)
                sample_recipient float_2_5 "base" "ethereum" "base" true
                (Some sample_key)
                (inject_Z 5629499534213120 * 2 ^ (-51))%Q 6%N 2500000) as H.
  destruct H as [H1 H2].
  - reflexivity.
  - vm_compute. discriminate.
  - vm_compute. reflexivity.
  - vm_compute. reflexivity.
  - split; [apply H1 | apply H2]; vm_compute; repeat constructor.
Defined.

(** ** Partial success *)

(** C2: when the burn was submitted and its receipt received, and no poll of
    the attestation endpoint saw status "complete", [bridge_usdc] has used all
    30 polls and returns the partial-success dict: [partial_success] is
    [True], [burn_tx] is the hex of the burn hash, and there is no [success]
    key. *)
Theorem bridge_usdc_partial_success
    (S : Type) (o : oracle S) (s : S) (env : environ)
    (to : string) (amount : PyFloat.float) (from_chain to_chain : string)
    (testnet : bool) (private_key : option string) (h : bytes) :
  let r := run o (Bridge.bridge_usdc env to amount from_chain to_chain testnet
                    private_key) s in
  burn_confirmed (trace_of r) = Some h ->
  existsb observed_complete (trace_of r) = false ->
  exists d : dict,
    result_of r = inr d
    /\ d = partial_success_dict h
    /\ dict_get d "partial_success" = Some (VBool true)
    /\ dict_get d "burn_tx" = Some (VStr (PyStr.hex h))
    /\ dict_get d "error" = Some (VStr "Attestation timeout")
    /\ dict_get d "success" = None
    /\ polls (trace_of r) = 30%nat.
Proof.
  intros r. subst r.
  destruct (bridge_usdc_environ env to amount from_chain to_chain testnet private_key)
    as [(e & ->) | ->]; [discriminate |].
  intros Hburn Hnone.
  pose proof (wp_sound o _ _ s
                (bridge_usdc_wp (variables env) to amount from_chain to_chain testnet
                   private_key))
    as (_ & _ & _ & Hpartial & _).
  destruct (Hpartial h Hburn Hnone) as [Hres Hpolls].
  exists (partial_success_dict h).
  repeat split; try assumption; try reflexivity.
  change Bridge.default_max_attempts with (Z.of_nat 30) in Hpolls. lia.
Qed.

Lemma bridge_usdc_partial_success_witness :
  exists d : dict,
    result_of (run never_attested
                 (Bridge.bridge_usdc (plain no_env) sample_recipient float_2_5
                    "ethereum" "base" true (Some sample_key)) tt) = inr d
    /\ d = partial_success_dict (repeat Byte.x02 32)
    /\ dict_get d "partial_success" = Some (VBool true)
    /\ dict_get d "burn_tx" = Some (VStr (PyStr.hex (repeat Byte.x02 32)))
    /\ dict_get d "error" = Some (VStr "Attestation timeout")
    /\ dict_get d "success" = None
    /\ polls (trace_of (run never_attested
                          (Bridge.bridge_usdc (plain no_env) sample_recipient float_2_5
                             "ethereum" "base" true (Some sample_key)) tt)) = 30%nat.
Proof.
  apply (bridge_usdc_partial_success unit never_attested tt (plain no_env) sample_recipient
           float_2_5 "ethereum" "base" true (Some sample_key) (repeat Byte.x02 32));
    vm_compute; reflexivity.
Defined.

(** ** Failures *)

(** In a process that encodes every name, each of [get_balance], [send_usdc]
    and [bridge_usdc] returns a dict and raises nothing; the dict carries an
    ["error"] key with a message string unless it is the success dict of a
    run in which the configuration was present and the chain supported, no
    request raised, the node was reachable and (for the bridge) the
    attestation was observed. *)
Theorem failures_are_reported
    (S : Type) (o : oracle S) (s : S) (env : string -> option string) :
  (forall address chain testnet,
      let r := run o (Balance.get_balance (plain env) address chain testnet) s in
      reports has_balance clean_run (balance_configured env chain testnet)
        (result_of r) (trace_of r))
  /\ (forall to amount chain testnet private_key,
         let r := run o (Send.send_usdc (plain env) to amount chain testnet private_key) s in
         reports has_success clean_run (send_configured env chain testnet private_key)
           (result_of r) (trace_of r))
  /\ (forall to amount from_chain to_chain testnet private_key,
         let r := run o (Bridge.bridge_usdc (plain env) to amount from_chain to_chain testnet
                           private_key) s in
         reports has_success clean_bridge_run
           (bridge_configured env from_chain to_chain testnet private_key)
           (result_of r) (trace_of r)).
Proof.
  repeat split; intros.
  - apply (wp_sound o _ _ s (get_balance_wp env address chain testnet)).
  - apply (wp_sound o _ _ s (send_usdc_wp env to amount chain testnet private_key)).
  - apply (wp_sound o _ _ s
             (bridge_usdc_wp env to amount from_chain to_chain testnet private_key)).
Qed.

(** C5: a code bug.  The three functions read the RPC variable with
    [os.getenv] before their [try]: for a chain name the process cannot
    encode, here the section sign under an ASCII encoding, the
    [UnicodeEncodeError] of [os.getenv] leaves each of them, before any
    request is made, where a process that can encode the name gets the error
    dict of an unsupported chain. *)
Theorem unencodable_chain_name_escapes :
  let e := Exn "UnicodeEncodeError"
               "'ascii' codec can't encode character '\xa7' in position 9: ordinal not in range(128)" in
  run cooperative (Balance.get_balance ascii_env sample_recipient section_sign false) tt
  = (inl e, [], tt)
  /\ run cooperative
       (Send.send_usdc ascii_env sample_recipient float_2_5 section_sign true
          (Some sample_key)) tt
     = (inl e, [], tt)
  /\ run cooperative
       (Bridge.bridge_usdc ascii_env sample_recipient float_2_5 section_sign "base" true
          (Some sample_key)) tt
     = (inl e, [], tt)
  /\ run cooperative
       (Balance.get_balance (plain no_env) sample_recipient section_sign false) tt
     = (inr [("error", VStr ("No RPC URL for chain: " ++ section_sign))], [], tt).
Proof. repeat split. Qed.

(** Whenever [os.getenv] raises for the RPC variable, [get_balance] raises
    what it raised and has made no request. *)
Lemma get_balance_getenv_error
    (S : Type) (o : oracle S) (s : S) (env : environ)
    (address chain : string) (testnet : bool) (e : exn) :
  os_getenv env ("USDC_RPC_" ++ PyStr.upper chain)
    (dict_get Balance.DEFAULT_RPCS (Balance.get_chain_key chain testnet)) = inl e ->
  run o (Balance.get_balance env address chain testnet) s = (inl e, [], s).
Proof. intros H. unfold Balance.get_balance. cbv zeta. now rewrite H. Qed.

Example missing_key_is_reported :
  result_of (run cooperative
               (Send.send_usdc (plain no_env) sample_recipient float_2_5 "base" true None) tt)
  = inr [("error", VStr "No private key provided. Set USDC_PRIVATE_KEY env var.")].
Proof. reflexivity. Qed.

Example unsupported_chain_is_reported :
  result_of (run cooperative
               (Balance.get_balance (plain no_env) sample_recipient "solana" false) tt)
  = inr [("error", VStr "No RPC URL for chain: solana")].
Proof. reflexivity. Qed.

Example unreachable_node_is_reported :
  result_of (run unreachable
               (Bridge.bridge_usdc (plain no_env) sample_recipient float_2_5
                  "ethereum" "base" true (Some sample_key)) tt)
  = inr [("error", VStr "connection refused")].
Proof. reflexivity. Qed.

Example nan_amount_is_reported :
  result_of (run cooperative
               (Send.send_usdc (plain no_env) sample_recipient S754_nan "base" true
                  (Some sample_key)) tt)
  = inr [("error", VStr "cannot convert float NaN to integer")].
Proof. vm_compute. reflexivity. Qed.

(** ** Submissions *)

(** C7: in every run of [bridge_usdc] the approve, the depositForBurn and the
    receiveMessage transaction are each submitted at most once, and nothing
    else is submitted. *)
Theorem bridge_usdc_submits_once
    (S : Type) (o : oracle S) (s : S) (env : environ)
    (to : string) (amount : PyFloat.float) (from_chain to_chain : string)
    (testnet : bool) (private_key : option string) :
  let t := trace_of (run o (Bridge.bridge_usdc env to amount from_chain to_chain
                              testnet private_key) s) in
  (submitted is_approve t <= 1)%nat
  /\ (submitted is_depositForBurn t <= 1)%nat
  /\ (submitted is_receiveMessage t <= 1)%nat
  /\ submitted is_transfer t = 0%nat.
Proof.
  intros t. subst t.
  destruct (bridge_usdc_environ env to amount from_chain to_chain testnet private_key)
    as [(e & ->) | ->]; [cbn; repeat split; lia |].
  apply (wp_sound o _ _ s
           (bridge_usdc_wp (variables env) to amount from_chain to_chain testnet
              private_key)).
Qed.

(** ** The message hash *)

Lemma burn_confirmed_submitted (t : list event) (h : bytes) :
  burn_confirmed t = Some h -> (1 <= submitted is_depositForBurn t)%nat.
Proof.
  unfold submitted, submissions.
  induction t as [| e t IH]; [discriminate |].
  cbn [burn_confirmed filter_map].
  destruct (submission e) as [[c r] |]; [| exact IH].
  cbn [filter fst].
  destruct c; cbn [is_depositForBurn]; try exact IH.
  intros _. cbn [List.length]. lia.
Qed.

(** With one burn submitted at most, the confirmed burn is the burn. *)
Lemma burn_confirmed_is_burn_hash (t : list event) (h : bytes) :
  (submitted is_depositForBurn t <= 1)%nat ->
  burn_confirmed t = Some h -> burn_hash t = Some h.
Proof.
  induction t as [| e t IH]; [discriminate |].
  intros Hle. pose proof (burn_confirmed_submitted t h) as Hsub.
  unfold submitted, submissions in *.
  cbn [burn_confirmed burn_hash filter_map] in *.
  destruct (submission e) as [[c r] |]; [| now apply IH].
  cbn [filter fst] in Hle.
  destruct c; cbn [is_depositForBurn] in Hle; try (now apply IH).
  cbn [List.length] in Hle.
  destruct r as [err | h0].
  - intros H. apply Hsub in H. lia.
  - destruct t as [| e' t']; [discriminate |].
    destruct (receipt_received e'); [trivial |].
    intros H. apply Hsub in H. lia.
Qed.

Lemma observed_complete_polled (t : list event) :
  existsb observed_complete t = true -> (0 < polls t)%nat.
Proof.
  unfold polls. induction t as [| e t IH]; [discriminate |].
  cbn [existsb filter]. intros H. apply orb_prop in H as [H | H].
  - unfold observed_complete in H.
    destruct e as [X c r | n]; [| discriminate].
    destruct c; try discriminate. cbn. lia.
  - specialize (IH H). destruct (is_poll e); cbn [List.length]; lia.
Qed.

Lemma poll_urls_length (t : list event) : List.length (poll_urls t) = polls t.
Proof.
  unfold poll_urls, polls. rewrite length_map.
  induction t as [| e t IH]; [reflexivity |].
  cbn [filter_map filter].
  destruct e as [X c r | n]; [| exact IH].
  destruct c; cbn; try exact IH. now rewrite IH.
Qed.

(** C8: once the burn is confirmed, [bridge_usdc] polls the attestation
    service, and every URL it polls is the attestation endpoint followed by
    ["/0x"] and the hex of the hash the burn submission was answered with:
    the message hash is made from the burn hash alone, the receipt plays no
    part. *)
Theorem bridge_usdc_polls_burn_hash
    (S : Type) (o : oracle S) (s : S) (env : environ)
    (to : string) (amount : PyFloat.float) (from_chain to_chain : string)
    (testnet : bool) (private_key : option string) (burn_hash_bytes : bytes) :
  let t := trace_of (run o (Bridge.bridge_usdc env to amount from_chain
                              to_chain testnet private_key) s) in
  burn_confirmed t = Some burn_hash_bytes ->
  (0 < List.length (poll_urls t))%nat
  /\ Forall (eq (attestation_url testnet ("0x" ++ PyStr.hex burn_hash_bytes)))
            (poll_urls t).
Proof.
  intros t. subst t.
  destruct (bridge_usdc_environ env to amount from_chain to_chain testnet private_key)
    as [(e & ->) | ->]; [discriminate |].
  intros Hburn.
  pose proof (wp_sound o _ _ s
                (bridge_usdc_wp (variables env) to amount from_chain to_chain testnet
                   private_key))
    as (_ & (_ & Hone & _) & Hurls & Hpartial & _).
  set (t := trace_of _) in *.
  pose proof (burn_confirmed_is_burn_hash t _ Hone Hburn) as Hhash.
  split.
  - rewrite poll_urls_length.
    destruct (existsb observed_complete t) eqn:Hoc.
    + now apply observed_complete_polled.
    + destruct (Hpartial _ Hburn eq_refl) as [_ Hn].
      change Bridge.default_max_attempts with (Z.of_nat 30) in Hn. lia.
  - eapply Forall_impl; [| exact Hurls].
    intros url (h & Hh & ->). rewrite Hhash in Hh. now injection Hh as <-.
Qed.

Lemma bridge_usdc_polls_burn_hash_witness :
  (0 < List.length
         (poll_urls (trace_of (run cooperative
                                 (Bridge.bridge_usdc (plain no_env) sample_recipient
                                    float_2_5 "ethereum" "base" true (Some sample_key))
                                 tt))))%nat
  /\ Forall (eq (attestation_url true ("0x" ++ PyStr.hex (repeat Byte.x02 32))))
            (poll_urls (trace_of (run cooperative
                                    (Bridge.bridge_usdc (plain no_env) sample_recipient
                                       float_2_5 "ethereum" "base" true
                                       (Some sample_key)) tt))).
Proof.
  apply (bridge_usdc_polls_burn_hash unit cooperative tt (plain no_env) sample_recipient
           float_2_5 "ethereum" "base" true (Some sample_key) (repeat Byte.x02 32)).
  vm_compute. reflexivity.
Defined.

Example bridge_usdc_polled_url :
  poll_urls (trace_of (run cooperative
                         (Bridge.bridge_usdc (plain no_env) sample_recipient float_2_5
                            "ethereum" "base" true (Some sample_key)) tt))
  = ["https://iris-api-sandbox.circle.com/attestations/0x0202020202020202020202020202020202020202020202020202020202020202"].
Proof. vm_compute. reflexivity. Qed.

(** ** RPC overrides *)

(** C10: when [USDC_RPC_<CHAIN>] (the chain name as given, upper-cased) is
    set, [get_balance] and [send_usdc] connect to its value and to nothing
    else, for the mainnet and for the testnet variant alike. *)
Theorem rpc_override_follows_chain_name
    (S : Type) (o : oracle S) (s : S) (env : environ)
    (address to : string) (amount : PyFloat.float) (chain : string)
    (private_key : option string) (u : string) :
  variables env ("USDC_RPC_" ++ PyStr.upper chain) = Some u ->
  forall testnet : bool,
    providers (trace_of (run o (Balance.get_balance env address chain testnet) s))
    = (if balance_configured (variables env) chain testnet then [Some u] else [])
    /\ providers (trace_of (run o (Send.send_usdc env to amount chain testnet
                                     private_key) s))
       = (if send_configured (variables env) chain testnet private_key
          then [Some u] else []).
Proof.
  intros Henv testnet.
  rewrite (get_balance_override env address chain testnet u Henv).
  rewrite (send_usdc_override env to amount chain testnet private_key u Henv).
  split.
  - pose proof (wp_sound o _ _ s (get_balance_wp (variables env) address chain testnet))
      as (_ & Hp & _).
    cbn zeta in Hp. unfold env_value in Hp. rewrite Henv in Hp. exact Hp.
  - pose proof (wp_sound o _ _ s
                  (send_usdc_wp (variables env) to amount chain testnet private_key))
      as (_ & _ & Hp & _).
    cbn zeta in Hp. unfold env_value in Hp. rewrite Henv in Hp. exact Hp.
Qed.

Lemma rpc_override_follows_chain_name_witness :
  (providers (trace_of (run cooperative
                          (Balance.get_balance (plain base_override_env) sample_recipient
                             "base" false) tt))
   = [Some "https://rpc.example"]
   /\ providers (trace_of (run cooperative
                             (Send.send_usdc (plain base_override_env) sample_recipient
                                float_2_5 "base" false (Some sample_key)) tt))
      = [Some "https://rpc.example"])
  /\ (providers (trace_of (run cooperative
                             (Balance.get_balance (plain base_override_env) sample_recipient
                                "base" true) tt))
      = [Some "https://rpc.example"]
      /\ providers (trace_of (run cooperative
                                (Send.send_usdc (plain base_override_env) sample_recipient
                                   float_2_5 "base" true (Some sample_key)) tt))
         = [Some "https://rpc.example"]).
Proof.
  pose proof (rpc_override_follows_chain_name unit cooperative tt
                (plain base_override_env)
                sample_recipient sample_recipient float_2_5 "base" (Some sample_key)
                "https://rpc.example" eq_refl) as H.
  split; [exact (H false) | exact (H true)].
Defined.

(** A variable named after the resolved chain key is not consulted. *)
Example rpc_override_by_chain_key_ignored :
  providers (trace_of (run cooperative
                         (Balance.get_balance (plain base_sepolia_override_env)
                            sample_recipient "base" true) tt))
  = [Some "https://base-sepolia-rpc.publicnode.com"].
Proof. vm_compute. reflexivity. Qed.

(** With [testnet = True] the bridge leaves polygon on its production RPC. *)
Example bridge_polygon_testnet_connects_to_mainnet :
  providers (trace_of (run cooperative
                         (Bridge.bridge_usdc (plain no_env) sample_recipient float_2_5
                            "polygon" "base" true (Some sample_key)) tt))
  = [Some "https://polygon.llamarpc.com";
     Some "https://base-sepolia-rpc.publicnode.com"].
Proof. vm_compute. reflexivity. Qed.

(** * Further properties *)

(** * Further properties *)

(** ** Hexadecimal strings, in general *)

(** An odd number of digits is refused at the end of the text, where the
    last digit lacks its pair. *)
Lemma fromhex_from_odd_digits (n : nat) :
  forall (i : nat) (h : string),
    String.length h = S (2 * n) ->
    PyStr.all_chars PyStr.is_hex_digit h = true ->
    PyStr.fromhex_from i h = inl (PyStr.fromhex_error (i + String.length h)).
Proof.
  induction n as [| n IH]; intros i h Hlen Hhex.
  - destruct h as [| c [| c' h']]; try discriminate.
    cbn [PyStr.all_chars] in Hhex. apply andb_prop in Hhex as [Hc _].
    unfold PyStr.is_hex_digit in Hc.
    destruct (PyStr.hex_val c) as [v |] eqn:Ev; [| discriminate].
    destruct (hex_val_facts _ _ Ev) as (_ & _ & Sp & _).
    cbn [PyStr.fromhex_from String.length]. rewrite Sp, Ev.
    now replace (i + 1)%nat with (S i) by lia.
  - destruct h as [| c1 [| c2 h']]; try (cbn in Hlen; lia).
    cbn [PyStr.all_chars] in Hhex.
    apply andb_prop in Hhex as [H1 Hhex]. apply andb_prop in Hhex as [H2 Hhex].
    unfold PyStr.is_hex_digit in H1, H2.
    destruct (PyStr.hex_val c1) as [t |] eqn:E1; [| discriminate].
    destruct (PyStr.hex_val c2) as [b |] eqn:E2; [| discriminate].
    destruct (hex_val_facts _ _ E1) as (_ & _ & St & _).
    cbn [PyStr.fromhex_from String.length]. rewrite St, E1, E2.
    rewrite IH; [| cbn in Hlen; lia | assumption].
    do 2 f_equal. lia.
Qed.

Lemma fromhex_odd_digits (n : nat) (h : string) :
  String.length h = S (2 * n) ->
  PyStr.all_chars PyStr.is_hex_digit h = true ->
  PyStr.fromhex h = inl (PyStr.fromhex_error (String.length h)).
Proof.
  intros Hlen Hhex. rewrite (fromhex_of_hex_digits h Hhex).
  now rewrite (fromhex_from_odd_digits n 0 h Hlen Hhex).
Qed.

Lemma zeros_length (n : nat) : String.length (PyStr.zeros n) = n.
Proof. induction n; cbn; congruence. Qed.

Lemma lower_zeros_append (n : nat) (s : string) :
  PyStr.lower (PyStr.zeros n ++ s) = PyStr.zeros n ++ PyStr.lower s.
Proof. induction n; cbn; [reflexivity | now rewrite IHn]. Qed.

Lemma append_empty_r (s : string) : s ++ "" = s.
Proof. induction s; cbn; congruence. Qed.

(** [zfill] on a string of hexadecimal digits only prepends zeros. *)
Lemma zfill_hex_digits (w : nat) (s : string) :
  PyStr.all_chars PyStr.is_hex_digit s = true ->
  PyStr.zfill w s = PyStr.zeros (w - String.length s) ++ s.
Proof.
  intros H. unfold PyStr.zfill. destruct s as [| c s'].
  - now rewrite append_empty_r.
  - cbn [PyStr.all_chars] in H. apply andb_prop in H as [Hc _].
    unfold PyStr.is_hex_digit in Hc.
    destruct (PyStr.hex_val c) as [v |] eqn:Ev; [| discriminate].
    destruct (hex_val_facts _ _ Ev) as (_ & _ & _ & Hp & Hm).
    now rewrite Hp, Hm.
Qed.

(** X1: whatever its first two characters, an address whose remainder is at
    most 64 hexadecimal digits (none at all included) is accepted and gives
    exactly 32 bytes: the digits, left-padded with zero digits to 64. *)
Theorem address_to_bytes32_pads_any_short_address (address : string) :
  let tail := PyStr.drop 2 address in
  PyStr.all_chars PyStr.is_hex_digit tail = true ->
  (String.length tail <= 64)%nat ->
  exists word : bytes,
    Bridge.address_to_bytes32 address = inr word
    /\ List.length word = 32%nat
    /\ PyStr.hex word = PyStr.zeros (64 - String.length tail) ++ PyStr.lower tail.
Proof.
  intros tail Hhex Hlen. unfold Bridge.address_to_bytes32. fold tail.
  rewrite (zfill_hex_digits 64 tail Hhex).
  destruct (fromhex_hex_digits 32 (PyStr.zeros (64 - String.length tail) ++ tail))
    as (word & Hw & Lw & Xw).
  - rewrite zeros_append_length. lia.
  - now apply zeros_all_hex.
  - exists word. repeat split; try assumption.
    now rewrite Xw, lower_zeros_append.
Qed.

Lemma address_to_bytes32_pads_any_short_address_witness :
  exists word : bytes,
    Bridge.address_to_bytes32 "" = inr word
    /\ List.length word = 32%nat
    /\ PyStr.hex word = PyStr.zeros (64 - 0) ++ PyStr.lower "".
Proof.
  apply (address_to_bytes32_pads_any_short_address ""); [reflexivity | cbn; lia].
Defined.

(** X2: an address whose remainder is an even number of more than 64
    hexadecimal digits is not cut to 32 bytes: all its bytes come back. *)
Theorem address_to_bytes32_keeps_long_address (address : string) (n : nat) :
  let tail := PyStr.drop 2 address in
  PyStr.all_chars PyStr.is_hex_digit tail = true ->
  String.length tail = (2 * n)%nat ->
  (32 < n)%nat ->
  exists word : bytes,
    Bridge.address_to_bytes32 address = inr word
    /\ List.length word = n
    /\ PyStr.hex word = PyStr.lower tail.
Proof.
  intros tail Hhex Hlen Hn. unfold Bridge.address_to_bytes32. fold tail.
  rewrite (zfill_hex_digits 64 tail Hhex).
  replace (64 - String.length tail)%nat with 0%nat by lia.
  cbn [PyStr.zeros append].
  exact (fromhex_hex_digits n tail Hlen Hhex).
Qed.

Lemma address_to_bytes32_keeps_long_address_witness :
  exists word : bytes,
    Bridge.address_to_bytes32
      "0x0000000000000000000000000000000000000000000000000000000000000001ff"
    = inr word
    /\ List.length word = 33%nat
    /\ PyStr.hex word
       = PyStr.lower "0000000000000000000000000000000000000000000000000000000000000001ff".
Proof.
  apply (address_to_bytes32_keeps_long_address
           "0x0000000000000000000000000000000000000000000000000000000000000001ff" 33);
    [reflexivity | reflexivity | lia].
Defined.

Lemma all_chars_app (p : ascii -> bool) (a b : string) :
  PyStr.all_chars p (a ++ b) = PyStr.all_chars p a && PyStr.all_chars p b.
Proof. induction a as [| c a IH]; cbn; [reflexivity | now rewrite IH, andb_assoc]. Qed.

Lemma first_non_ascii_bounds (s : string) :
  forall i n : nat,
    PyStr.first_non_ascii i s = Some n -> (i <= n < i + String.length s)%nat.
Proof.
  induction s as [| c s IH]; intros i n H; [discriminate |].
  cbn [PyStr.first_non_ascii String.length] in *.
  destruct (PyStr.is_ascii c).
  - apply IH in H. lia.
  - injection H as <-. lia.
Qed.

(** Whatever [bytes.fromhex] refuses, it refuses with a [ValueError] that
    names a position in the text, its end included. *)
Lemma fromhex_from_refusal (s : string) :
  forall (i : nat) (e : exn),
    PyStr.fromhex_from i s = inl e ->
    exists n : nat, (i <= n <= i + String.length s)%nat /\ e = PyStr.fromhex_error n.
Proof.
  assert (G : forall (k : nat) (s : string),
             (String.length s <= k)%nat ->
             forall (i : nat) (e : exn),
               PyStr.fromhex_from i s = inl e ->
               exists n : nat,
                 (i <= n <= i + String.length s)%nat /\ e = PyStr.fromhex_error n).
  { clear s. induction k as [| k IH]; intros s Hle i e H.
    - destruct s; [discriminate | cbn in Hle; lia].
    - destruct s as [| c rest]; [discriminate |].
      cbn [PyStr.fromhex_from] in H. cbn [String.length] in *.
      destruct (PyStr.is_space c).
      + destruct (IH rest ltac:(lia) _ _ H) as (pos & Hpos & ->).
        exists pos. split; [lia | reflexivity].
      + destruct (PyStr.hex_val c).
        2: { injection H as <-. exists i. split; [lia | reflexivity]. }
        destruct rest as [| c' rest'].
        { injection H as <-. exists (S i). split; [cbn; lia | reflexivity]. }
        cbn [String.length] in *.
        destruct (PyStr.hex_val c').
        2: { injection H as <-. exists (S i). split; [lia | reflexivity]. }
        destruct (PyStr.fromhex_from (S (S i)) rest') as [e' |] eqn:E; [| discriminate].
        injection H as <-.
        destruct (IH rest' ltac:(lia) _ _ E) as (pos & Hpos & ->).
        exists pos. split; [lia | reflexivity]. }
  apply (G (String.length s)). lia.
Qed.

Lemma fromhex_refusal (s : string) (e : exn) :
  PyStr.fromhex s = inl e ->
  exists n : nat, (n <= String.length s)%nat /\ e = PyStr.fromhex_error n.
Proof.
  unfold PyStr.fromhex.
  destruct (PyStr.first_non_ascii 0 s) as [i |] eqn:Ea.
  - intros [= <-]. apply first_non_ascii_bounds in Ea.
    exists i. split; [lia | reflexivity].
  - intros H. destruct (fromhex_from_refusal s 0 e H) as (n & Hn & ->).
    exists n. split; [lia | reflexivity].
Qed.

(** What [bytes.fromhex] accepts is made of hexadecimal digits and
    whitespace only. *)
Lemma fromhex_from_accepts_hex_or_space (s : string) :
  forall (i : nat) (bs : bytes),
    PyStr.fromhex_from i s = inr bs -> PyStr.all_chars hex_or_space s = true.
Proof.
  remember (String.length s) as k eqn:Hk.
  assert (Hle : (String.length s <= k)%nat) by lia. clear Hk.
  revert s Hle. induction k as [| k IH]; intros s Hle i bs H.
  - destruct s; [reflexivity | cbn in Hle; lia].
  - destruct s as [| c rest]; [reflexivity |]. cbn [PyStr.fromhex_from] in H.
    cbn [PyStr.all_chars]. unfold hex_or_space at 1, PyStr.is_hex_digit.
    destruct (PyStr.is_space c) eqn:Sp.
    + rewrite orb_true_r. apply (IH rest) with (i := S i) (bs := bs);
        [cbn in Hle; lia | assumption].
    + destruct (PyStr.hex_val c); [| discriminate].
      destruct rest as [| c' rest']; [discriminate |].
      destruct (PyStr.hex_val c') eqn:E'; [| discriminate].
      destruct (PyStr.fromhex_from (S (S i)) rest') as [| bs'] eqn:E; [discriminate |].
      cbn [PyStr.all_chars orb andb]. unfold hex_or_space at 1, PyStr.is_hex_digit.
      rewrite E'. cbn [orb andb].
      apply (IH rest') with (i := S (S i)) (bs := bs'); [cbn in Hle; lia | assumption].
Qed.

Lemma fromhex_accepts_hex_or_space (s : string) (bs : bytes) :
  PyStr.fromhex s = inr bs -> PyStr.all_chars hex_or_space s = true.
Proof.
  unfold PyStr.fromhex. destruct (PyStr.first_non_ascii 0 s); [discriminate |].
  apply fromhex_from_accepts_hex_or_space.
Qed.

Lemma zfill_keeps_bad_character (w : nat) (s : string) :
  PyStr.all_chars hex_or_space s = false ->
  PyStr.all_chars hex_or_space (PyStr.zfill w s) = false.
Proof.
  intros H. unfold PyStr.zfill. destruct s as [| c s']; [discriminate |].
  cbn [PyStr.all_chars] in H.
  destruct (Ascii.eqb c "+" || Ascii.eqb c "-")%bool.
  - cbn [PyStr.all_chars]. rewrite all_chars_app.
    destruct (hex_or_space c); [| reflexivity].
    cbn [andb] in *. rewrite H. apply andb_false_r.
  - rewrite all_chars_app. cbn [PyStr.all_chars]. rewrite H. apply andb_false_r.
Qed.

(** X3: an address whose remainder (after the first two characters) holds a
    character that is neither a hexadecimal digit nor whitespace, a sign for
    instance, is refused with the [ValueError] of [bytes.fromhex], which
    names a position in the zero-filled text. *)
Theorem address_to_bytes32_rejects_bad_character (address : string) :
  PyStr.all_chars hex_or_space (PyStr.drop 2 address) = false ->
  exists position : nat,
    Bridge.address_to_bytes32 address = inl (PyStr.fromhex_error position)
    /\ (position <= String.length (PyStr.zfill 64 (PyStr.drop 2 address)))%nat
    /\ exn_class (PyStr.fromhex_error position) = "ValueError".
Proof.
  intros H. unfold Bridge.address_to_bytes32.
  apply (zfill_keeps_bad_character 64) in H.
  destruct (PyStr.fromhex (PyStr.zfill 64 (PyStr.drop 2 address))) as [e | bs] eqn:E.
  - destruct (fromhex_refusal _ _ E) as (n & Hn & ->).
    exists n. repeat split. exact Hn.
  - apply fromhex_accepts_hex_or_space in E. congruence.
Qed.

Lemma address_to_bytes32_rejects_bad_character_witness :
  exists position : nat,
    Bridge.address_to_bytes32 "0x-0F8bf6A479f320ead074411a4B0e7944Ea8c9C1"
    = inl (PyStr.fromhex_error position)
    /\ (position
        <= String.length
             (PyStr.zfill 64 (PyStr.drop 2 "0x-0F8bf6A479f320ead074411a4B0e7944Ea8c9C1")))%nat
    /\ exn_class (PyStr.fromhex_error position) = "ValueError".
Proof.
  apply (address_to_bytes32_rejects_bad_character
           "0x-0F8bf6A479f320ead074411a4B0e7944Ea8c9C1").
  reflexivity.
Defined.

(** The sign of that address goes first in the zero-filled text, and that is
    where it is refused; a letter that is no digit is refused where it
    stands after the zeros. *)
Example address_to_bytes32_refusal_positions :
  Bridge.address_to_bytes32 "0x-0F8bf6A479f320ead074411a4B0e7944Ea8c9C1"
  = inl (PyStr.fromhex_error 0)
  /\ Bridge.address_to_bytes32 "0x90F8bf6A479f320ead074411a4B0e7944Ea8c9Cg"
     = inl (PyStr.fromhex_error 63)
  /\ exn_msg (PyStr.fromhex_error 63)
     = "non-hexadecimal number found in fromhex() arg at position 63".
Proof. repeat split. Qed.

(** ** Chain keys and tables *)

Lemma testnet_key_not_remapped (m : list (string * string)) (c k : string) :
  m = Balance.testnet_map \/ m = Bridge.testnet_map ->
  dict_get m c = Some k -> dict_get m k = None.
Proof.
  intros [-> | ->]; cbn [dict_get Balance.testnet_map Bridge.testnet_map];
    repeat (destruct (String.eqb c _); [intros [= <-]; reflexivity |]);
    discriminate.
Qed.

(** X4: in the three scripts [get_chain_key] is idempotent, for every string
    and both flags: a resolved key resolves to itself. *)
Theorem get_chain_key_idempotent (chain : string) (testnet : bool) :
  Balance.get_chain_key (Balance.get_chain_key chain testnet) testnet
  = Balance.get_chain_key chain testnet
  /\ Send.get_chain_key (Send.get_chain_key chain testnet) testnet
     = Send.get_chain_key chain testnet
  /\ Bridge.get_chain_key (Bridge.get_chain_key chain testnet) testnet
     = Bridge.get_chain_key chain testnet.
Proof.
  unfold Balance.get_chain_key, Send.get_chain_key, Bridge.get_chain_key.
  change Send.testnet_map with Balance.testnet_map.
  destruct testnet; [| repeat split].
  repeat split.
  - destruct (dict_get Balance.testnet_map chain) as [k |] eqn:E; [| now rewrite E].
    now rewrite (testnet_key_not_remapped _ _ _ (or_introl eq_refl) E).
  - destruct (dict_get Balance.testnet_map chain) as [k |] eqn:E; [| now rewrite E].
    now rewrite (testnet_key_not_remapped _ _ _ (or_introl eq_refl) E).
  - destruct (dict_get Bridge.testnet_map chain) as [k |] eqn:E; [| now rewrite E].
    now rewrite (testnet_key_not_remapped _ _ _ (or_intror eq_refl) E).
Qed.

(** X5: for every chain name the command lines accept and both values of the
    flag, the key each script resolves is present in every table that script
    consults (and has an explorer in send.py). *)
Theorem resolved_keys_are_in_every_table (chain : string) (testnet : bool) :
  In chain supported_chains ->
  balance_tables_have (Balance.get_chain_key chain testnet) = true
  /\ send_tables_have (Send.get_chain_key chain testnet) = true
  /\ bridge_tables_have (Bridge.get_chain_key chain testnet) = true.
Proof.
  intros Hin. cbn in Hin.
  destruct Hin as [<- | [<- | [<- | [<- | []]]]]; destruct testnet;
    repeat split.
Qed.

Lemma resolved_keys_are_in_every_table_witness :
  balance_tables_have (Balance.get_chain_key "polygon" true) = true
  /\ send_tables_have (Send.get_chain_key "polygon" true) = true
  /\ bridge_tables_have (Bridge.get_chain_key "polygon" true) = true.
Proof.
  apply (resolved_keys_are_in_every_table "polygon" true). cbn. auto.
Defined.

(** X6: [get_explorer_url] answers a URL that ends in the transaction hash
    for the eight keys it knows, and the empty string for any other key. *)
Theorem get_explorer_url_known_or_empty (chain_key tx_hash : string) :
  if existsb (String.eqb chain_key) explorer_keys
  then exists site : string,
         site <> "" /\ Send.get_explorer_url chain_key tx_hash = site ++ tx_hash
  else Send.get_explorer_url chain_key tx_hash = "".
Proof.
  unfold Send.get_explorer_url, explorer_keys.
  cbn [existsb dict_get].
  repeat (destruct (String.eqb chain_key _);
          [cbn [orb]; eexists; split; [| reflexivity]; discriminate |]).
  reflexivity.
Qed.

(** ** More on the attestation poll *)

Lemma attestation_attempt_result (url : string) :
  wp (Bridge.attestation_attempt url)
     (fun res t =>
        exists r,
          t = EvCall (requests_get_json url) r
              :: match pause_after r with Some n => [EvSleep n] | None => [] end
          /\ res = inr match pause_after r with
                       | Some _ => None
                       | None =>
                           Some (attestation_result
                                   match r with inr data => data | inl _ => VNone end)
                       end).
Proof.
  unfold Bridge.attestation_attempt.
  cbn [wp bind try_except perform lift time_sleep].
  intros [e | data]; cbn [lift bind try_except wp time_sleep].
  - exists (inl e). split; reflexivity.
  - destruct (py_get data "status") as [e | status] eqn:Est;
      cbn [lift bind try_except wp time_sleep].
    + exists (inr data). cbn [pause_after]. rewrite Est. split; reflexivity.
    + destruct (py_eq_str status "complete") eqn:Ec.
      * destruct data; try discriminate Est.
        cbn [py_get lift bind try_except wp].
        exists (inr (VDict d)). cbn [pause_after]. rewrite Est, Ec.
        split; reflexivity.
      * cbn [lift bind try_except wp time_sleep].
        exists (inr data). cbn [pause_after]. rewrite Est, Ec. split; reflexivity.
Qed.

Lemma pause_after_bounds (r : exn + value) (n : Z) :
  pause_after r = Some n -> n = 5 \/ n = 10.
Proof.
  destruct r as [e | data]; cbn.
  - intros [= <-]. now left.
  - destruct (py_get data "status"); [intros [= <-]; now left |].
    destruct (py_eq_str v "complete"); [discriminate | intros [= <-]; now right].
Qed.

Lemma attestation_loop_result (url : string) (n : nat) :
  wp (Bridge.attestation_loop url n) (poll_post n).
Proof.
  induction n as [| n IH]; cbn [Bridge.attestation_loop].
  - cbn [wp]. repeat split. cbn. lia.
  - apply wp_bind. eapply wp_mono; [| apply attestation_attempt_result].
    intros res t (r & -> & ->).
    destruct (pause_after r) as [m |] eqn:Ep.
    + eapply wp_mono; [| apply IH].
      intros res' t' (-> & Hsum & Hcount).
      assert (Hoc : observed_complete (EvCall (requests_get_json url) r) = false)
        by (unfold observed_complete; cbn [poll_answer]; now rewrite Ep).
      unfold poll_post, total_sleep, sleeps, polls in *.
      cbn [app completed_with poll_answer filter_map sleep_of fold_right existsb
             filter is_poll List.length].
      change (observed_complete (EvSleep m)) with false.
      rewrite Hoc. cbn [orb].
      destruct (pause_after_bounds _ _ Ep) as [-> | ->];
        (repeat split; [destruct r; reflexivity | lia | lia]).
    + cbn [wp].
      assert (Hoc : observed_complete (EvCall (requests_get_json url) r) = true)
        by (unfold observed_complete; cbn [poll_answer]; now rewrite Ep).
      unfold poll_post, total_sleep, sleeps, polls.
      cbn [app completed_with poll_answer filter_map sleep_of fold_right existsb
             filter is_poll List.length].
      rewrite Hoc. cbn [orb].
      destruct r as [e | data]; [discriminate Ep |].
      repeat split. lia.
Qed.

Lemma get_attestation_result (message_hash : string) (testnet : bool) (max_attempts : Z) :
  wp (Bridge.get_attestation message_hash testnet max_attempts)
     (poll_post (Z.to_nat max_attempts)).
Proof.
  unfold Bridge.get_attestation.
  destruct testnet; cbn [py_subscript dict_get Bridge.ATTESTATION_API String.eqb
                           Ascii.eqb Bool.eqb lift bind];
    apply attestation_loop_result.
Qed.

(** X7: the result of [get_attestation] is read off the first response with
    status "complete": [success] with that response's [attestation] and
    [message] fields ([None] where the response lacks them); without such a
    response it is the timeout error. *)
Theorem get_attestation_returns_first_complete
    (S : Type) (o : oracle S) (s : S)
    (message_hash : string) (testnet : bool) (max_attempts : Z) :
  let r := run o (Bridge.get_attestation message_hash testnet max_attempts) s in
  result_of r
  = inr match completed_with (trace_of r) with
        | Some data => attestation_result data
        | None => timeout_dict
        end.
Proof.
  intros r. subst r.
  apply (wp_sound o _ _ s (get_attestation_result message_hash testnet max_attempts)).
Qed.

(** X8: [get_attestation] sleeps for at most [10 * max_attempts] seconds in
    all (300 with the default), and it sleeps after every poll that did not
    see "complete", the last one of an exhausted budget included. *)
Theorem get_attestation_sleep_budget
    (S : Type) (o : oracle S) (s : S)
    (message_hash : string) (testnet : bool) (max_attempts : Z) :
  let t := trace_of (run o (Bridge.get_attestation message_hash testnet max_attempts) s) in
  total_sleep t <= 10 * Z.max 0 max_attempts
  /\ (List.length (sleeps t) + (if existsb observed_complete t then 1 else 0)
      = polls t)%nat.
Proof.
  intros t. subst t.
  pose proof (wp_sound o _ _ s (get_attestation_result message_hash testnet max_attempts))
    as (_ & Hsum & Hcount).
  split; [lia | assumption].
Qed.

(** X9: with a budget of zero or less, [get_attestation] asks nothing, sleeps
    never and reports the timeout at once. *)
Theorem get_attestation_without_budget
    (S : Type) (o : oracle S) (s : S)
    (message_hash : string) (testnet : bool) (max_attempts : Z) :
  max_attempts <= 0 ->
  run o (Bridge.get_attestation message_hash testnet max_attempts) s
  = (inr timeout_dict, [], s).
Proof.
  intros H. unfold Bridge.get_attestation.
  replace (Z.to_nat max_attempts) with 0%nat by lia.
  destruct testnet; reflexivity.
Qed.

Lemma get_attestation_without_budget_witness :
  run flaky_endpoint (Bridge.get_attestation "0xab" false (-3)) 0%nat
  = (inr timeout_dict, [], 0%nat).
Proof.
  apply (get_attestation_without_budget nat flaky_endpoint 0%nat "0xab" false (-3)).
  lia.
Defined.

Example get_attestation_third_answer :
  result_of (run flaky_endpoint (Bridge.get_attestation "0xab" true 2) 0%nat)
  = inr timeout_dict
  /\ total_sleep (trace_of (run flaky_endpoint
                              (Bridge.get_attestation "0xab" true 2) 0%nat)) = 15.
Proof. split; vm_compute; reflexivity. Qed.

(** ** Walking [get_balance] and [send_usdc] once more *)

Section Walks2.

#[local] Arguments amount_to_raw : simpl never.
#[local] Arguments PyFloat.int_truediv : simpl never.
#[local] Arguments Send.get_explorer_url : simpl never.
#[local] Arguments PyStr.hex : simpl never.
#[local] Arguments String.append : simpl never.
#[local] Arguments Z.pow : simpl never.

Ltac leaf2 post :=
at_leaf; unfold post; cbn [negb andb];
repeat match goal with
  | |- _ /\ _ => split
  | |- send_outcome _ _ _ _ _ _ =>
      unfold send_outcome, accepted, account_answers;
      eexists; split; [reflexivity |]; cbn;
      first [ eexists; split; reflexivity | eexists; reflexivity ]
  | |- send_routes _ _ _ _ =>
      unfold send_routes, submitted_txs, account_answers, checksum_answers; cbn;
      repeat (first [apply Forall_nil | apply Forall_cons]);
      cbn; repeat split; try reflexivity; auto;
      try (eexists; eexists; split; [reflexivity | cbn; auto 10])
  | |- balance_outcome _ _ _ _ _ _ =>
      unfold balance_outcome, balance_answers, decimals_answers;
      eexists; split; [reflexivity |]; cbn;
      repeat match goal with H : PyFloat.int_truediv _ _ = _ |- _ => rewrite H end;
      first [ reflexivity | eexists; reflexivity ]
  | |- balance_asked_for _ _ =>
      unfold balance_asked_for, balance_answers, checksum_answers; cbn;
      repeat (first [apply Forall_nil | apply Forall_cons]);
      cbn; auto 10
  | |- (if _ then _ else _) => cbn; first [exact I | reflexivity]
  | |- _ => cbn; reflexivity
  end.

Lemma send_usdc_wp2 (env : string -> option string) to amount chain testnet pk :
let chain_key := Send.get_chain_key chain testnet in
let key := py_or pk (env "USDC_PRIVATE_KEY") in
let rpc_url := env_value env ("USDC_RPC_" ++ PyStr.upper chain)
                         (dict_get Send.DEFAULT_RPCS chain_key) in
wp (Send.send_usdc (plain env) to amount chain testnet pk)
   (send_post2 to amount chain_key testnet rpc_url
      (match key with Some k => k | None => "" end)
      (send_configured env chain testnet pk)).
Proof.
intros chain_key key rpc_url. unfold Send.send_usdc, send_configured.
rewrite py_or_getenv_plain. cbn [lift bind].
fold chain_key. fold key.
destruct (py_not key) eqn:Hpk; [cbn [wp]; leaf2 send_post2 |].
rewrite os_getenv_plain. cbn [lift bind]. fold chain_key. fold rpc_url.
destruct (py_not rpc_url) eqn:Hrpc; [cbn [wp]; leaf2 send_post2 |].
destruct (py_not (dict_get Send.USDC_ADDRESSES chain_key)) eqn:Husdc;
  [cbn [wp]; leaf2 send_post2 |].
repeat (progress step; try solve [leaf2 send_post2]).
Qed.

Lemma get_balance_wp2 (env : string -> option string) address chain testnet :
let chain_key := Balance.get_chain_key chain testnet in
wp (Balance.get_balance (plain env) address chain testnet)
   (balance_post2 address chain_key testnet
      (dict_get Balance.USDC_ADDRESSES chain_key)
      (balance_configured env chain testnet)).
Proof.
intros chain_key. unfold Balance.get_balance, balance_configured.
rewrite os_getenv_plain. cbn [lift bind].
fold chain_key.
set (rpc_url := env_value _ _ _).
destruct (py_not rpc_url) eqn:Hrpc; [cbn [wp]; leaf2 balance_post2 |].
destruct (py_not (dict_get Balance.USDC_ADDRESSES chain_key)) eqn:Husdc;
  [cbn [wp]; leaf2 balance_post2 |].
repeat (progress step; try solve [leaf2 balance_post2]).
Qed.

End Walks2.

(** ** Walking [bridge_usdc] once more *)

Lemma wp_and {R : Type} (p : prog R) :
  forall P Q : exn + R -> list event -> Prop,
    wp p P -> wp p Q -> wp p (fun res t => P res t /\ Q res t).
Proof.
  induction p as [r | e | X c k IH | n k IH]; intros P Q HP HQ; cbn [wp] in *.
  - auto.
  - auto.
  - intros r. apply (IH r _ _ (HP r) (HQ r)).
  - apply (IH _ _ HP HQ).
Qed.

Lemma polling_rounds_filter_map {B : Type} (f : event -> option B) (url : string) :
  (forall u r, f (EvCall (requests_get_json u) r) = None) ->
  (forall n, f (EvSleep n) = None) ->
  forall t, polling_rounds url t = true -> filter_map f t = [].
Proof.
  intros Hpoll Hsleep. apply polling_rounds_ind.
  - reflexivity.
  - intros r _. cbn. now rewrite Hpoll.
  - intros r n t _ _ IH. cbn. now rewrite Hpoll, Hsleep.
Qed.

Lemma polling_rounds_poll_trace (url : string) (t : list event) :
  polling_rounds url t = true -> poll_trace t.
Proof.
  intros H. split;
    try (apply (polling_rounds_filter_map _ url); [reflexivity | reflexivity | exact H]).
  apply (polling_rounds_only url t H).
Qed.

Lemma completed_with_app (a b : list event) :
  completed_with (a ++ b)%list
  = match completed_with a with
    | Some data => Some data
    | None => completed_with b
    end.
Proof.
  induction a as [| e a IH]; cbn [app completed_with]; [reflexivity |].
  destruct (poll_answer e) as [[u [x | data]] |]; try assumption.
  destruct (observed_complete e); [reflexivity | assumption].
Qed.

Lemma completed_with_observed (t : list event) :
  existsb observed_complete t
  = match completed_with t with Some _ => true | None => false end.
Proof.
  induction t as [| e t IH]; cbn [existsb completed_with]; [reflexivity |].
  destruct (poll_answer e) as [[u [x | data]] |] eqn:Ea.
  - assert (Hoc : observed_complete e = false)
      by (unfold observed_complete; now rewrite Ea).
    now rewrite Hoc.
  - destruct (observed_complete e); [reflexivity | exact IH].
  - assert (Hoc : observed_complete e = false)
      by (unfold observed_complete; now rewrite Ea).
    now rewrite Hoc.
Qed.

Section Walks3.

#[local] Arguments amount_to_raw : simpl never.
#[local] Arguments Bridge.address_to_bytes32 : simpl never.
#[local] Arguments PyStr.hex : simpl never.
#[local] Arguments String.append : simpl never.
#[local] Arguments Bridge.get_attestation : simpl never.
#[local] Arguments attestation_url : simpl never.
#[local] Arguments hex_field : simpl never.
#[local] Arguments value_get : simpl never.

Ltac unfold_readers :=
unfold accepted, submitted_txs, account_answers, checksum_answers,
  submitted_calls, submitted, submitted_amounts, submissions, providers, polls in *.

(** Carry the readers over the rounds of the poll, where there are any. *)
Ltac push_rounds PT Hoc Hcw :=
unfold_readers; cbn;
rewrite ?filter_map_app, ?existsb_app, ?filter_app, ?map_app, ?length_app,
  ?completed_with_app;
rewrite ?(pt_submission _ PT), ?(pt_submitted_tx _ PT), ?(pt_accepted _ PT),
  ?(pt_account _ PT), ?(pt_checksum _ PT), ?(pt_provider _ PT),
  ?(pt_raised _ PT), ?Hoc, ?Hcw;
cbn.

Ltac leaf3 PT Hoc Hcw :=
at_leaf; unfold bridge_post2; cbn [negb andb];
repeat match goal with
  | |- _ /\ _ => split
  | |- bridge_outcome _ _ _ _ _ _ =>
      unfold bridge_outcome; eexists; split; [reflexivity |];
      push_rounds PT Hoc Hcw;
      first [reflexivity | eexists; reflexivity]
  | |- bridge_routes _ _ _ _ _ _ =>
      unfold bridge_routes; push_rounds PT Hoc Hcw;
      repeat (first [apply Forall_nil | apply Forall_cons]);
      cbn; repeat split; try reflexivity; auto;
      try (eexists; split;
           [ reflexivity
           | unfold hex_field;
             repeat match goal with
               | H : py_slice_from _ _ = _ |- _ => rewrite H; clear H
               end;
             split; assumption ])
  | |- bridge_phases _ =>
      unfold bridge_phases; push_rounds PT Hoc Hcw;
      repeat split; try reflexivity;
      try match goal with
          | |- if ?b then _ else _ => destruct b; first [reflexivity | exact I]
          end
  | |- all_equal _ =>
      unfold all_equal; push_rounds PT Hoc Hcw;
      intros; split_ins; subst; reflexivity
  | |- exists k, _ = firstn k _ =>
      push_rounds PT Hoc Hcw;
      first [ exists 0%nat; reflexivity | exists 1%nat; reflexivity
            | exists 2%nat; reflexivity ]
  | |- (if _ then _ else _) => cbn; first [exact I | reflexivity]
  | |- _ => first [exact I | reflexivity]
  end.

Lemma bridge_usdc_wp2 (env : string -> option string) to amount from_chain to_chain
  testnet pk :
let from_key := Bridge.get_chain_key from_chain testnet in
let to_key := Bridge.get_chain_key to_chain testnet in
let key := py_or pk (env "USDC_PRIVATE_KEY") in
let from_rpc := env_value env ("USDC_RPC_" ++ PyStr.upper from_chain)
                          (dict_get Bridge.DEFAULT_RPCS from_key) in
let to_rpc := env_value env ("USDC_RPC_" ++ PyStr.upper to_chain)
                        (dict_get Bridge.DEFAULT_RPCS to_key) in
wp (Bridge.bridge_usdc (plain env) to amount from_chain to_chain testnet pk)
   (bridge_post2 amount from_key to_key to from_rpc to_rpc
      (match key with Some k => k | None => "" end) (negb (py_not key))).
Proof.
intros from_key to_key key from_rpc to_rpc. unfold Bridge.bridge_usdc.
rewrite py_or_getenv_plain. cbn [lift bind].
fold from_key. fold to_key. fold key.
assert (PT0 : poll_trace []) by (split; reflexivity).
assert (Hoc0 : existsb observed_complete [] = false) by reflexivity.
assert (Hcw0 : completed_with [] = None) by reflexivity.
destruct (py_not key) eqn:Hpk; [cbn [wp]; leaf3 PT0 Hoc0 Hcw0 |].
rewrite os_getenv_plain. cbn [lift bind].
rewrite os_getenv_plain. cbn [lift bind].
fold from_key. fold to_key. fold from_rpc. fold to_rpc.
destruct (dict_get Bridge.DOMAIN_IDS to_key) as [domain |] eqn:Hdom;
  cbv beta iota zeta; [| rewrite andb_false_r; cbn [negb]].
all: repeat (progress step; try solve [leaf3 PT0 Hoc0 Hcw0]).
apply wp_try_bind. eapply wp_mono;
  [| apply wp_and; [apply get_attestation_spec | apply get_attestation_result]].
intros res t_att [(d & -> & Hrounds & _) (Hres & _)].
injection Hres as ->.
apply polling_rounds_poll_trace in Hrounds as PT.
pose proof (completed_with_observed t_att) as Hoc.
destruct (completed_with t_att) as [data |] eqn:Hcw.
- cbn [dict_mem dict_get attestation_result String.eqb Ascii.eqb Bool.eqb
         py_subscript].
  repeat (progress step; try solve [leaf3 PT Hoc Hcw]).
- cbn [dict_mem dict_get timeout_dict String.eqb Ascii.eqb Bool.eqb
         py_subscript lift bind try_except wp].
  leaf3 PT Hoc Hcw.
Qed.

End Walks3.

(** ** Runs of [send_usdc] *)

(** X10: in a process that encodes every name, [send_usdc] returns the
    success dict exactly when the node answered the submission with a hash;
    the dict then carries the hex of that hash, the address
    [Account.from_key] answered, the recipient and the amount as given, the
    resolved chain key and the explorer link.  Every other run returns a dict
    with the single key [error]. *)
Theorem send_usdc_result_follows_submission
    (S : Type) (o : oracle S) (s : S) (env : string -> option string)
    (to : string) (amount : PyFloat.float) (chain : string) (testnet : bool)
    (private_key : option string) :
  let r := run o (Send.send_usdc (plain env) to amount chain testnet private_key) s in
  exists d : dict,
    result_of r = inr d
    /\ match accepted (trace_of r) with
       | [tx_hash] =>
           exists sender,
             account_answers (trace_of r) = [sender]
             /\ d = sent_dict tx_hash sender to amount
                      (Send.get_chain_key chain testnet) testnet
       | _ => exists msg, d = error_dict msg
       end.
Proof.
  intros r. subst r.
  apply (wp_sound o _ _ s (send_usdc_wp2 env to amount chain testnet private_key)).
Qed.

(** X11: [send_usdc] never waits for a receipt: its success means that the
    node took the transaction, not that the transfer was mined. *)
Theorem send_usdc_does_not_wait
    (S : Type) (o : oracle S) (s : S) (env : environ)
    (to : string) (amount : PyFloat.float) (chain : string) (testnet : bool)
    (private_key : option string) :
  existsb is_wait
    (trace_of (run o (Send.send_usdc env to amount chain testnet private_key) s))
  = false.
Proof.
  destruct (send_usdc_environ env to amount chain testnet private_key)
    as [(e & ->) | ->]; [reflexivity |].
  apply (wp_sound o _ _ s
           (send_usdc_wp2 (variables env) to amount chain testnet private_key)).
Qed.

(** X12: whatever [send_usdc] submits is a [transfer] on a contract of the
    node it connected to, submitted to that node, signed with the explicit
    key or else [USDC_PRIVATE_KEY], sent from the address [Account.from_key]
    answered, with a gas limit of 100000 and to the checksummed form of
    [to]. *)
Theorem send_usdc_routes_transfer
    (S : Type) (o : oracle S) (s : S) (env : environ)
    (to : string) (amount : PyFloat.float) (chain : string) (testnet : bool)
    (private_key : option string) :
  send_routes to
    (env_value (variables env) ("USDC_RPC_" ++ PyStr.upper chain)
       (dict_get Send.DEFAULT_RPCS (Send.get_chain_key chain testnet)))
    (match py_or private_key (variables env "USDC_PRIVATE_KEY") with
     | Some k => k
     | None => ""
     end)
    (trace_of (run o (Send.send_usdc env to amount chain testnet private_key) s)).
Proof.
  destruct (send_usdc_environ env to amount chain testnet private_key)
    as [(e & ->) | ->]; [constructor |].
  apply (wp_sound o _ _ s
           (send_usdc_wp2 (variables env) to amount chain testnet private_key)).
Qed.

(** X13: without a key, without an RPC URL or without a USDC address for the
    chain, [send_usdc] makes no request at all. *)
Theorem send_usdc_unconfigured_asks_nothing
    (S : Type) (o : oracle S) (s : S) (env : environ)
    (to : string) (amount : PyFloat.float) (chain : string) (testnet : bool)
    (private_key : option string) :
  send_configured (variables env) chain testnet private_key = false ->
  trace_of (run o (Send.send_usdc env to amount chain testnet private_key) s) = [].
Proof.
  intros H.
  destruct (send_usdc_environ env to amount chain testnet private_key)
    as [(e & ->) | ->]; [reflexivity |].
  pose proof (wp_sound o _ _ s
                (send_usdc_wp2 (variables env) to amount chain testnet private_key))
    as (_ & _ & _ & Hc).
  cbn zeta in Hc. rewrite H in Hc. exact Hc.
Qed.

Lemma send_usdc_unconfigured_asks_nothing_witness :
  trace_of (run unreachable
              (Send.send_usdc (plain no_env) sample_recipient float_2_5 "solana" false
                 (Some sample_key)) tt) = [].
Proof.
  apply (send_usdc_unconfigured_asks_nothing unit unreachable tt (plain no_env)
           sample_recipient float_2_5 "solana" false (Some sample_key)).
  reflexivity.
Defined.

(** ** Runs of [get_balance] *)

(** X14: [get_balance] only reads: every request it makes is one of
    connecting, [is_connected], [to_checksum_address], binding the contract,
    [balanceOf] and [decimals]; it derives no account, signs and submits
    nothing. *)
Theorem get_balance_is_read_only
    (S : Type) (o : oracle S) (s : S) (env : environ)
    (address chain : string) (testnet : bool) :
  forallb read_only
    (trace_of (run o (Balance.get_balance env address chain testnet) s)) = true.
Proof.
  destruct (get_balance_environ env address chain testnet) as [(e & ->) | ->];
    [reflexivity |].
  apply (wp_sound o _ _ s (get_balance_wp2 (variables env) address chain testnet)).
Qed.

(** X15: in a process that encodes every name, when [balanceOf] and
    [decimals] were both answered, the result of [get_balance] carries the
    two answers unchanged, [balance] as their true quotient
    [balance_raw / 10 ** decimals], and the address, resolved key, [testnet]
    flag and token address it was run with (the error of the division if it
    overflows); every other run returns a dict with the single key [error].
    [balanceOf] is asked for the checksummed form of [address]. *)
Theorem get_balance_result_follows_answers
    (S : Type) (o : oracle S) (s : S) (env : string -> option string)
    (address chain : string) (testnet : bool) :
  let r := run o (Balance.get_balance (plain env) address chain testnet) s in
  let chain_key := Balance.get_chain_key chain testnet in
  (exists d : dict,
     result_of r = inr d
     /\ match balance_answers (trace_of r), decimals_answers (trace_of r) with
        | [(_, _, balance_raw)], [decimals] =>
            match PyFloat.int_truediv balance_raw (10 ^ Z.of_N decimals) with
            | inr balance =>
                d = balance_dict address chain_key testnet balance balance_raw
                      decimals (dict_get Balance.USDC_ADDRESSES chain_key)
            | inl e => d = error_dict (py_str_exn e)
            end
        | _, _ => exists msg, d = error_dict msg
        end)
  /\ balance_asked_for address (trace_of r).
Proof.
  intros r chain_key. subst r chain_key.
  pose proof (wp_sound o _ _ s (get_balance_wp2 env address chain testnet))
    as (Ho & Ha & _).
  split; [exact Ho | exact Ha].
Qed.

(** X16: without an RPC URL or without a USDC address for the chain,
    [get_balance] makes no request at all. *)
Theorem get_balance_unconfigured_asks_nothing
    (S : Type) (o : oracle S) (s : S) (env : environ)
    (address chain : string) (testnet : bool) :
  balance_configured (variables env) chain testnet = false ->
  trace_of (run o (Balance.get_balance env address chain testnet) s) = [].
Proof.
  intros H.
  destruct (get_balance_environ env address chain testnet) as [(e & ->) | ->];
    [reflexivity |].
  pose proof (wp_sound o _ _ s (get_balance_wp2 (variables env) address chain testnet))
    as (_ & _ & _ & Hc).
  cbn zeta in Hc. rewrite H in Hc. exact Hc.
Qed.

Lemma get_balance_unconfigured_asks_nothing_witness :
  trace_of (run unreachable
              (Balance.get_balance (plain no_env) sample_recipient "solana" true) tt) = [].
Proof.
  apply (get_balance_unconfigured_asks_nothing unit unreachable tt (plain no_env)
           sample_recipient "solana" true).
  reflexivity.
Defined.

(** ** Runs of [bridge_usdc] *)

(** X17: in a process that encodes every name, the result of [bridge_usdc]
    is read off its trace.  With three accepted submissions and no failed
    request it is the success dict with the hex of the burn and of the
    receive hash; with two and no "complete" response it is the
    partial-success dict with the hex of the burn hash; every other run (a
    failed request, a response that cannot be decoded) returns a dict with
    the single key [error]. *)
Theorem bridge_usdc_result_follows_trace
    (S : Type) (o : oracle S) (s : S) (env : string -> option string)
    (to : string) (amount : PyFloat.float) (from_chain to_chain : string)
    (testnet : bool) (private_key : option string) :
  let r := run o (Bridge.bridge_usdc (plain env) to amount from_chain to_chain testnet
                    private_key) s in
  exists d : dict,
    result_of r = inr d
    /\ match accepted (trace_of r), existsb raised (trace_of r) with
       | [_; burn; receive], false =>
           d = bridged_dict amount (Bridge.get_chain_key from_chain testnet)
                 (Bridge.get_chain_key to_chain testnet) to burn receive
       | [_; burn], false =>
           if existsb observed_complete (trace_of r)
           then exists msg, d = error_dict msg
           else d = partial_success_dict burn
       | _, _ => exists msg, d = error_dict msg
       end.
Proof.
  intros r. subst r.
  apply (wp_sound o _ _ s
           (bridge_usdc_wp2 env to amount from_chain to_chain testnet private_key)).
Qed.

(** X18: every transaction [bridge_usdc] submits is signed with the same key
    and sent from the address [Account.from_key] answered, to the node its
    contract is bound to.  The approve (gas 100000) and the burn (gas 300000)
    go to the source node, the burn with the domain id of the destination key
    and [address_to_bytes32(to)] as recipient; the receive (gas 300000) goes
    to the destination node with the [message] and [attestation] of the first
    "complete" response, decoded from hex after their first two characters.
    No transfer is submitted. *)
Theorem bridge_usdc_routes_transactions
    (S : Type) (o : oracle S) (s : S) (env : environ)
    (to : string) (amount : PyFloat.float) (from_chain to_chain : string)
    (testnet : bool) (private_key : option string) :
  let from_key := Bridge.get_chain_key from_chain testnet in
  let to_key := Bridge.get_chain_key to_chain testnet in
  bridge_routes
    (env_value (variables env) ("USDC_RPC_" ++ PyStr.upper from_chain)
       (dict_get Bridge.DEFAULT_RPCS from_key))
    (env_value (variables env) ("USDC_RPC_" ++ PyStr.upper to_chain)
       (dict_get Bridge.DEFAULT_RPCS to_key))
    (match py_or private_key (variables env "USDC_PRIVATE_KEY") with
     | Some k => k
     | None => ""
     end)
    to_key to
    (trace_of (run o (Bridge.bridge_usdc env to amount from_chain to_chain testnet
                        private_key) s)).
Proof.
  intros from_key to_key. subst from_key to_key.
  destruct (bridge_usdc_environ env to amount from_chain to_chain testnet private_key)
    as [(e & ->) | ->]; [constructor |].
  apply (wp_sound o _ _ s
           (bridge_usdc_wp2 (variables env) to amount from_chain to_chain testnet
              private_key)).
Qed.

(** X19: [bridge_usdc] submits in the order approve, burn, receive and
    nothing else; the burn only after the receipt of an accepted approve
    came, the attestation is polled only after the receipt of an accepted burn
    came, and the receive is submitted only after a poll saw "complete". *)
Theorem bridge_usdc_steps_in_order
    (S : Type) (o : oracle S) (s : S) (env : environ)
    (to : string) (amount : PyFloat.float) (from_chain to_chain : string)
    (testnet : bool) (private_key : option string) :
  let t := trace_of (run o (Bridge.bridge_usdc env to amount from_chain to_chain
                              testnet private_key) s) in
  in_order [is_approve; is_depositForBurn; is_receiveMessage] (submitted_calls t) = true
  /\ (if (0 <? submitted is_depositForBurn t)%nat
      then confirmed is_approve t = true else True)
  /\ (if (0 <? polls t)%nat
      then confirmed is_depositForBurn t = true else True)
  /\ (if (0 <? submitted is_receiveMessage t)%nat
      then existsb observed_complete t = true else True).
Proof.
  intros t. subst t.
  destruct (bridge_usdc_environ env to amount from_chain to_chain testnet private_key)
    as [(e & ->) | ->]; [cbn; auto |].
  apply (wp_sound o _ _ s
           (bridge_usdc_wp2 (variables env) to amount from_chain to_chain testnet
              private_key)).
Qed.

Lemma all_equal_repeat (l : list Z) :
  all_equal l -> exists (v : Z) (k : nat), l = repeat v k.
Proof.
  induction l as [| a l IH]; intros H.
  - exists 0, 0%nat. reflexivity.
  - destruct IH as (v & k & ->).
    + intros x y Hx Hy. apply H; now right.
    + exists a, (Datatypes.S k). cbn [repeat]. f_equal.
      destruct k as [| k]; [reflexivity |].
      replace v with a; [reflexivity |].
      apply H; [now left | right; now left].
Qed.

(** X20: the approve and the burn of one run of [bridge_usdc] carry the same
    raw amount: the amounts submitted are one value, as often as there were
    submissions that carry one, so the allowance granted is exactly what is
    burnt. *)
Theorem bridge_usdc_approves_what_it_burns
    (S : Type) (o : oracle S) (s : S) (env : environ)
    (to : string) (amount : PyFloat.float) (from_chain to_chain : string)
    (testnet : bool) (private_key : option string) :
  exists (v : Z) (k : nat),
    submitted_amounts
      (trace_of (run o (Bridge.bridge_usdc env to amount from_chain to_chain
                          testnet private_key) s))
    = repeat v k.
Proof.
  destruct (bridge_usdc_environ env to amount from_chain to_chain testnet private_key)
    as [(e & ->) | ->]; [now exists 0, 0%nat |].
  apply all_equal_repeat.
  apply (wp_sound o _ _ s
           (bridge_usdc_wp2 (variables env) to amount from_chain to_chain testnet
              private_key)).
Qed.

Example bridge_usdc_amounts :
  submitted_amounts
    (trace_of (run cooperative
                 (Bridge.bridge_usdc (plain no_env) sample_recipient float_2_5
                    "ethereum" "base" true (Some sample_key)) tt))
  = [2500000; 2500000].
Proof. vm_compute. reflexivity. Qed.

(** X21: [bridge_usdc] connects to the source RPC first and to the
    destination RPC after it, at most once each, and to nothing else; each is
    [USDC_RPC_<CHAIN>] for the chain name as given, or else the default of
    the resolved key. *)
Theorem bridge_usdc_connects_source_then_destination
    (S : Type) (o : oracle S) (s : S) (env : environ)
    (to : string) (amount : PyFloat.float) (from_chain to_chain : string)
    (testnet : bool) (private_key : option string) :
  let from_key := Bridge.get_chain_key from_chain testnet in
  let to_key := Bridge.get_chain_key to_chain testnet in
  exists k : nat,
    providers (trace_of (run o (Bridge.bridge_usdc env to amount from_chain to_chain
                                  testnet private_key) s))
    = firstn k [env_value (variables env) ("USDC_RPC_" ++ PyStr.upper from_chain)
                  (dict_get Bridge.DEFAULT_RPCS from_key);
                env_value (variables env) ("USDC_RPC_" ++ PyStr.upper to_chain)
                  (dict_get Bridge.DEFAULT_RPCS to_key)].
Proof.
  intros from_key to_key. subst from_key to_key.
  destruct (bridge_usdc_environ env to amount from_chain to_chain testnet private_key)
    as [(e & ->) | ->]; [now exists 0%nat |].
  apply (wp_sound o _ _ s
           (bridge_usdc_wp2 (variables env) to amount from_chain to_chain testnet
              private_key)).
Qed.

(** X22: without a key, explicit or in [USDC_PRIVATE_KEY], [bridge_usdc]
    makes no request at all. *)
Theorem bridge_usdc_without_key_asks_nothing
    (S : Type) (o : oracle S) (s : S) (env : environ)
    (to : string) (amount : PyFloat.float) (from_chain to_chain : string)
    (testnet : bool) (private_key : option string) :
  py_not (py_or private_key (variables env "USDC_PRIVATE_KEY")) = true ->
  trace_of (run o (Bridge.bridge_usdc env to amount from_chain to_chain testnet
                     private_key) s) = [].
Proof.
  intros H.
  destruct (bridge_usdc_environ env to amount from_chain to_chain testnet private_key)
    as [(e & ->) | ->]; [reflexivity |].
  pose proof (wp_sound o _ _ s
                (bridge_usdc_wp2 (variables env) to amount from_chain to_chain testnet
                   private_key))
    as (_ & _ & _ & _ & _ & Hc).
  cbn zeta in Hc. rewrite H in Hc. exact Hc.
Qed.

Lemma bridge_usdc_without_key_asks_nothing_witness :
  trace_of (run cooperative
              (Bridge.bridge_usdc (plain no_env) sample_recipient float_2_5 "ethereum" "base"
                 true (Some "")) tt) = [].
Proof.
  apply (bridge_usdc_without_key_asks_nothing unit cooperative tt (plain no_env)
           sample_recipient float_2_5 "ethereum" "base" true (Some "")).
  reflexivity.
Defined.

(** X23: when a request outside the poll fails, [bridge_usdc] returns a dict
    with the single key [error]; after a confirmed burn, too, so that the
    hash of the burn is not in the result. *)
Theorem bridge_usdc_failure_drops_burn_hash
    (S : Type) (o : oracle S) (s : S) (env : environ)
    (to : string) (amount : PyFloat.float) (from_chain to_chain : string)
    (testnet : bool) (private_key : option string) :
  let r := run o (Bridge.bridge_usdc env to amount from_chain to_chain testnet
                    private_key) s in
  existsb raised (trace_of r) = true ->
  exists msg : string,
    result_of r = inr (error_dict msg)
    /\ dict_get (error_dict msg) "burn_tx" = None.
Proof.
  intros r. subst r.
  destruct (bridge_usdc_environ env to amount from_chain to_chain testnet private_key)
    as [(e & ->) | ->]; [discriminate |].
  intros H.
  pose proof (wp_sound o _ _ s
                (bridge_usdc_wp2 (variables env) to amount from_chain to_chain testnet
                   private_key))
    as ((d & Hd & Hm) & _).
  rewrite H in Hm.
  assert (Hmsg : exists msg, d = error_dict msg)
    by (destruct (accepted _) as [| ? [| ? [| ? [| ? ?]]]]; exact Hm).
  destruct Hmsg as (msg & ->). exists msg. split; [exact Hd | reflexivity].
Qed.

Lemma bridge_usdc_failure_drops_burn_hash_witness :
  burn_confirmed
    (trace_of (run mint_rejected
                 (Bridge.bridge_usdc (plain no_env) sample_recipient float_2_5
                    "ethereum" "base" true (Some sample_key)) tt))
  = Some (repeat Byte.x02 32)
  /\ exists msg : string,
       result_of (run mint_rejected
                    (Bridge.bridge_usdc (plain no_env) sample_recipient float_2_5
                       "ethereum" "base" true (Some sample_key)) tt)
       = inr (error_dict msg)
       /\ dict_get (error_dict msg) "burn_tx" = None.
Proof.
  split; [vm_compute; reflexivity |].
  apply (bridge_usdc_failure_drops_burn_hash unit mint_rejected tt (plain no_env)
           sample_recipient float_2_5 "ethereum" "base" true (Some sample_key)).
  vm_compute. reflexivity.
Defined.

(** ** The quotient of two ints *)

Lemma shr_1_halves (mrs : shr_record) :
  0 <= shr_m mrs -> shr_m (shr_1 mrs) = shr_m mrs / 2.
Proof.
  destruct mrs as [m r s]. cbn [shr_m]. intros Hm.
  destruct m as [| [p | p |] | p]; cbn [shr_1 shr_m]; try lia.
  - reflexivity.
  - rewrite Pos2Z.inj_xI. apply Z.div_unique with 1; lia.
  - rewrite Pos2Z.inj_xO. apply Z.div_unique with 0; lia.
  - reflexivity.
Qed.

Lemma iter_pos_shr_1_divides (n : positive) :
  forall mrs : shr_record,
    0 <= shr_m mrs ->
    shr_m (iter_pos shr_1 n mrs) = shr_m mrs / 2 ^ Zpos n.
Proof.
  assert (Hnn : forall a k, 0 <= a -> 0 <= a / 2 ^ Zpos k).
  { intros a k Ha. apply Z.div_pos; [assumption | apply Z.pow_pos_nonneg; lia]. }
  induction n as [n IH | n IH |]; intros mrs Hm; cbn [iter_pos].
  - assert (H1 : 0 <= shr_m (shr_1 mrs))
      by (rewrite shr_1_halves by assumption; apply Z.div_pos; lia).
    assert (H2 : 0 <= shr_m (iter_pos shr_1 n (shr_1 mrs)))
      by (rewrite IH by assumption; apply Hnn; assumption).
    rewrite IH by assumption. rewrite IH by assumption.
    rewrite shr_1_halves by assumption.
    assert (P : 0 < 2 ^ Zpos n) by (apply Z.pow_pos_nonneg; lia).
    rewrite !Z.div_div by lia. f_equal.
    replace (Zpos n~1) with (1 + Zpos n + Zpos n) by lia.
    rewrite !Z.pow_add_r by lia. change (2 ^ 1) with 2. ring.
  - assert (H2 : 0 <= shr_m (iter_pos shr_1 n mrs))
      by (rewrite IH by assumption; apply Hnn; assumption).
    rewrite IH by assumption. rewrite IH by assumption.
    assert (P : 0 < 2 ^ Zpos n) by (apply Z.pow_pos_nonneg; lia).
    rewrite Z.div_div by lia. f_equal.
    replace (Zpos n~0) with (Zpos n + Zpos n) by lia.
    rewrite Z.pow_add_r by lia. reflexivity.
  - change (2 ^ 1) with 2. apply shr_1_halves. assumption.
Qed.

Lemma round_nearest_even_bounds (m : Z) (l : location) :
  m <= round_nearest_even m l <= m + 1.
Proof.
  destruct l as [| []]; cbn [round_nearest_even]; try lia.
  destruct (Z.even m); lia.
Qed.

Lemma Zdigits2_le (m k : Z) : 0 <= k -> 0 <= m < 2 ^ k -> Zdigits2 m <= k.
Proof.
  intros Hk [Hlo Hhi]. destruct m as [| p | p]; cbn [Zdigits2]; [lia | | lia].
  pose proof (digits2_pos_bounds p) as [Blo _].
  destruct (Z.le_gt_cases (Zpos (digits2_pos p)) k) as [| Hgt]; [assumption |].
  assert (2 ^ k <= 2 ^ (Zpos (digits2_pos p) - 1)) by (apply Z.pow_le_mono_r; lia).
  lia.
Qed.

Lemma shr_record_of_loc_m (m : Z) (l : location) : shr_m (shr_record_of_loc m l) = m.
Proof. destruct l as [| []]; reflexivity. Qed.

(** One shift to the exponent of the format: the mantissa is divided, the
    exponent is the larger of the two. *)
Lemma shr_fexp_shape (m e : Z) (l : location) :
  0 <= m ->
  exists n : Z,
    0 <= n
    /\ shr_m (fst (shr_fexp PyFloat.prec PyFloat.emax m e l)) = m / 2 ^ n
    /\ snd (shr_fexp PyFloat.prec PyFloat.emax m e l) = e + n
    /\ e + n = Z.max e (fexp PyFloat.prec PyFloat.emax (Zdigits2 m + e)).
Proof.
  intros Hm. unfold shr_fexp, shr.
  destruct (fexp PyFloat.prec PyFloat.emax (Zdigits2 m + e) - e) as [| p | p] eqn:En.
  - exists 0. cbn [fst snd]. rewrite shr_record_of_loc_m, Z.div_1_r.
    repeat split; lia.
  - exists (Zpos p). cbn [fst snd].
    rewrite iter_pos_shr_1_divides by (rewrite shr_record_of_loc_m; assumption).
    rewrite shr_record_of_loc_m. repeat split; lia.
  - exists 0. cbn [fst snd]. rewrite shr_record_of_loc_m, Z.div_1_r.
    repeat split; lia.
Qed.

(** Rounding a value below [2^1023] that comes with a non-positive exponent
    never overflows. *)
Lemma binary_round_aux_no_overflow (s : bool) (m e k : Z) (l : location) :
  0 <= k -> 0 <= m < 2 ^ k -> e <= 0 -> k + e <= 1023 ->
  forall s' : bool,
    binary_round_aux PyFloat.prec PyFloat.emax s m e l <> S754_infinity s'.
Proof.
  intros Hk Hm He Hke s'. unfold binary_round_aux.
  destruct (shr_fexp_shape m e l) as (n & Hn & Hm1 & He1 & Hmax); [lia |].
  destruct (shr_fexp PyFloat.prec PyFloat.emax m e l) as [mrs1 e1].
  cbn [fst snd] in Hm1, He1.
  set (m1 := round_nearest_even (shr_m mrs1) (loc_of_shr_record mrs1)).
  pose proof (round_nearest_even_bounds (shr_m mrs1) (loc_of_shr_record mrs1)) as Hr.
  fold m1 in Hr. rewrite Hm1 in Hr.
  assert (P : 0 < 2 ^ n) by (apply Z.pow_pos_nonneg; lia).
  assert (Hq0 : 0 <= m / 2 ^ n) by (apply Z.div_pos; lia).
  pose proof (Zdigits2_le m k Hk Hm) as Hd.
  rewrite fexp_binary64 in Hmax.
  (* the rounded mantissa has at most [max (k - n) 0 + 1] digits *)
  assert (Hd1 : Zdigits2 m1 + e1 <= 1024).
  { destruct (Z.le_gt_cases n k) as [Hnk | Hnk].
    - assert (Hlt : m / 2 ^ n < 2 ^ (k - n)).
      { apply Z.div_lt_upper_bound; [lia |].
        rewrite <- Z.pow_add_r by lia. replace (n + (k - n)) with k by lia. lia. }
      assert (Hb : m1 < 2 ^ (k - n + 1))
        by (rewrite Z.pow_add_r by lia; change (2 ^ 1) with 2; lia).
      pose proof (Zdigits2_le m1 (k - n + 1)) as Hx. lia.
    - assert (Hz : m / 2 ^ n = 0).
      { apply Z.div_small. split; [lia |].
        assert (2 ^ k <= 2 ^ n) by (apply Z.pow_le_mono_r; lia). lia. }
      pose proof (Zdigits2_le m1 1) as Hx. change (2 ^ 1) with 2 in Hx. lia. }
  destruct (shr_fexp_shape m1 e1 loc_Exact) as (n2 & Hn2 & _ & He2 & Hmax2); [lia |].
  destruct (shr_fexp PyFloat.prec PyFloat.emax m1 e1 loc_Exact) as [mrs2 e2].
  cbn [fst snd] in He2. rewrite fexp_binary64 in Hmax2.
  destruct (shr_m mrs2); try discriminate.
  replace (e2 <=? PyFloat.emax - PyFloat.prec) with true; [discriminate |].
  symmetry. apply Z.leb_le. unfold PyFloat.emax, PyFloat.prec. lia.
Qed.

(** [a / b] for ints [0 <= a < 2^1023] and [b > 0] raises nothing. *)
Lemma int_truediv_no_error (a b : Z) :
  0 <= a < 2 ^ 1023 -> 0 < b ->
  exists f : PyFloat.float, PyFloat.int_truediv a b = inr f.
Proof.
  intros Ha Hb. unfold PyFloat.int_truediv.
  replace (b =? 0) with false by (symmetry; apply Z.eqb_neq; lia).
  destruct (a =? 0) eqn:Ea; [eexists; reflexivity |].
  apply Z.eqb_neq in Ea.
  rewrite (Z.abs_eq a), (Z.abs_eq b) by lia.
  unfold SFdiv_core_binary.
  set (e' := Z.min _ _).
  assert (He' : e' <= 0) by (subst e'; lia).
  set (m' := match 0 - 0 - e' with Z0 => a | Zpos _ => Z.shiftl a (0 - 0 - e') | Zneg _ => 0 end).
  assert (Hm' : m' = a * 2 ^ (- e')).
  { subst m'. destruct (0 - 0 - e') as [| p | p] eqn:Es.
    - replace (- e') with 0 by lia. cbn. lia.
    - rewrite Z.shiftl_mul_pow2 by lia. f_equal. f_equal. lia.
    - lia. }
  pose proof (Z_div_mod m' b ltac:(lia)) as Hdm.
  destruct (Z.div_eucl m' b) as [q r]. destruct Hdm as [Heq Hr].
  assert (P : 0 < 2 ^ (- e')) by (apply Z.pow_pos_nonneg; lia).
  assert (Hq : 0 <= q < 2 ^ (1023 - e')).
  { split; [nia |].
    replace (1023 - e') with (1023 + - e') by lia. rewrite Z.pow_add_r by lia.
    nia. }
  pose proof (binary_round_aux_no_overflow
                (xorb (a <? 0) (b <? 0)) q e' (1023 - e') (new_location b r)
                ltac:(lia) Hq He' ltac:(lia)) as Hno.
  destruct (binary_round_aux _ _ _ _ _ _) as [sz | si | | sf mf ef];
    try (eexists; reflexivity).
  exfalso. exact (Hno si eq_refl).
Qed.

(** Rounding a value that is an integer below [2^53] gives a float that
    stands for that integer. *)
Lemma binary_round_aux_integer_value (s : bool) (m : positive) (e N : Z) :
  0 < N < 2 ^ 53 ->
  Zpos m * 2 ^ Z.max 0 e = N * 2 ^ Z.max 0 (- e) ->
  exists (m' : positive) (e' : Z),
    binary_round_aux PyFloat.prec PyFloat.emax s (Zpos m) e loc_Exact
    = S754_finite s m' e'
    /\ Zpos m' * 2 ^ Z.max 0 e' = N * 2 ^ Z.max 0 (- e').
Proof.
  intros HN Hval.
  pose proof (digits2_pos_bounds m) as [Dlo Dhi].
  set (dm := Zpos (digits2_pos m)) in *.
  assert (Hdm : 0 < dm) by (subst dm; lia).
  unfold binary_round_aux, shr_fexp. cbn [Zdigits2 shr_record_of_loc].
  fold dm. rewrite fexp_binary64.
  assert (Hd : dm + e <= 53).
  { destruct (Z.le_gt_cases (dm + e) 53) as [|Hgt]; [assumption | exfalso].
    destruct (Z.le_gt_cases 0 e) as [He | He].
    - rewrite Z.max_r in Hval by lia. rewrite (Z.max_l 0 (- e)) in Hval by lia.
      change (2 ^ 0) with 1 in Hval.
      assert (2 ^ 53 <= 2 ^ (dm - 1) * 2 ^ e).
      { rewrite <- pow2_split by lia. apply Z.pow_le_mono_r; lia. }
      assert (0 < 2 ^ e) by (apply Z.pow_pos_nonneg; lia).
      nia.
    - rewrite Z.max_l in Hval by lia. rewrite (Z.max_r 0 (- e)) in Hval by lia.
      change (2 ^ 0) with 1 in Hval.
      assert (2 ^ 53 * 2 ^ (- e) <= 2 ^ (dm - 1)).
      { rewrite <- pow2_split by lia. apply Z.pow_le_mono_r; lia. }
      assert (0 < 2 ^ (- e)) by (apply Z.pow_pos_nonneg; lia).
      nia. }
  set (fe := Z.max (dm + e - 53) (-1074)).
  assert (Hfe : fe <= 0) by (subst fe; lia).
  assert (Hnoshift :
    fe - e <= 0 ->
    exists (m' : positive) (e' : Z),
      (if e <=? PyFloat.emax - PyFloat.prec then S754_finite s m e
       else S754_infinity s) = S754_finite s m' e'
      /\ Zpos m' * 2 ^ Z.max 0 e' = N * 2 ^ Z.max 0 (- e')).
  { intros Hle.
    replace (e <=? PyFloat.emax - PyFloat.prec) with true
      by (symmetry; apply Z.leb_le; unfold PyFloat.emax, PyFloat.prec; lia).
    exists m, e. split; [reflexivity | exact Hval]. }
  destruct (fe - e) as [| n | n] eqn:En; cbn [shr].
  - cbn [shr_m loc_of_shr_record round_nearest_even Zdigits2 shr_record_of_loc].
    fold dm. rewrite fexp_binary64. fold fe. rewrite En. cbn [shr shr_m].
    apply Hnoshift. lia.
  - assert (He : e < 0) by lia.
    rewrite Z.max_l in Hval by lia. rewrite (Z.max_r 0 (- e)) in Hval by lia.
    change (2 ^ 0) with 1 in Hval. rewrite Z.mul_1_r in Hval.
    assert (Hsplit : 2 ^ (- e) = 2 ^ (- fe) * 2 ^ Zpos n).
    { rewrite <- pow2_split by lia. f_equal. lia. }
    assert (Hpn : 0 < 2 ^ Zpos n) by (apply Z.pow_pos_nonneg; lia).
    assert (Hpf : 0 < 2 ^ (- fe)) by (apply Z.pow_pos_nonneg; lia).
    rewrite iter_pos_shr_1_exact
      by (exists (N * 2 ^ (- fe)); rewrite Hval, Hsplit; ring).
    cbn [shr_m loc_of_shr_record round_nearest_even].
    assert (Hq : Zpos m / 2 ^ Zpos n = N * 2 ^ (- fe)).
    { rewrite Hval, Hsplit, Z.mul_assoc. apply Z.div_mul. lia. }
    rewrite Hq.
    destruct (N * 2 ^ (- fe)) as [| m' | m'] eqn:Em'; [nia | | nia].
    cbn [Zdigits2 shr_record_of_loc].
    assert (Hdig : Zpos (digits2_pos m') = dm - Zpos n).
    { apply digits2_pos_unique.
      assert (Hm : Zpos m = Zpos m' * 2 ^ Zpos n)
        by (rewrite <- Em', Hval, Hsplit; ring).
      assert (B1 : 2 ^ (dm - 1) = 2 ^ (dm - Zpos n - 1) * 2 ^ Zpos n).
      { rewrite <- pow2_split; [f_equal; lia | | lia].
        destruct (Z.le_gt_cases 0 (dm - Zpos n - 1)); [assumption | exfalso].
        assert (2 ^ dm <= 2 ^ Zpos n) by (apply Z.pow_le_mono_r; lia).
        nia. }
      assert (B2 : 2 ^ dm = 2 ^ (dm - Zpos n) * 2 ^ Zpos n).
      { rewrite <- pow2_split; [f_equal; lia | | lia].
        destruct (Z.le_gt_cases 0 (dm - Zpos n)); [assumption | exfalso].
        assert (2 ^ dm <= 2 ^ Zpos n) by (apply Z.pow_le_mono_r; lia).
        nia. }
      split; nia. }
    rewrite Hdig, fexp_binary64.
    replace (dm - Zpos n + (e + Zpos n)) with (dm + e) by lia. fold fe.
    replace (fe - (e + Zpos n)) with 0 by lia. cbn [shr shr_m].
    replace (e + Zpos n) with fe by lia.
    replace (fe <=? PyFloat.emax - PyFloat.prec) with true
      by (symmetry; apply Z.leb_le; unfold PyFloat.emax, PyFloat.prec; lia).
    exists m', fe. split; [reflexivity |].
    rewrite Z.max_l by lia. rewrite (Z.max_r 0 (- fe)) by lia.
    change (2 ^ 0) with 1. lia.
  - cbn [shr_m loc_of_shr_record round_nearest_even Zdigits2 shr_record_of_loc].
    fold dm. rewrite fexp_binary64. fold fe. rewrite En. cbn [shr shr_m].
    apply Hnoshift. lia.
Qed.

Lemma Z_to_Qpow2 (m e N : Z) :
  m * 2 ^ Z.max 0 e = N * 2 ^ Z.max 0 (- e) ->
  (inject_Z m * 2 ^ e == inject_Z N)%Q.
Proof.
  intros H. destruct (Z.le_gt_cases 0 e) as [He | He].
  - rewrite Z.max_r, Z.max_l in H by lia. change (2 ^ 0) with 1 in H.
    rewrite Z.mul_1_r in H. rewrite <- H, inject_Z_mult, Zpower_Qpower by lia.
    reflexivity.
  - rewrite Z.max_l, Z.max_r in H by lia. change (2 ^ 0) with 1 in H.
    rewrite Z.mul_1_r in H. rewrite H, inject_Z_mult, Zpower_Qpower by lia.
    assert (Hinv : (2 ^ e == / inject_Z 2 ^ (- e))%Q).
    { rewrite <- Qpower_opp. replace (- - e)%Z with e by lia. reflexivity. }
    assert (Hnz : ~ (inject_Z 2 ^ (- e) == 0)%Q)
      by (apply Qpower_not_0; discriminate).
    rewrite Hinv. field. exact Hnz.
Qed.

(** A whole multiple [k * b] divided by [b] is the float that stands for
    [k], for [0 < k < 2^53]. *)
Lemma int_truediv_whole (k b : Z) :
  0 < k < 2 ^ 53 -> 0 < b ->
  exists (f : PyFloat.float) (q : Q),
    PyFloat.int_truediv (k * b) b = inr f
    /\ PyFloat.to_Q f = Some q /\ (q == inject_Z k)%Q.
Proof.
  intros Hk Hb. unfold PyFloat.int_truediv.
  replace (b =? 0) with false by (symmetry; apply Z.eqb_neq; lia).
  replace (k * b =? 0) with false by (symmetry; apply Z.eqb_neq; nia).
  replace (k * b <? 0) with false by (symmetry; apply Z.ltb_ge; nia).
  replace (b <? 0) with false by (symmetry; apply Z.ltb_ge; lia).
  rewrite (Z.abs_eq (k * b)), (Z.abs_eq b) by nia.
  unfold SFdiv_core_binary.
  set (e' := Z.min _ _).
  assert (He' : e' <= 0) by (subst e'; lia).
  set (m' := match 0 - 0 - e' with
             | Z0 => k * b
             | Zpos _ => Z.shiftl (k * b) (0 - 0 - e')
             | Zneg _ => 0
             end).
  assert (Hm' : m' = k * 2 ^ (- e') * b).
  { subst m'. destruct (0 - 0 - e') as [| p | p] eqn:Es.
    - replace (- e') with 0 by lia. cbn. lia.
    - rewrite Z.shiftl_mul_pow2 by lia. replace (- e') with (Zpos p) by lia. ring.
    - lia. }
  assert (P : 0 < 2 ^ (- e')) by (apply Z.pow_pos_nonneg; lia).
  assert (Hdiv : Z.div_eucl m' b = (k * 2 ^ (- e'), 0)).
  { pose proof (Z_div_mod m' b ltac:(lia)) as Hdm.
    destruct (Z.div_eucl m' b) as [q r]. destruct Hdm as [Heq Hr].
    assert (q = k * 2 ^ (- e')) by nia. subst q. f_equal. lia. }
  rewrite Hdiv.
  assert (Hloc : new_location b 0 = loc_Exact)
    by (unfold new_location, new_location_even, new_location_odd;
        destruct (Z.even b); reflexivity).
  rewrite Hloc.
  destruct (k * 2 ^ (- e')) as [| m | m] eqn:Em; [nia | | nia].
  destruct (binary_round_aux_integer_value (xorb false false) m e' k Hk)
    as (mf & ef & -> & Hv).
  { rewrite <- Em. rewrite Z.max_l, Z.max_r by lia. change (2 ^ 0) with 1. lia. }
  eexists. eexists. split; [reflexivity |]. split; [reflexivity |].
  cbn [xorb cond_Zopp]. apply Z_to_Qpow2. exact Hv.
Qed.

(** X28: when [balanceOf] answered a [uint256] and [decimals] answered, the
    division cannot fail: [get_balance] returns the dict with the balance. *)
Theorem get_balance_division_never_fails
    (S : Type) (o : oracle S) (s : S) (env : environ)
    (address chain : string) (testnet : bool)
    (c : contract) (owner : string) (balance_raw : Z) (decimals : N) :
  let r := run o (Balance.get_balance env address chain testnet) s in
  let chain_key := Balance.get_chain_key chain testnet in
  balance_answers (trace_of r) = [(c, owner, balance_raw)] ->
  decimals_answers (trace_of r) = [decimals] ->
  0 <= balance_raw < 2 ^ 256 ->
  exists balance : PyFloat.float,
    PyFloat.int_truediv balance_raw (10 ^ Z.of_N decimals) = inr balance
    /\ result_of r
       = inr (balance_dict address chain_key testnet balance balance_raw decimals
                (dict_get Balance.USDC_ADDRESSES chain_key)).
Proof.
  intros r chain_key. subst r chain_key.
  destruct (get_balance_environ env address chain testnet) as [(e & ->) | ->];
    [discriminate |].
  intros Hb Hd Hraw.
  pose proof (wp_sound o _ _ s (get_balance_wp2 (variables env) address chain testnet))
    as ((d & Hres & Hm) & _).
  rewrite Hb, Hd in Hm.
  destruct (int_truediv_no_error balance_raw (10 ^ Z.of_N decimals)) as (f & Hf).
  - assert (2 ^ 256 < 2 ^ 1023) by (apply Z.pow_lt_mono_r; lia). lia.
  - apply Z.pow_pos_nonneg; lia.
  - rewrite Hf in Hm. exists f. split; [exact Hf |]. rewrite Hres, Hm. reflexivity.
Qed.

Lemma get_balance_division_never_fails_witness :
  exists balance : PyFloat.float,
    PyFloat.int_truediv 2500000 (10 ^ Z.of_N 6) = inr balance
    /\ result_of (run cooperative
                    (Balance.get_balance (plain no_env) sample_recipient "base" true) tt)
       = inr (balance_dict sample_recipient "base_sepolia" true balance 2500000 6
                (dict_get Balance.USDC_ADDRESSES "base_sepolia")).
Proof.
  apply (get_balance_division_never_fails unit cooperative tt (plain no_env)
           sample_recipient "base" true
           {| c_w3 := Some "https://base-sepolia-rpc.publicnode.com";
              c_address := "0x036CbD53842c5426634e7929541eC2318f3dCF7e";
              c_abi := Balance_ERC20_ABI |}
           sample_recipient 2500000 6%N).
  - vm_compute. reflexivity.
  - vm_compute. reflexivity.
  - lia.
Defined.

(** X29: a balance that is a whole number [k] of tokens, [0 < k < 2^53], is
    reported exactly: the [balance] field is the float that stands for
    [k]. *)
Theorem get_balance_whole_tokens_exact
    (S : Type) (o : oracle S) (s : S) (env : environ)
    (address chain : string) (testnet : bool)
    (c : contract) (owner : string) (k : Z) (decimals : N) :
  let r := run o (Balance.get_balance env address chain testnet) s in
  balance_answers (trace_of r) = [(c, owner, k * 10 ^ Z.of_N decimals)] ->
  decimals_answers (trace_of r) = [decimals] ->
  0 < k < 2 ^ 53 ->
  exists (d : dict) (balance : PyFloat.float) (q : Q),
    result_of r = inr d
    /\ dict_get d "balance" = Some (VFloat balance)
    /\ PyFloat.to_Q balance = Some q
    /\ (q == inject_Z k)%Q.
Proof.
  intros r. subst r.
  destruct (get_balance_environ env address chain testnet) as [(e & ->) | ->];
    [discriminate |].
  intros Hb Hd Hk.
  pose proof (wp_sound o _ _ s (get_balance_wp2 (variables env) address chain testnet))
    as ((d & Hres & Hm) & _).
  rewrite Hb, Hd in Hm.
  destruct (int_truediv_whole k (10 ^ Z.of_N decimals) Hk) as (f & q & Hf & Hq & Hv).
  { apply Z.pow_pos_nonneg; lia. }
  rewrite Hf in Hm. exists d, f, q.
  split; [exact Hres |]. split; [rewrite Hm; reflexivity |].
  split; assumption.
Qed.

Lemma get_balance_whole_tokens_exact_witness :
  exists (d : dict) (balance : PyFloat.float) (q : Q),
    result_of (run seven_tokens
                 (Balance.get_balance (plain no_env) sample_recipient "base" true) tt)
    = inr d
    /\ dict_get d "balance" = Some (VFloat balance)
    /\ PyFloat.to_Q balance = Some q
    /\ (q == inject_Z 7)%Q.
Proof.
  apply (get_balance_whole_tokens_exact unit seven_tokens tt (plain no_env)
           sample_recipient "base" true
           {| c_w3 := Some "https://base-sepolia-rpc.publicnode.com";
              c_address := "0x036CbD53842c5426634e7929541eC2318f3dCF7e";
              c_abi := Balance_ERC20_ABI |}
           sample_recipient 7 6%N).
  - vm_compute. reflexivity.
  - vm_compute. reflexivity.
  - lia.
Defined.

Example seven_tokens_balance :
  dict_get (match result_of (run seven_tokens
                               (Balance.get_balance (plain no_env) sample_recipient "base" true)
                               tt) with
            | inr d => d
            | inl _ => []
            end) "balance"
  = Some (VFloat (S754_finite false 7881299347898368 (-50))).
Proof. vm_compute. reflexivity. Qed.

(** ** Amounts that are no numbers *)

(** [int(amount * (10 ** decimals))] raises for NaN and the infinities. *)
Lemma amount_to_raw_non_finite (amount : PyFloat.float) (decimals : N) (v : Z) :
  PyFloat.to_Q amount = None -> amount_to_raw amount decimals <> inr v.
Proof.
  intros Hq. unfold amount_to_raw.
  destruct (PyFloat.of_int (10 ^ Z.of_N decimals)) as [e | p]; [discriminate |].
  destruct amount as [sa | sa | | sa ma ea]; try discriminate Hq;
    destruct p as [sp | sp | | sp mp ep]; cbn; discriminate.
Qed.

Lemma first_submission_amount (t : list event) (c : contract_call) (r : exn + bytes)
    (l : list (contract_call * (exn + bytes))) (v : Z) :
  submissions t = (c, r) :: l -> raw_amount c = Some v -> In v (submitted_amounts t).
Proof.
  intros Hs Hv. unfold submitted_amounts. rewrite Hs. cbn [filter_map fst].
  rewrite Hv. now left.
Qed.

(** X30: when the amount is NaN or an infinity, [send_usdc] and
    [bridge_usdc] submit no transaction at all: the conversion to raw units
    raises before the first one is built. *)
Theorem non_finite_amount_submits_nothing
    (S : Type) (o : oracle S) (s : S) (env : environ)
    (to : string) (amount : PyFloat.float) (chain from_chain to_chain : string)
    (testnet : bool) (private_key : option string) :
  PyFloat.to_Q amount = None ->
  submissions
    (trace_of (run o (Send.send_usdc env to amount chain testnet private_key) s)) = []
  /\ submissions
       (trace_of (run o (Bridge.bridge_usdc env to amount from_chain to_chain testnet
                           private_key) s)) = [].
Proof.
  intros Hq. split.
  - destruct (send_usdc_environ env to amount chain testnet private_key)
      as [(e & ->) | ->]; [reflexivity |].
    pose proof (wp_sound o _ _ s
                  (send_usdc_wp (variables env) to amount chain testnet private_key))
      as (_ & Hs & _ & Hle & Hlen).
    set (t := trace_of _) in *.
    destruct (submissions t) as [| [c r] l] eqn:Es; [reflexivity | exfalso].
    unfold submitted in Hle, Hlen. rewrite Es in Hle, Hlen.
    cbn [filter fst List.length] in Hle, Hlen.
    destruct c as [recipient v | | |]; cbn [is_transfer] in Hle, Hlen.
    + destruct (Hs v (first_submission_amount t _ r l v Es eq_refl)) as (dec & _ & Hv).
      exact (amount_to_raw_non_finite amount dec v Hq Hv).
    + pose proof (filter_length_le (fun x => is_transfer (fst x)) l). lia.
    + pose proof (filter_length_le (fun x => is_transfer (fst x)) l). lia.
    + pose proof (filter_length_le (fun x => is_transfer (fst x)) l). lia.
  - destruct (bridge_usdc_environ env to amount from_chain to_chain testnet private_key)
      as [(e & ->) | ->]; [reflexivity |].
    pose proof (wp_sound o _ _ s
                  (bridge_usdc_wp (variables env) to amount from_chain to_chain testnet
                     private_key))
      as (_ & _ & _ & _ & Hs).
    pose proof (wp_sound o _ _ s
                  (bridge_usdc_wp2 (variables env) to amount from_chain to_chain testnet
                     private_key))
      as (_ & _ & (Hord & _) & _).
    set (t := trace_of _) in *.
    destruct (submissions t) as [| [c r] l] eqn:Es; [reflexivity | exfalso].
    unfold submitted_calls in Hord. rewrite Es in Hord.
    cbn [map fst in_order] in Hord.
    destruct c as [| spender v | |]; cbn [is_approve andb] in Hord; try discriminate.
    destruct (Hs v (first_submission_amount t _ r l v Es eq_refl)) as (dec & _ & Hv).
    exact (amount_to_raw_non_finite amount dec v Hq Hv).
Qed.

Lemma non_finite_amount_submits_nothing_witness :
  submissions
    (trace_of (run cooperative
                 (Send.send_usdc (plain no_env) sample_recipient (S754_infinity false) "base"
                    true (Some sample_key)) tt)) = []
  /\ submissions
       (trace_of (run cooperative
                    (Bridge.bridge_usdc (plain no_env) sample_recipient (S754_infinity false)
                       "ethereum" "base" true (Some sample_key)) tt)) = [].
Proof.
  apply (non_finite_amount_submits_nothing unit cooperative tt (plain no_env)
           sample_recipient
           (S754_infinity false) "base" "ethereum" "base" true (Some sample_key)).
  reflexivity.
Defined.

(** ** The command lines *)

(** The names [parse_args] lets through are ASCII: every process encodes the
    name of their RPC variable, and [main] runs as in a process that encodes
    every name. *)
Lemma os_getenv_choice (env : environ) (c : chain_choice) (default : option string) :
  os_getenv env ("USDC_RPC_" ++ PyStr.upper (chain_name c)) default
  = inr (env_value (variables env) ("USDC_RPC_" ++ PyStr.upper (chain_name c)) default).
Proof. now destruct c. Qed.

Lemma get_balance_choice (env : environ) (address : string) (c : chain_choice)
    (testnet : bool) :
  Balance.get_balance env address (chain_name c) testnet
  = Balance.get_balance (plain (variables env)) address (chain_name c) testnet.
Proof.
  unfold Balance.get_balance. cbv zeta.
  now rewrite (os_getenv_choice env), os_getenv_plain.
Qed.

Lemma send_usdc_choice (env : environ) (to : string) (amount : PyFloat.float)
    (c : chain_choice) (testnet : bool) (private_key : option string) :
  Send.send_usdc env to amount (chain_name c) testnet private_key
  = Send.send_usdc (plain (variables env)) to amount (chain_name c) testnet private_key.
Proof.
  unfold Send.send_usdc. cbv zeta.
  now rewrite !py_or_getenv_key, (os_getenv_choice env), os_getenv_plain.
Qed.

Lemma bridge_usdc_choice (env : environ) (to : string) (amount : PyFloat.float)
    (c c' : chain_choice) (testnet : bool) (private_key : option string) :
  Bridge.bridge_usdc env to amount (chain_name c) (chain_name c') testnet private_key
  = Bridge.bridge_usdc (plain (variables env)) to amount (chain_name c) (chain_name c')
      testnet private_key.
Proof.
  unfold Bridge.bridge_usdc. cbv zeta.
  now rewrite !py_or_getenv_key, !(os_getenv_choice env), !os_getenv_plain.
Qed.

Lemma balance_main_choice (env : environ) out a :
  BalanceMain.main env out a = BalanceMain.main (plain (variables env)) out a.
Proof. unfold BalanceMain.main. now rewrite get_balance_choice. Qed.

Lemma send_main_choice (env : environ) out a confirm :
  SendMain.main env out a confirm = SendMain.main (plain (variables env)) out a confirm.
Proof.
  unfold SendMain.main, SendMain.send_and_report. now rewrite send_usdc_choice.
Qed.

Lemma bridge_main_choice (env : environ) out a confirm :
  BridgeMain.main env out a confirm
  = BridgeMain.main (plain (variables env)) out a confirm.
Proof.
  unfold BridgeMain.main, BridgeMain.bridge_and_report. now rewrite bridge_usdc_choice.
Qed.

Lemma declined_consent (answer : string) :
  declined answer = false -> String.eqb (PyStr.lower answer) "yes" = true.
Proof. unfold declined. now destruct (String.eqb _ _). Qed.

Lemma prints_accepted (out : stdout) (stmts : list (string * list (exn + value))) :
  (forall l, out l = None) ->
  Forall (fun stmt => exists vs, values (snd stmt) = inr vs) stmts ->
  printed_all (prints out stmts).
Proof.
  intros Hout H. unfold printed_all.
  induction H as [| [text shown] stmts (vs & Hvs) _ IH]; [reflexivity |].
  cbn [prints snd] in *. rewrite Hvs, Hout.
  destruct (prints out stmts) as [ls e]. exact IH.
Qed.

Lemma print_json_accepted (out : stdout) (d : dict) :
  (forall l, out l = None) -> printed_all (print_json out d).
Proof. intros Hout. unfold print_json, printed_all. now rewrite Hout. Qed.

Lemma prints_texts (out : stdout) (stmts : list (string * list (exn + value))) :
  forallb (fun stmt => negb (shows_partial_success (Line (fst stmt) []))) stmts = true ->
  no_partial_success (prints out stmts).
Proof.
  unfold no_partial_success.
  induction stmts as [| [text shown] stmts IH]; intros H; [reflexivity |].
  cbn [forallb fst] in H. apply andb_prop in H as [Ht H].
  cbn [prints]. destruct (values shown) as [e | vs]; [reflexivity |].
  destruct (out (Line text vs)); [reflexivity |].
  specialize (IH H). destruct (prints out stmts) as [ls e].
  cbn [fst existsb] in *. rewrite IH.
  cbn [shows_partial_success] in *. now destruct (String.eqb text _).
Qed.

Lemma print_json_texts (out : stdout) (d : dict) : no_partial_success (print_json out d).
Proof. unfold print_json, no_partial_success. now destruct (out _). Qed.

Lemma after_no_partial_success (before : list line) (o : output) :
  existsb shows_partial_success before = false ->
  no_partial_success o -> no_partial_success (after before o).
Proof.
  unfold no_partial_success, after. cbn [fst]. intros H1 H2.
  now rewrite existsb_app, H1, H2.
Qed.

Lemma bridge_report_texts (out : stdout) (a : BridgeMain.args) (d : dict) :
  bridge_result a d -> no_partial_success (BridgeMain.report out d).
Proof.
  intros [(msg & ->) | [(burn & ->) | (burn & receive & ->)]];
    apply prints_texts; reflexivity.
Qed.

Lemma bridge_report_accepted (out : stdout) (a : BridgeMain.args) (d : dict) :
  (forall l, out l = None) -> bridge_result a d -> printed_all (BridgeMain.report out d).
Proof.
  intros Hout [(msg & ->) | [(burn & ->) | (burn & receive & ->)]];
    (apply prints_accepted; [exact Hout |]);
    repeat (first [apply Forall_nil | apply Forall_cons]); eexists; reflexivity.
Qed.

Lemma send_and_report_wp (env : string -> option string) out a :
  wp (SendMain.send_and_report (plain env) out a)
     (fun res t =>
        (exists o, res = inr o /\ ((forall l, out l = None) -> printed_all o))
        /\ (t <> [] -> py_not (env "USDC_PRIVATE_KEY") = false)).
Proof.
  unfold SendMain.send_and_report.
  apply wp_bind. eapply wp_mono; [| apply send_usdc_wp2].
  intros res t ((d & -> & Hm) & _ & _ & Hcfg). cbn [wp]. rewrite app_nil_r. split.
  - eexists. split; [reflexivity |]. intros Hout.
    destruct (SendMain.json a); [now apply print_json_accepted |].
    destruct (accepted t) as [| h [| ? ?]];
      [destruct Hm as (msg & ->) | destruct Hm as (sender & _ & ->)
      | destruct Hm as (msg & ->)];
      (apply prints_accepted; [exact Hout |]);
      repeat (first [apply Forall_nil | apply Forall_cons]); eexists; reflexivity.
  - intros Hne. unfold send_configured in Hcfg. cbv zeta in Hcfg.
    change (py_or None (env "USDC_PRIVATE_KEY")) with (env "USDC_PRIVATE_KEY") in Hcfg.
    destruct (py_not (env "USDC_PRIVATE_KEY")); [| reflexivity].
    cbn in Hcfg. now contradict Hne.
Qed.

Lemma send_main_wp (env : string -> option string) out a confirm :
  wp (SendMain.main (plain env) out a confirm)
     (fun res t =>
        (forall answer, confirm = inr answer -> (forall l, out l = None) ->
           exists o, res = inr o /\ printed_all o)
        /\ (t <> [] -> consented env (SendMain.mainnet a) confirm)).
Proof.
  unfold SendMain.main. cbv zeta.
  destruct (SendMain.mainnet a) eqn:Hm; cbn [negb].
  - destruct confirm as [e | answer]; cbn [lift bind wp].
    + split; [discriminate | intros H; now contradict H].
    + destruct (declined answer) eqn:Hd.
      * cbn [wp]. split; [| intros H; now contradict H].
        intros ? _ Hout. eexists. split; [reflexivity |].
        apply prints_accepted; [exact Hout |].
        repeat (first [apply Forall_nil | apply Forall_cons]); eexists; reflexivity.
      * eapply wp_mono; [| apply send_and_report_wp].
        intros res t ((o' & -> & Ho) & Hk). split.
        -- intros ? _ Hout. eexists. split; [reflexivity | auto].
        -- intros Hne. split; [auto |]. intros _. exists answer.
           split; [reflexivity | now apply declined_consent].
  - eapply wp_mono; [| apply send_and_report_wp].
    intros res t ((o' & -> & Ho) & Hk). split.
    + intros ? _ Hout. eexists. split; [reflexivity | auto].
    + intros Hne. split; [auto | discriminate].
Qed.

Lemma banner_texts out a use_testnet :
  no_partial_success (BridgeMain.banner out a use_testnet).
Proof. apply prints_texts. reflexivity. Qed.

Lemma banner_accepted out a use_testnet :
  (forall l, out l = None) -> printed_all (BridgeMain.banner out a use_testnet).
Proof.
  intros Hout. apply prints_accepted; [exact Hout |].
  repeat (first [apply Forall_nil | apply Forall_cons]); eexists; reflexivity.
Qed.

Lemma bridge_and_report_wp (env : string -> option string) out a :
  wp (BridgeMain.bridge_and_report (plain env) out a)
     (fun res t =>
        (exists o, res = inr o /\ no_partial_success o
                   /\ ((forall l, out l = None) -> printed_all o))
        /\ (t <> [] -> py_not (env "USDC_PRIVATE_KEY") = false)).
Proof.
  unfold BridgeMain.bridge_and_report. cbv zeta.
  pose proof (banner_texts out a (negb (BridgeMain.mainnet a))) as Hb.
  pose proof (banner_accepted out a (negb (BridgeMain.mainnet a))) as Hba.
  destruct (BridgeMain.banner out a (negb (BridgeMain.mainnet a))) as [printed [e |]].
  - cbn [wp]. split; [| intros H; now contradict H].
    eexists. split; [reflexivity |]. split; [exact Hb |].
    intros Hout. specialize (Hba Hout). discriminate Hba.
  - apply wp_bind. eapply wp_mono; [| apply bridge_usdc_wp2].
    intros res t ((d & -> & Hm) & _ & _ & _ & _ & Hkey). cbn [wp].
    rewrite app_nil_r.
    assert (Hshape : bridge_result a d).
    { unfold bridge_result.
      destruct (accepted t) as [| h0 [| h1 [| h2 [| ? ?]]]];
        destruct (existsb raised t); try (left; exact Hm).
      - destruct (existsb observed_complete t); [left; exact Hm |].
        right; left. eexists; exact Hm.
      - right; right. do 2 eexists; exact Hm. }
    split.
    + eexists. split; [reflexivity |]. split.
      * apply after_no_partial_success; [exact Hb |].
        destruct (BridgeMain.json a);
          [apply print_json_texts | now apply (bridge_report_texts out a)].
      * intros Hout. unfold printed_all, after. cbn [snd].
        destruct (BridgeMain.json a);
          [now apply print_json_accepted | now apply (bridge_report_accepted out a)].
    + intros Hne.
      change (py_or None (env "USDC_PRIVATE_KEY")) with (env "USDC_PRIVATE_KEY") in Hkey.
      destruct (py_not (env "USDC_PRIVATE_KEY")); [| reflexivity].
      cbn in Hkey. now contradict Hne.
Qed.

Lemma bridge_main_wp (env : string -> option string) out a confirm :
  wp (BridgeMain.main (plain env) out a confirm)
     (fun res t =>
        match res with
        | inr o =>
            no_partial_success o
            /\ ((forall l, out l = None) -> printed_all o)
        | inl e => confirm = inl e
        end
        /\ (t <> [] -> consented env (BridgeMain.mainnet a) confirm)).
Proof.
  unfold BridgeMain.main. cbv zeta.
  destruct (BridgeMain.mainnet a) eqn:Hm; cbn [negb].
  - destruct confirm as [e | answer]; cbn [lift bind wp].
    + split; [reflexivity | intros H; now contradict H].
    + destruct (declined answer) eqn:Hd.
      * cbn [wp]. split; [| intros H; now contradict H]. split.
        -- apply prints_texts. reflexivity.
        -- intros Hout. apply prints_accepted; [exact Hout |].
           repeat (first [apply Forall_nil | apply Forall_cons]); eexists; reflexivity.
      * eapply wp_mono; [| apply bridge_and_report_wp].
        intros res t ((o' & -> & Ho) & Hk). split; [exact Ho |].
        intros Hne. split; [auto |]. intros _. exists answer.
        split; [reflexivity | now apply declined_consent].
  - eapply wp_mono; [| apply bridge_and_report_wp].
    intros res t ((o' & -> & Ho) & Hk). split; [exact Ho |].
    intros Hne. split; [auto | discriminate].
Qed.

Lemma balance_main_wp (env : string -> option string) out a :
  wp (BalanceMain.main (plain env) out a)
     (fun res t =>
        exists o, res = inr o /\ ((forall l, out l = None) -> printed_all o)).
Proof.
  unfold BalanceMain.main.
  apply wp_bind. eapply wp_mono; [| apply get_balance_wp2].
  intros res t ((d & -> & Hm) & _). cbn [wp].
  eexists. split; [reflexivity |]. intros Hout.
  destruct (BalanceMain.json a); [now apply print_json_accepted |].
  assert (Hshape : (exists msg, d = error_dict msg)
                   \/ (exists balance balance_raw decimals,
                         d = balance_dict (BalanceMain.address a)
                               (Balance.get_chain_key (chain_name (BalanceMain.chain a))
                                  (BalanceMain.testnet a))
                               (BalanceMain.testnet a) balance balance_raw decimals
                               (dict_get Balance.USDC_ADDRESSES
                                  (Balance.get_chain_key (chain_name (BalanceMain.chain a))
                                     (BalanceMain.testnet a))))).
  { destruct (balance_answers t) as [| [[? ?] raw] [| ? ?]]; try (left; exact Hm).
    destruct (decimals_answers t) as [| dec [| ? ?]]; try (left; exact Hm).
    destruct (PyFloat.int_truediv raw (10 ^ Z.of_N dec)) as [e | balance].
    - left. eexists; exact Hm.
    - right. do 3 eexists; exact Hm. }
  destruct Hshape as [(msg & ->) | (balance & raw & dec & ->)];
    (apply prints_accepted; [exact Hout |]);
    repeat (first [apply Forall_nil | apply Forall_cons]); eexists; reflexivity.
Qed.

(** X24: [main] of send.py makes a request only with a key in
    [USDC_PRIVATE_KEY] (it passes none itself) and, with [--mainnet], only
    after [input] gave a line that is "yes" in some casing. *)
Theorem send_main_asks_only_with_key_and_consent
    (S : Type) (o : oracle S) (s : S) (env : environ)
    (out : stdout) (a : SendMain.args) (confirm : exn + string) :
  trace_of (run o (SendMain.main env out a confirm) s) <> [] ->
  py_not (variables env "USDC_PRIVATE_KEY") = false
  /\ (SendMain.mainnet a = true ->
      exists answer : string,
        confirm = inr answer /\ String.eqb (PyStr.lower answer) "yes" = true).
Proof.
  rewrite send_main_choice. intros H.
  apply (wp_sound o _ _ s (send_main_wp (variables env) out a confirm)). exact H.
Qed.

Lemma send_main_asks_only_with_key_and_consent_witness :
  py_not (key_env "USDC_PRIVATE_KEY") = false
  /\ (SendMain.mainnet (sample_send_args true) = true ->
      exists answer : string,
        @inr exn string "Yes" = inr answer /\ String.eqb (PyStr.lower answer) "yes" = true).
Proof.
  apply (send_main_asks_only_with_key_and_consent unit cooperative tt (plain key_env)
           utf8_stdout (sample_send_args true) (inr "Yes")).
  vm_compute. discriminate.
Defined.

(** X25: [main] of bridge.py makes a request only with a key in
    [USDC_PRIVATE_KEY] (it passes none itself) and, with [--mainnet], only
    after [input] gave a line that is "yes" in some casing. *)
Theorem bridge_main_asks_only_with_key_and_consent
    (S : Type) (o : oracle S) (s : S) (env : environ)
    (out : stdout) (a : BridgeMain.args) (confirm : exn + string) :
  trace_of (run o (BridgeMain.main env out a confirm) s) <> [] ->
  py_not (variables env "USDC_PRIVATE_KEY") = false
  /\ (BridgeMain.mainnet a = true ->
      exists answer : string,
        confirm = inr answer /\ String.eqb (PyStr.lower answer) "yes" = true).
Proof.
  rewrite bridge_main_choice. intros H.
  apply (wp_sound o _ _ s (bridge_main_wp (variables env) out a confirm)). exact H.
Qed.

Lemma bridge_main_asks_only_with_key_and_consent_witness :
  py_not (key_env "USDC_PRIVATE_KEY") = false
  /\ (BridgeMain.mainnet (sample_bridge_args true false) = true ->
      exists answer : string,
        @inr exn string "YES" = inr answer /\ String.eqb (PyStr.lower answer) "yes" = true).
Proof.
  apply (bridge_main_asks_only_with_key_and_consent unit cooperative tt (plain key_env)
           utf8_stdout (sample_bridge_args true false) (inr "YES")).
  vm_compute. discriminate.
Defined.

(** X26: [main] of bridge.py never prints the heading of a partial success,
    whatever the standard output and the prompt do.  Every result of
    [bridge_usdc] that is not the success dict has an [error] key, the
    partial-success dict too, and [main] tests for that key first. *)
Theorem bridge_main_never_shows_partial_success
    (S : Type) (o : oracle S) (s : S) (env : environ)
    (out : stdout) (a : BridgeMain.args) (confirm : exn + string) :
  match result_of (run o (BridgeMain.main env out a confirm) s) with
  | inr (lines, _) => existsb shows_partial_success lines = false
  | inl e => confirm = inl e
  end.
Proof.
  rewrite bridge_main_choice.
  pose proof (wp_sound o _ _ s (bridge_main_wp (variables env) out a confirm)) as (H & _).
  destruct (result_of _) as [e | [lines oe]]; [exact H | apply H].
Qed.

(** After a burn whose attestation never came, the report is the error line
    alone; the hash of the burn is shown with [--json] only. *)
Example bridge_main_after_timeout :
  result_of (run never_attested
               (BridgeMain.main (plain key_env) utf8_stdout
                  (sample_bridge_args false false) (inr "")) tt)
  = inr (after (fst (BridgeMain.banner utf8_stdout (sample_bridge_args false false) true))
           (BridgeMain.report utf8_stdout [("error", VStr "Attestation timeout")]))
  /\ result_of (run never_attested
                  (BridgeMain.main (plain key_env) utf8_stdout
                     (sample_bridge_args false true) (inr "")) tt)
     = inr (after (fst (BridgeMain.banner utf8_stdout (sample_bridge_args false true) true))
              ([Json (partial_success_dict (repeat Byte.x02 32))], None)).
Proof. split; vm_compute; reflexivity. Qed.

(** On a standard output whose encoding is ASCII, [main] of send.py ends
    with the [UnicodeEncodeError] of its first line with a pictograph, and
    [main] of bridge.py with that of its banner, before any request. *)
Example mains_on_ascii_stdout :
  let e_send :=
    Exn "UnicodeEncodeError"
        "'ascii' codec can't encode character '\u274c' in position 0: ordinal not in range(128)" in
  let e_bridge :=
    Exn "UnicodeEncodeError"
        "'ascii' codec can't encode characters in position 0-3: ordinal not in range(128)" in
  run cooperative
    (SendMain.main (plain no_env) (ascii_stdout e_send) (sample_send_args false)
       (inr "")) tt
  = (inr ([], Some e_send), [], tt)
  /\ run cooperative
       (BridgeMain.main (plain key_env) (ascii_stdout e_bridge)
          (sample_bridge_args false false) (inr "")) tt
     = (inr ([], Some e_bridge), [], tt).
Proof. split; vm_compute; reflexivity. Qed.

(** X27: on a standard output that takes every line, and with the prompt
    answered, the three [main] functions end without an exception: whatever
    [get_balance], [send_usdc] and [bridge_usdc] return has the keys the
    report reads, and the balance is a number. *)
Theorem mains_report_every_result
    (S : Type) (o : oracle S) (s : S) (env : environ)
    (out : stdout) (a_balance : BalanceMain.args) (a_send : SendMain.args)
    (a_bridge : BridgeMain.args) (answer : string) :
  (forall l : line, out l = None) ->
  (exists lines : list line,
     result_of (run o (BalanceMain.main env out a_balance) s)
     = inr (lines, None))
  /\ (exists lines : list line,
        result_of (run o (SendMain.main env out a_send (inr answer)) s)
        = inr (lines, None))
  /\ (exists lines : list line,
        result_of (run o (BridgeMain.main env out a_bridge (inr answer)) s)
        = inr (lines, None)).
Proof.
  intros Hout.
  rewrite balance_main_choice, send_main_choice, bridge_main_choice.
  set (vars := variables env). repeat split.
  - destruct (wp_sound o _ _ s (balance_main_wp vars out a_balance)) as (r & Hr & Hp).
    specialize (Hp Hout). destruct r as [lines oe]. unfold printed_all in Hp.
    cbn [snd] in Hp. subst oe. now exists lines.
  - destruct (wp_sound o _ _ s (send_main_wp vars out a_send (inr answer))) as (Hs & _).
    destruct (Hs answer eq_refl Hout) as ([lines oe] & Hr & Hp).
    unfold printed_all in Hp. cbn [snd] in Hp. subst oe. now exists lines.
  - destruct (wp_sound o _ _ s (bridge_main_wp vars out a_bridge (inr answer))) as (Hs & _).
    destruct (result_of _) as [e | [lines oe]]; [discriminate Hs |].
    destruct Hs as (_ & Hp). specialize (Hp Hout).
    unfold printed_all in Hp. cbn [snd] in Hp. subst oe. now exists lines.
Qed.

Lemma mains_report_every_result_witness :
  (exists lines : list line,
     result_of (run cooperative
                  (BalanceMain.main (plain key_env) utf8_stdout sample_balance_args) tt)
     = inr (lines, None))
  /\ (exists lines : list line,
        result_of (run cooperative
                     (SendMain.main (plain key_env) utf8_stdout (sample_send_args true)
                        (inr "yes")) tt)
        = inr (lines, None))
  /\ (exists lines : list line,
        result_of (run cooperative
                     (BridgeMain.main (plain key_env) utf8_stdout
                        (sample_bridge_args true false) (inr "yes")) tt)
        = inr (lines, None)).
Proof.
  apply (mains_report_every_result unit cooperative tt (plain key_env)).
  intros l. reflexivity.
Defined.
